(** * ElDorado bookstore: validators, relational store and order workflow

    A shallow embedding of [bookstore_final.py].

    - Python [str] values are Rocq [string]s; every character is read as a
      code point below 256.
    - Money ([DECIMAL(10,2)] columns, and the [$%.2f] texts of the cart
      tree) is an integer number of cents; quantities and keys are [Z].
      Column widths ([INT], [DECIMAL(10,2)], [VARCHAR]) are not modelled.
    - The MySQL store is a record of row lists together with the
      [AUTO_INCREMENT] counters.  A statement either fails with a
      [DbError], leaving the store as it was, or yields the next store.
      The declared [CHECK] constraints, foreign keys and triggers are part
      of the statements.
    - [start_transaction] ... [commit] / [rollback] is one atomic unit: on
      an exception the store of the beginning of the unit is kept.  The
      connection is taken to have no transaction in progress when a unit
      starts, and the store to be reachable.
    - Message boxes are the [Outcome] of an operation. *)

From Stdlib Require Import ZArith NArith List String Ascii Bool Lia.
Import ListNotations.

Local Open Scope Z_scope.


(* ================================================================== *)
(** ** Python strings *)

Module Py.

Definition code (c : ascii) : N := N_of_ascii c.

Definition in_range (lo hi : N) (c : ascii) : bool :=
  (N.leb lo (code c) && N.leb (code c) hi)%bool.

(** [str.isspace] for one character; also the class [\s] of [re] on [str]
    patterns. *)
Definition is_unicode_space (c : ascii) : bool :=
  in_range 9 13 c || in_range 28 32 c
  || N.eqb (code c) 133 || N.eqb (code c) 160.

(** [Py_ISSPACE], used by the numeric parsers. *)
Definition is_c_space (c : ascii) : bool :=
  in_range 9 13 c || N.eqb (code c) 32.

Definition is_digit (c : ascii) : bool := in_range 48 57 c.
Definition is_lower (c : ascii) : bool := in_range 97 122 c.
Definition is_upper (c : ascii) : bool := in_range 65 90 c.
Definition is_alpha (c : ascii) : bool := is_lower c || is_upper c.

Definition digit_value (c : ascii) : Z := Z.of_N (code c) - 48.

Definition lower (c : ascii) : ascii :=
  if is_upper c then ascii_of_N (code c + 32) else c.

(** *** [str.strip()] *)

Fixpoint lstrip (s : string) : string :=
  match s with
  | EmptyString => EmptyString
  | String c r => if is_unicode_space c then lstrip r else s
  end.

Fixpoint rstrip (s : string) : string :=
  match s with
  | EmptyString => EmptyString
  | String c r =>
      match rstrip r with
      | EmptyString => if is_unicode_space c then EmptyString
                       else String c EmptyString
      | r' => String c r'
      end
  end.

Definition strip (s : string) : string := rstrip (lstrip s).

(** *** Preparation shared by [int(str)] and [float(str)]

    Characters from 128 up are replaced by a blank when they are white
    space and by [?] otherwise; the result is then trimmed with
    [Py_ISSPACE]. *)

Definition to_ascii (c : ascii) : ascii :=
  if N.leb 128 (code c)
  then (if is_unicode_space c then " "%char else "?"%char)
  else c.

Fixpoint drop_c_space (s : list ascii) : list ascii :=
  match s with
  | [] => []
  | c :: r => if is_c_space c then drop_c_space r else s
  end.

Definition trim_c_space (s : list ascii) : list ascii :=
  rev (drop_c_space (rev (drop_c_space s))).

Definition number_text (s : string) : list ascii :=
  trim_c_space (map to_ascii (list_ascii_of_string s)).

Definition take_sign (s : list ascii) : bool * list ascii :=
  match s with
  | c :: r =>
      if Ascii.eqb c "-"%char then (true, r)
      else if Ascii.eqb c "+"%char then (false, r)
      else (false, s)
  | [] => (false, [])
  end.

(** *** [int(str)], base 10

    [None] stands for the [ValueError].  The interpreter's configurable
    limit on the number of digits is not modelled. *)

Fixpoint int_digits (prev_underscore : bool) (acc : Z) (s : list ascii)
  : option Z :=
  match s with
  | [] => if prev_underscore then None else Some acc
  | c :: r =>
      if is_digit c then int_digits false (10 * acc + digit_value c) r
      else if Ascii.eqb c "_"%char
           then (if prev_underscore then None else int_digits true acc r)
           else None
  end.

Definition int_body (s : list ascii) : option Z :=
  match s with
  | c :: _ => if is_digit c then int_digits false 0 s else None
  | [] => None
  end.

Definition int (s : string) : option Z :=
  let (neg, r) := take_sign (number_text s) in
  match int_body r with
  | Some n => Some (if neg then - n else n)
  | None => None
  end.

(** *** [float(str)]

    The parser keeps the exact decimal that was read: the comparison with
    zero done by the caller is decided on it, with the rounding of the
    conversion to a double written out in [rounds_to_zero]. *)

Inductive float_lit : Type :=
| FNan
| FInf (neg : bool)
| FDec (neg : bool) (mantissa : Z) (exp10 : Z).

(** An underscore is accepted only between two digits; the text is then
    read without them. *)
Fixpoint strip_underscores (prev : option ascii) (s : list ascii)
  : option (list ascii) :=
  match s with
  | [] => match prev with
          | Some p => if Ascii.eqb p "_"%char then None else Some []
          | None => Some []
          end
  | c :: r =>
      if Ascii.eqb c "_"%char
      then match prev with
           | Some p => if is_digit p then strip_underscores (Some c) r
                       else None
           | None => None
           end
      else
        let ok := match prev with
                  | Some p => negb (Ascii.eqb p "_"%char) || is_digit c
                  | None => true
                  end in
        if ok
        then match strip_underscores (Some c) r with
             | Some r' => Some (c :: r')
             | None => None
             end
        else None
  end.

Fixpoint span_digits (s : list ascii) : list ascii * list ascii :=
  match s with
  | c :: r =>
      if is_digit c
      then let (d, t) := span_digits r in (c :: d, t)
      else ([], s)
  | [] => ([], [])
  end.

Definition digits_value (ds : list ascii) : Z :=
  fold_left (fun a c => 10 * a + digit_value c) ds 0.

Definition is_exp_mark (c : ascii) : bool :=
  Ascii.eqb c "e"%char || Ascii.eqb c "E"%char.

(** [number [exponent]]: mantissa and decimal exponent. *)
Definition parse_decimal (s : list ascii) : option (Z * Z) :=
  let (ip, r1) := span_digits s in
  let (fp, r2) :=
    match r1 with
    | c :: r => if Ascii.eqb c "."%char then span_digits r else ([], r1)
    | [] => ([], r1)
    end in
  match (ip ++ fp)%list with
  | [] => None
  | ds =>
      let m := digits_value ds in
      let shift := Z.of_nat (List.length fp) in
      match r2 with
      | [] => Some (m, - shift)
      | c :: r3 =>
          if is_exp_mark c
          then
            let (eneg, r4) := take_sign r3 in
            match span_digits r4 with
            | ((_ :: _) as ed, []) =>
                let e := digits_value ed in
                Some (m, (if eneg then - e else e) - shift)
            | _ => None
            end
          else None
      end
  end.

Definition parse_inf_or_nan (s : list ascii) : option bool :=
  let t := string_of_list_ascii (map lower s) in
  if String.eqb t "inf"%string || String.eqb t "infinity"%string then Some true
  else if String.eqb t "nan"%string then Some false
  else None.

Definition float (s : string) : option float_lit :=
  match strip_underscores None (number_text s) with
  | None => None
  | Some t =>
      let (neg, r) := take_sign t in
      match parse_decimal r with
      | Some (m, e) => Some (FDec neg m e)
      | None =>
          match parse_inf_or_nan r with
          | Some true => Some (FInf neg)
          | Some false => Some FNan
          | None => None
          end
      end
  end.

(** [m * 10^e] is at most half of the least positive double, [2^-1075]:
    the correctly rounded double is a zero. *)
Definition rounds_to_zero (m e : Z) : bool :=
  (m =? 0) || ((e <? 0) && (m * 2 ^ 1075 <=? 10 ^ (- e))).

(** [x >= 0] for the double that [float] returns. *)
Definition float_ge_zero (x : float_lit) : bool :=
  match x with
  | FNan => false
  | FInf neg => negb neg
  | FDec neg m e => negb neg || rounds_to_zero m e
  end.

End Py.

(* ================================================================== *)
(** ** Regular expressions, as far as the validators use them *)

Module Re.

Inductive regex : Type :=
| Void
| Eps
| Class (p : ascii -> bool)
| Cat (r s : regex)
| Alt (r s : regex)
| Rep (r : regex) (lo : nat) (hi : option nat).

Fixpoint nullable (r : regex) : bool :=
  match r with
  | Void => false
  | Eps => true
  | Class _ => false
  | Cat r s => nullable r && nullable s
  | Alt r s => nullable r || nullable s
  | Rep r lo _ => Nat.eqb lo 0 || nullable r
  end.

Definition cat (r s : regex) : regex :=
  match r, s with
  | Void, _ => Void
  | _, Void => Void
  | Eps, _ => s
  | _, _ => Cat r s
  end.

Definition alt (r s : regex) : regex :=
  match r, s with
  | Void, _ => s
  | _, Void => r
  | _, _ => Alt r s
  end.

Fixpoint deriv (c : ascii) (r : regex) : regex :=
  match r with
  | Void => Void
  | Eps => Void
  | Class p => if p c then Eps else Void
  | Cat r s =>
      if nullable r then alt (cat (deriv c r) s) (deriv c s)
      else cat (deriv c r) s
  | Alt r s => alt (deriv c r) (deriv c s)
  | Rep r lo hi =>
      match hi with
      | Some O => Void
      | _ => cat (deriv c r) (Rep r (Nat.pred lo) (option_map Nat.pred hi))
      end
  end.

Fixpoint matches (r : regex) (s : string) : bool :=
  match s with
  | EmptyString => nullable r
  | String c t => matches (deriv c r) t
  end.

(** What the expressions mean: the texts each one matches in full. *)

Definition within (hi : option nat) (k : nat) : Prop :=
  match hi with
  | Some h => (k <= h)%nat
  | None => True
  end.

Definition join (parts : list string) : string :=
  fold_right String.append EmptyString parts.

Fixpoint denotes (r : regex) (w : string) : Prop :=
  match r with
  | Void => False
  | Eps => w = EmptyString
  | Class p => exists c, w = String c EmptyString /\ p c = true
  | Cat r s =>
      exists u v, w = String.append u v /\ denotes r u /\ denotes s v
  | Alt r s => denotes r w \/ denotes s w
  | Rep r lo hi =>
      exists parts,
        (lo <= List.length parts)%nat /\ within hi (List.length parts)
        /\ Forall (denotes r) parts /\ w = join parts
  end.

(** The bounds of a repetition are in order and its body does not match
    the empty text, as in the three patterns below. *)
Fixpoint well_formed (r : regex) : bool :=
  match r with
  | Cat r s | Alt r s => well_formed r && well_formed s
  | Rep r lo hi =>
      well_formed r && negb (nullable r)
      && match hi with
         | Some h => Nat.leb lo h
         | None => true
         end
  | _ => true
  end.

(** [bool(re.fullmatch(pattern, s))].  Under [fullmatch] the anchors [^]
    and [$] of the three patterns hold exactly at the two ends, so they
    add nothing to the expression. *)
Definition fullmatch (r : regex) (s : string) : bool := matches r s.

Definition opt (r : regex) : regex := Rep r 0 (Some 1%nat).
Definition plus (r : regex) : regex := Rep r 1 None.
Definition chr (a : ascii) : regex := Class (Ascii.eqb a).

Definition one_of (l : list ascii) (c : ascii) : bool :=
  existsb (Ascii.eqb c) l.

(** [[A-Za-z\s]] *)
Definition name_char (c : ascii) : bool :=
  Py.is_upper c || Py.is_lower c || Py.is_unicode_space c.

(** [[a-zA-Z0-9._%+-]] *)
Definition local_char (c : ascii) : bool :=
  Py.is_lower c || Py.is_upper c || Py.is_digit c
  || one_of ["."; "_"; "%"; "+"; "-"]%char c.

(** [[a-zA-Z0-9.-]] *)
Definition domain_char (c : ascii) : bool :=
  Py.is_lower c || Py.is_upper c || Py.is_digit c
  || one_of ["."; "-"]%char c.

(** [^[A-Za-z\s]{2,50}$] *)
Definition name_pattern : regex := Rep (Class name_char) 2 (Some 50%nat).

(** [^\+?\d{10,15}$] *)
Definition phone_pattern : regex :=
  Cat (opt (chr "+"%char)) (Rep (Class Py.is_digit) 10 (Some 15%nat)).

(** [^[a-zA-Z0-9._%+-]+@[a-zA-Z0-9.-]+\.[a-zA-Z]{2,}$] *)
Definition email_pattern : regex :=
  Cat (plus (Class local_char))
   (Cat (chr "@"%char)
     (Cat (plus (Class domain_char))
       (Cat (chr "."%char) (Rep (Class Py.is_alpha) 2 None)))).

End Re.

(* ================================================================== *)
(** ** class Validators *)

Definition validate_name (name : string) : bool :=
  Re.fullmatch Re.name_pattern (Py.strip name).

Definition validate_phone (phone : string) : bool :=
  Re.fullmatch Re.phone_pattern (Py.strip phone).

Definition validate_email (email : string) : bool :=
  Re.fullmatch Re.email_pattern (Py.strip email).

(** [try: return float(price) >= 0 / except ValueError: return False] *)
Definition validate_price (price : string) : bool :=
  match Py.float price with
  | Some x => Py.float_ge_zero x
  | None => false
  end.

(** [try: return int(quantity) > 0 / except ValueError: return False] *)
Definition validate_quantity (quantity : string) : bool :=
  match Py.int quantity with
  | Some n => 0 <? n
  | None => false
  end.

(* ================================================================== *)
(** ** The schema of [DatabaseManager.initialize_database]

    The time stamps [HireDate], [LastUpdated] and [ActionTime] are left
    out of the rows. *)

Inductive Role : Type := Manager | Clerk | Librarian.
Inductive OrderStatus : Type := Pending | Completed | Cancelled.
Inductive LogAction : Type := INSERT | UPDATE | DELETE.
Inductive Member : Type := Yes | No.

Definition Role_eqb (a b : Role) : bool :=
  match a, b with
  | Manager, Manager | Clerk, Clerk | Librarian, Librarian => true
  | _, _ => false
  end.

Definition OrderStatus_eqb (a b : OrderStatus) : bool :=
  match a, b with
  | Pending, Pending | Completed, Completed | Cancelled, Cancelled => true
  | _, _ => false
  end.

Record StaffRow : Type := mkStaff {
  StaffID : Z;
  s_Name : string;
  s_Role : Role;
  s_Email : string;
  s_Phone : string;
  PasswordHash : string
}.

Record BookRow : Type := mkBook {
  BookID : Z;
  BookName : string;
  Genre : string;
  Quantity : Z;
  Author : string;
  Publisher : string;
  Price : Z;
  Update_by : Z
}.

Record AccountRow : Type := mkAccount {
  CustomerID : Z;
  CustomerName : string;
  a_Phone : string;
  a_Email : option string;
  Membership : Member
}.

Record OrderRow : Type := mkOrder {
  OrderID : Z;
  o_CustomerID : Z;
  o_StaffID : Z;
  OrderDate : Z;
  TotalAmount : Z;
  Status : OrderStatus
}.

Record OrderItemRow : Type := mkOrderItem {
  OrderItemID : Z;
  i_OrderID : Z;
  i_BookID : Z;
  i_Quantity : Z;
  i_Price : Z
}.

Record BookLogRow : Type := mkBookLog {
  LogID : Z;
  l_BookID : Z;
  Action : LogAction;
  ActionBy : Z
}.

Record Database : Type := mkDatabase {
  Staff : list StaffRow;
  Books : list BookRow;
  Accounts : list AccountRow;
  Orders : list OrderRow;
  OrderItems : list OrderItemRow;
  BookLog : list BookLogRow;
  next_OrderID : Z;
  next_OrderItemID : Z;
  next_LogID : Z
}.

Definition with_Staff (v : list StaffRow) (d : Database) : Database :=
  mkDatabase v (Books d) (Accounts d) (Orders d) (OrderItems d) (BookLog d)
             (next_OrderID d) (next_OrderItemID d) (next_LogID d).

Definition with_Books (v : list BookRow) (d : Database) : Database :=
  mkDatabase (Staff d) v (Accounts d) (Orders d) (OrderItems d) (BookLog d)
             (next_OrderID d) (next_OrderItemID d) (next_LogID d).

Definition with_Orders (v : list OrderRow) (d : Database) : Database :=
  mkDatabase (Staff d) (Books d) (Accounts d) v (OrderItems d) (BookLog d)
             (next_OrderID d) (next_OrderItemID d) (next_LogID d).

Definition with_BookLog (v : list BookLogRow) (d : Database) : Database :=
  mkDatabase (Staff d) (Books d) (Accounts d) (Orders d) (OrderItems d) v
             (next_OrderID d) (next_OrderItemID d) (next_LogID d).

(* ================================================================== *)
(** ** SQL statements *)

Inductive DbError : Type :=
| ForeignKeyFails     (* a foreign key constraint fails *)
| CheckViolated.      (* a CHECK constraint is violated *)

Inductive result (A : Type) : Type :=
| Ok (a : A)
| Raise (e : DbError).

Arguments Ok {A} a.
Arguments Raise {A} e.

(** A statement, or a sequence of statements, run on a cursor. *)
Definition Sql (A : Type) : Type := Database -> result (A * Database).

Definition ret {A} (a : A) : Sql A := fun d => Ok (a, d).

Definition bind {A B} (m : Sql A) (k : A -> Sql B) : Sql B :=
  fun d => match m d with
           | Ok (a, d') => k a d'
           | Raise e => Raise e
           end.

Definition throw {A} (e : DbError) : Sql A := fun _ => Raise e.

Declare Scope sql_scope.
Delimit Scope sql_scope with sql.
Notation "x <- m ;; k" := (bind m (fun x => k))
  (at level 61, m at next level, right associativity) : sql_scope.
Notation "m ;; k" := (bind m (fun _ => k))
  (at level 61, right associativity) : sql_scope.
Local Open Scope sql_scope.

Fixpoint for_each {A} (l : list A) (body : A -> Sql unit) : Sql unit :=
  match l with
  | [] => ret tt
  | a :: r => body a ;; for_each r body
  end.

(** *** Queries *)

Definition has_staff (id : Z) (d : Database) : bool :=
  existsb (fun s => StaffID s =? id) (Staff d).

Definition has_book (id : Z) (d : Database) : bool :=
  existsb (fun b => BookID b =? id) (Books d).

Definition has_account (id : Z) (d : Database) : bool :=
  existsb (fun a => CustomerID a =? id) (Accounts d).

Definition has_order (id : Z) (d : Database) : bool :=
  existsb (fun o => OrderID o =? id) (Orders d).

Definition is_manager (s : StaffRow) : bool := Role_eqb (s_Role s) Manager.

(** [SELECT StaffID FROM Staff WHERE Role='Manager' LIMIT 1] *)
Definition select_manager (d : Database) : option Z :=
  option_map StaffID (find is_manager (Staff d)).

(** [SELECT COUNT( * ) FROM Staff WHERE Role='Manager'] *)
Definition count_managers (d : Database) : Z :=
  Z.of_nat (List.length (filter is_manager (Staff d))).

(** [SELECT Role FROM Staff WHERE StaffID=%s], first row *)
Definition select_role (id : Z) (d : Database) : option Role :=
  option_map s_Role (find (fun s => StaffID s =? id) (Staff d)).

(** [SELECT BookName, Price, Quantity FROM Books WHERE BookID=%s], first
    row *)
Definition select_book (id : Z) (d : Database) : option BookRow :=
  find (fun b => BookID b =? id) (Books d).

(** [SELECT BookID, Quantity FROM OrderItems WHERE OrderID=%s] *)
Definition select_order_items (order_id : Z) (d : Database)
  : list (Z * Z) :=
  map (fun i => (i_BookID i, i_Quantity i))
      (filter (fun i => i_OrderID i =? order_id) (OrderItems d)).

(** *** Inserts *)

(** [INSERT INTO BookLog(BookID, Action, ActionBy)], with its two foreign
    keys. *)
Definition insert_BookLog (book_id : Z) (action : LogAction) (by_ : Z)
  : Sql unit :=
  fun d =>
    if has_book book_id d && has_staff by_ d
    then Ok (tt, mkDatabase (Staff d) (Books d) (Accounts d) (Orders d)
                   (OrderItems d)
                   (BookLog d ++ [mkBookLog (next_LogID d) book_id action by_])
                   (next_OrderID d) (next_OrderItemID d) (next_LogID d + 1))
    else Raise ForeignKeyFails.

(** [INSERT INTO Orders (CustomerID, StaffID, OrderDate, TotalAmount,
    Status)]; the value is [cursor.lastrowid]. *)
Definition insert_Orders (customer_id staff_id order_date total : Z)
  (status : OrderStatus) : Sql Z :=
  fun d =>
    if has_account customer_id d && has_staff staff_id d
    then Ok (next_OrderID d,
             mkDatabase (Staff d) (Books d) (Accounts d)
               (Orders d ++ [mkOrder (next_OrderID d) customer_id staff_id
                                     order_date total status])
               (OrderItems d) (BookLog d)
               (next_OrderID d + 1) (next_OrderItemID d) (next_LogID d))
    else Raise ForeignKeyFails.

(** [INSERT INTO OrderItems (OrderID, BookID, Quantity, Price)] *)
Definition insert_OrderItems (order_id book_id quantity price : Z)
  : Sql unit :=
  fun d =>
    if has_order order_id d && has_book book_id d
    then Ok (tt, mkDatabase (Staff d) (Books d) (Accounts d) (Orders d)
                   (OrderItems d ++
                      [mkOrderItem (next_OrderItemID d) order_id book_id
                                   quantity price])
                   (BookLog d)
                   (next_OrderID d) (next_OrderItemID d + 1) (next_LogID d))
    else Raise ForeignKeyFails.

(** *** Triggers *)

(** [AfterBookUpdate], for one updated row. *)
Definition AfterBookUpdate (new : BookRow) : Sql unit :=
  insert_BookLog (BookID new) UPDATE (Update_by new).

(** [BeforeBookDelete], for one row about to be deleted. *)
Definition BeforeBookDelete (old : BookRow) : Sql unit :=
  fun d =>
    match select_manager d with
    | Some manager_id => insert_BookLog (BookID old) DELETE manager_id d
    | None => Ok (tt, d)
    end.

(** *** Updates and deletes *)

Definition take_from (quantity : Z) (b : BookRow) : BookRow :=
  mkBook (BookID b) (BookName b) (Genre b) (Quantity b - quantity)
         (Author b) (Publisher b) (Price b) (Update_by b).

(** What [SET Quantity = Quantity - %s WHERE BookID = %s] does to a row. *)
Definition decrement (quantity book_id : Z) (b : BookRow) : BookRow :=
  if BookID b =? book_id then take_from quantity b else b.

(** [UPDATE Books SET Quantity = Quantity - %s WHERE BookID = %s], with
    [CHECK (Quantity >= 0)] on the rows written and the update trigger. *)
Definition update_Books_Quantity (quantity book_id : Z) : Sql unit :=
  fun d =>
    let written :=
      map (take_from quantity)
          (filter (fun b => BookID b =? book_id) (Books d)) in
    if forallb (fun b => 0 <=? Quantity b) written
    then for_each written AfterBookUpdate
           (with_Books (map (decrement quantity book_id) (Books d)) d)
    else Raise CheckViolated.

Definition set_Status (status : OrderStatus) (o : OrderRow) : OrderRow :=
  mkOrder (OrderID o) (o_CustomerID o) (o_StaffID o) (OrderDate o)
          (TotalAmount o) status.

(** What [SET Status=%s WHERE OrderID=%s] does to a row. *)
Definition restatus (status : OrderStatus) (order_id : Z) (o : OrderRow)
  : OrderRow :=
  if OrderID o =? order_id then set_Status status o else o.

(** [UPDATE Orders SET Status=%s WHERE OrderID=%s] *)
Definition update_Orders_Status (status : OrderStatus) (order_id : Z)
  : Sql unit :=
  fun d => Ok (tt, with_Orders (map (restatus status order_id) (Orders d)) d).

(** One row of [DELETE FROM Books]: the trigger runs first; [OrderItems]
    restricts the delete; [BookLog] follows it ([ON DELETE CASCADE]). *)
Definition delete_book_row (old : BookRow) : Sql unit :=
  BeforeBookDelete old ;;
  fun d =>
    if existsb (fun i => i_BookID i =? BookID old) (OrderItems d)
    then Raise ForeignKeyFails
    else Ok (tt,
             with_BookLog
               (filter (fun l => negb (l_BookID l =? BookID old)) (BookLog d))
               (with_Books
                  (filter (fun b => negb (BookID b =? BookID old)) (Books d))
                  d)).

(** [DELETE FROM Books WHERE BookID = %s] *)
Definition delete_Books (book_id : Z) : Sql unit :=
  fun d => for_each (filter (fun b => BookID b =? book_id) (Books d))
                    delete_book_row d.

(** The rows that [DELETE FROM Staff WHERE StaffID = %s] leaves. *)
Definition other_than (staff_id : Z) (s : StaffRow) : bool :=
  negb (StaffID s =? staff_id).

(** [DELETE FROM Staff WHERE StaffID = %s]; [Books.Update_by],
    [Orders.StaffID] and [BookLog.ActionBy] restrict it. *)
Definition delete_Staff (staff_id : Z) : Sql unit :=
  fun d =>
    if has_staff staff_id d
       && (existsb (fun b => Update_by b =? staff_id) (Books d)
           || existsb (fun o => o_StaffID o =? staff_id) (Orders d)
           || existsb (fun l => ActionBy l =? staff_id) (BookLog d))
    then Raise ForeignKeyFails
    else Ok (tt, with_Staff (filter (other_than staff_id) (Staff d)) d).

(** *** Units of work *)

(** [DatabaseManager.execute_query] without [fetch]: run the statement,
    then [commit()]; on an error the caller sees the exception. *)
Definition execute_query (q : Sql unit) (d : Database) : result Database :=
  match q d with
  | Ok (_, d') => Ok d'
  | Raise e => Raise e
  end.

(** [start_transaction()], the statements, [commit()]; an exception
    leaves the unit before the commit. *)
Definition transaction {A} (body : Sql A) (d : Database)
  : result (A * Database) := body d.

(* ================================================================== *)
(** ** class BookstoreApp: the state the operations read and write *)

(** A row of [cart_tree]:
    [(book_id, book_name, quantity, f"${price:.2f}", f"${subtotal:.2f}")].
    The two texts are kept as cents. *)
Record CartLine : Type := mkCartLine {
  c_BookID : Z;
  c_BookName : string;
  c_Quantity : Z;
  c_Price : Z;
  c_Subtotal : Z
}.

(** A row of [pending_orders_tree]:
    [(order_id, customer, formatted_date, formatted_total, status)]. *)
Record PendingRow : Type := mkPendingRow {
  p_OrderID : Z;
  p_Customer : string;
  p_Date : Z;
  p_Total : Z;
  p_Status : OrderStatus
}.

Record App : Type := mkApp {
  db : Database;
  current_staff_id : Z;             (* [self.current_staff['id']] *)
  customer_combobox : option Z;     (* id part of the selected customer *)
  cart_tree : list CartLine;
  pending_orders_tree : list PendingRow
}.

Definition with_db (d : Database) (a : App) : App :=
  mkApp d (current_staff_id a) (customer_combobox a) (cart_tree a)
        (pending_orders_tree a).

Definition with_cart (c : list CartLine) (a : App) : App :=
  mkApp (db a) (current_staff_id a) (customer_combobox a) c
        (pending_orders_tree a).

Definition with_pending (p : list PendingRow) (a : App) : App :=
  mkApp (db a) (current_staff_id a) (customer_combobox a) (cart_tree a) p.

Definition with_customer (c : option Z) (a : App) : App :=
  mkApp (db a) (current_staff_id a) c (cart_tree a) (pending_orders_tree a).

(** [connection.rollback()], in [execute_query] and in the [except]
    clauses: the statements run since the last commit are dropped, and
    the store is the committed one, which is [db a]. *)
Definition rollback (a : App) : App := with_db (db a) a.

(** The texts of [messagebox.showerror]. *)
Inductive ErrorMessage : Type :=
| Please_select_a_book
| Failed_to_add_to_cart                      (* [int()] raised *)
| Quantity_must_be_positive
| Book_not_found
| Only_available_in_stock (available_qty : Z)
| Please_select_a_customer
| Cart_is_empty
| Failed_to_place_order (e : DbError)
| Please_select_an_order
| Only_pending_orders_can_be_modified
| Failed_to_update_order (e : DbError)
| Cannot_delete_book_no_manager_exists_for_logging
| Failed_to_delete (e : DbError)
| No_staff_member_selected
| Cannot_delete_currently_logged_in_staff
| Cannot_delete_the_last_manager
| Failed_to_delete_staff (e : DbError).

(** The texts of [messagebox.showinfo]. *)
Inductive InfoMessage : Type :=
| Order_placed_successfully (order_id : Z) (status : OrderStatus)
| Order_updated_to (order_id : Z) (new_status : OrderStatus)
| Book_deleted_successfully
| Staff_member_deleted_successfully.

Inductive Outcome : Type :=
| Done                          (* returns without a message box *)
| ShowError (m : ErrorMessage)
| ShowInfo (m : InfoMessage).

(** *** Cart *)

(** [add_to_cart].  [book_selection] is the id part of the chosen
    combobox entry, [order_qty] the text of the quantity field. *)
Definition add_to_cart (book_selection : option Z) (order_qty : string)
  (a : App) : App * Outcome :=
  match book_selection with
  | None => (a, ShowError Please_select_a_book)
  | Some book_id =>
      match Py.int order_qty with
      | None => (a, ShowError Failed_to_add_to_cart)
      | Some quantity =>
          if quantity <=? 0
          then (a, ShowError Quantity_must_be_positive)
          else
            match select_book book_id (db a) with
            | None => (a, ShowError Book_not_found)
            | Some book =>
                let price := Price book in
                let available_qty := Quantity book in
                if quantity >? available_qty
                then (a, ShowError (Only_available_in_stock available_qty))
                else
                  let subtotal := price * quantity in
                  (with_cart
                     (cart_tree a ++
                        [mkCartLine book_id (BookName book) quantity price
                                    subtotal]) a,
                   Done)
            end
      end
  end.


Definition total_amount (cart : list CartLine) : Z :=
  fold_left (fun n l => n + c_Subtotal l) cart 0.

Definition clear_cart (a : App) : App := with_cart [] a.

(** *** Orders *)

(** The rows [load_pending_orders] puts in the tree; their order in the
    tree ([ORDER BY o.OrderDate DESC]) is not modelled. *)
Definition pending_rows (d : Database) : list PendingRow :=
  flat_map
    (fun o =>
       if OrderStatus_eqb (Status o) Pending
       then map (fun c => mkPendingRow (OrderID o) (CustomerName c)
                            (OrderDate o) (TotalAmount o) (Status o))
                (filter (fun c => CustomerID c =? o_CustomerID o)
                        (Accounts d))
       else [])
    (Orders d).

Definition load_pending_orders (a : App) : App :=
  with_pending (pending_rows (db a)) a.

(** The body of the loop over the cart in [place_order]. *)
Definition order_item_statements (status : OrderStatus) (order_id : Z)
  (item : CartLine) : Sql unit :=
  insert_OrderItems order_id (c_BookID item) (c_Quantity item)
                    (c_Price item) ;;
  if OrderStatus_eqb status Completed
  then update_Books_Quantity (c_Quantity item) (c_BookID item)
  else ret tt.

(** The statements of [place_order] between [start_transaction()] and
    [commit()]. *)
Definition place_order_statements (customer_id staff_id order_date : Z)
  (status : OrderStatus) (cart_items : list CartLine) : Sql Z :=
  order_id <- insert_Orders customer_id staff_id order_date
                (total_amount cart_items) status ;;
  for_each cart_items (order_item_statements status order_id) ;;
  ret order_id.

(** [place_order(status)]; [now] is [datetime.now()]. *)
Definition place_order (status : OrderStatus) (now : Z) (a : App)
  : App * Outcome :=
  match customer_combobox a with
  | None => (a, ShowError Please_select_a_customer)
  | Some customer_id =>
      match cart_tree a with
      | [] => (a, ShowError Cart_is_empty)
      | cart_items =>
          match transaction
                  (place_order_statements customer_id (current_staff_id a)
                     now status cart_items) (db a) with
          | Ok (order_id, d') =>
              (load_pending_orders (clear_cart (with_db d' a)),
               ShowInfo (Order_placed_successfully order_id status))
          | Raise e => (rollback a, ShowError (Failed_to_place_order e))
          end
      end
  end.

(** The statements of [update_order_status]. *)
Definition update_order_status_statements (new_status : OrderStatus)
  (order_id : Z) : Sql unit :=
  (if OrderStatus_eqb new_status Completed
   then fun d =>
          for_each (select_order_items order_id d)
            (fun item => update_Books_Quantity (snd item) (fst item)) d
   else ret tt) ;;
  update_Orders_Status new_status order_id.

(** [update_order_status(new_status)]; [selection] is the position of
    the selected row of [pending_orders_tree], if any. *)
Definition update_order_status (new_status : OrderStatus)
  (selection : option nat) (a : App) : App * Outcome :=
  match selection with
  | None => (a, ShowError Please_select_an_order)
  | Some i =>
      match nth_error (pending_orders_tree a) i with
      | None => (a, ShowError Please_select_an_order)
      | Some row =>
          let order_id := p_OrderID row in
          let current_status := p_Status row in
          if negb (OrderStatus_eqb current_status Pending)
          then (a, ShowError Only_pending_orders_can_be_modified)
          else
            match transaction
                    (update_order_status_statements new_status order_id)
                    (db a) with
            | Ok (_, d') =>
                (load_pending_orders (with_db d' a),
                 ShowInfo (Order_updated_to order_id new_status))
            | Raise e => (rollback a, ShowError (Failed_to_update_order e))
            end
      end
  end.

(** *** Catalog and staff *)

(** [delete_selected_book]; [selection] is the id part of the chosen
    combobox entry, [confirm] the answer to [askyesno]. *)
Definition delete_selected_book (selection : option Z) (confirm : bool)
  (a : App) : App * Outcome :=
  match selection with
  | None => (a, Done)
  | Some book_id =>
      if negb confirm then (a, Done)
      else
        match select_manager (db a) with
        | None =>
            (a, ShowError Cannot_delete_book_no_manager_exists_for_logging)
        | Some _ =>
            match execute_query (delete_Books book_id) (db a) with
            | Ok d' => (with_db d' a, ShowInfo Book_deleted_successfully)
            | Raise e => (rollback a, ShowError (Failed_to_delete e))
            end
        end
  end.

(** [delete_staff]; [selected_staff_id] is [None] while the attribute is
    not set. *)
Definition delete_staff (selected_staff_id : option Z) (confirm : bool)
  (a : App) : App * Outcome :=
  match selected_staff_id with
  | None => (a, ShowError No_staff_member_selected)
  | Some staff_id =>
      if negb confirm then (a, Done)
      else if current_staff_id a =? staff_id
      then (a, ShowError Cannot_delete_currently_logged_in_staff)
      else
        let last_manager :=
          match select_role staff_id (db a) with
          | Some Manager => count_managers (db a) <=? 1
          | _ => false
          end in
        if last_manager
        then (a, ShowError Cannot_delete_the_last_manager)
        else
          match execute_query (delete_Staff staff_id) (db a) with
          | Ok d' => (with_db d' a, ShowInfo Staff_member_deleted_successfully)
          | Raise e => (rollback a, ShowError (Failed_to_delete_staff e))
          end
  end.

(** *** Sessions

    What a staff member can do in the windows modelled here, and the
    orders whose lines were taken from stock by an operation. *)

(** Opening the order window: [order_management] builds an empty cart
    and customer selection and loads the pending orders. *)
Definition open_order_window (d : Database) (staff_id : Z) : App :=
  load_pending_orders (mkApp d staff_id None [] []).

Inductive Command : Type :=
| Order_management
| Add_to_cart (book_selection : option Z) (order_qty : string)
| Clear_cart
| Select_customer (selection : option Z)
| Place_order (status : OrderStatus) (now : Z)
| Update_order_status (new_status : OrderStatus) (selection : option nat)
| Refresh_pending
| Delete_selected_book (selection : option Z) (confirm : bool)
| Delete_staff (selected_staff_id : option Z) (confirm : bool).

Definition perform (c : Command) (a : App) : App * Outcome :=
  match c with
  | Order_management =>
      (open_order_window (db a) (current_staff_id a), Done)
  | Add_to_cart b q => add_to_cart b q a
  | Clear_cart => (clear_cart a, Done)
  | Select_customer s => (with_customer s a, Done)
  | Place_order status now => place_order status now a
  | Update_order_status new_status sel => update_order_status new_status sel a
  | Refresh_pending => (load_pending_orders a, Done)
  | Delete_selected_book sel confirm => delete_selected_book sel confirm a
  | Delete_staff sel confirm => delete_staff sel confirm a
  end.

(** The order for which a command ran the stock update, if it did. *)
Definition decremented_for (c : Command) (o : Outcome) : option Z :=
  match c, o with
  | Place_order Completed _, ShowInfo (Order_placed_successfully id _) =>
      Some id
  | Update_order_status Completed _, ShowInfo (Order_updated_to id _) =>
      Some id
  | _, _ => None
  end.

(** Runs the commands in turn; the second component lists, latest first,
    the orders for which stock was decremented. *)
Fixpoint run (cs : list Command) (a : App) (log : list Z)
  : App * list Z :=
  match cs with
  | [] => (a, log)
  | c :: r =>
      let (a', o) := perform c a in
      run r a' (match decremented_for c o with
                | Some id => id :: log
                | None => log
                end)
  end.

(** *** Read-outs used in the statements *)

Definition stock (book_id : Z) (d : Database) : option Z :=
  option_map Quantity (select_book book_id d).

Definition find_order (order_id : Z) (d : Database) : option OrderRow :=
  find (fun o => OrderID o =? order_id) (Orders d).

Definition order_status (order_id : Z) (d : Database)
  : option OrderStatus :=
  option_map Status (find_order order_id d).

(** Quantity ordered for one book over the lines of an order. *)
Definition ordered_quantity (book_id : Z) (items : list (Z * Z)) : Z :=
  fold_right (fun i n => if fst i =? book_id then snd i + n else n) 0 items.

(* ================================================================== *)
(** ** Example stores used by the closed lemmas below *)

Definition admin : StaffRow :=
  mkStaff 1 "Admin" Manager "admin@eldorado.com" "0000000000" "".

Definition clerk : StaffRow :=
  mkStaff 2 "Carol" Clerk "carol@eldorado.com" "1111111111" "".

Definition second_manager : StaffRow :=
  mkStaff 3 "Megan" Manager "megan@eldorado.com" "2222222222" "".

Definition book7 (quantity price : Z) : BookRow :=
  mkBook 7 "Dune" "SF" quantity "Herbert" "Ace" price 1.

Definition book3 (quantity price : Z) : BookRow :=
  mkBook 3 "Emma" "Novel" quantity "Austen" "Penguin" price 1.

Definition customer : AccountRow :=
  mkAccount 10 "Ann" "3333333333" None No.

(** One manager, one clerk, one book, one customer, no orders. *)
Definition shop (quantity price : Z) : Database :=
  mkDatabase [admin; clerk] [book7 quantity price] [customer] [] [] []
             1 1 1.

(** The same shop after book 7 was sold once: order 1 has a line for it. *)
Definition shop_with_order : Database :=
  mkDatabase [admin; clerk] [book7 4 1500] [customer]
             [mkOrder 1 10 2 0 1500 Completed]
             [mkOrderItem 1 1 7 1 1500] []
             2 2 1.


(** The only manager, logged in. *)
Definition admin_session : App := mkApp (shop 5 1500) 1 None [] [].

(** The clerk, logged in. *)
Definition clerk_session : App := mkApp (shop 5 1500) 2 None [] [].

(** The clerk, logged in to a shop with a second manager. *)
Definition two_managers_session : App :=
  mkApp (mkDatabase [admin; clerk; second_manager] [book7 5 1500]
                    [customer] [] [] [] 1 1 1)
        2 None [] [].

(** The clerk about to commit a cart of two lines for book 7, the
    second one for more than the 5 copies in stock. *)
Definition short_cart_session : App :=
  mkApp (shop 5 1500) 2 (Some 10)
        [mkCartLine 7 "Dune" 2 1500 3000; mkCartLine 7 "Dune" 10 1500 15000]
        [].


(** Book 3 with two copies, and order 1, pending, for two copies. *)
Definition shop_with_pending_order : Database :=
  mkDatabase [admin; clerk] [book3 2 900] [customer]
             [mkOrder 1 10 2 0 1800 Pending]
             [mkOrderItem 1 1 3 2 900] []
             2 2 1.

Definition pending_session : App :=
  open_order_window shop_with_pending_order 2.

(** Predicates on texts used in the statements. *)

Definition all_space (s : string) : bool :=
  forallb Py.is_unicode_space (list_ascii_of_string s).

Definition starts_clean (s : string) : Prop :=
  match s with
  | EmptyString => True
  | String c _ => Py.is_unicode_space c = false
  end.

(** ** Relations between stores used in the statements *)

(** Everything but [Books], [BookLog] and the log counter. *)
Definition same_orders (d d' : Database) : Prop :=
  Staff d' = Staff d /\ Accounts d' = Accounts d /\ Orders d' = Orders d
  /\ OrderItems d' = OrderItems d /\ next_OrderID d' = next_OrderID d
  /\ next_OrderItemID d' = next_OrderItemID d.

(** The [OrderItems] rows written for a cart, numbered from [first_id]. *)
Fixpoint order_items_of (order_id first_id : Z) (cart : list CartLine)
  : list OrderItemRow :=
  match cart with
  | [] => []
  | l :: r =>
      mkOrderItem first_id order_id (c_BookID l) (c_Quantity l) (c_Price l)
      :: order_items_of order_id (first_id + 1) r
  end.

(** Quantity requested for one book over the lines of a cart. *)
Definition cart_quantity (book_id : Z) (cart : list CartLine) : Z :=
  fold_right (fun l n => if c_BookID l =? book_id then c_Quantity l + n
                         else n) 0 cart.

(** The foreign keys of [Books.Update_by] hold. *)
Definition books_attributed (d : Database) : Prop :=
  forall b, In b (Books d) -> has_staff (Update_by b) d = true.

(** [OrderID] is a key, below the [AUTO_INCREMENT] counter. *)
Definition order_keys (d : Database) : Prop :=
  NoDup (map OrderID (Orders d))
  /\ forall o, In o (Orders d) -> OrderID o < next_OrderID d.

(** The rows of the pending tree show orders that are pending in the
    store. *)
Definition tree_fresh (a : App) : Prop :=
  forall row, In row (pending_orders_tree a) ->
              p_Status row = Pending ->
              order_status (p_OrderID row) (db a) = Some Pending.

(** What holds of a session started on the store [d0], with [log] the
    orders for which stock was decremented so far. *)
Definition session_invariant (d0 : Database) (a : App) (log : list Z)
  : Prop :=
  order_keys (db a)
  /\ tree_fresh a
  /\ NoDup log
  /\ (forall id, In id log -> order_status id (db a) = Some Completed)
  /\ (forall id, In id log ->
                 order_status id d0 = Some Pending
                 \/ order_status id d0 = None)
  /\ (forall id st, order_status id d0 = Some st -> st <> Pending ->
                    order_status id (db a) = Some st)
  /\ next_OrderID d0 <= next_OrderID (db a)
  /\ (forall id, next_OrderID d0 <= id -> order_status id d0 = None).

(** Every line of the cart asks for a quantity above zero and shows
    quantity times price as its subtotal. *)
Definition cart_well_formed (a : App) : Prop :=
  forall l, In l (cart_tree a) ->
            0 < c_Quantity l /\ c_Subtotal l = c_Price l * c_Quantity l.

(* ================================================================== *)
(** ** Customers, combobox entries and the sales report *)


(** *** Customers *)

Definition with_Accounts (v : list AccountRow) (d : Database) : Database :=
  mkDatabase (Staff d) (Books d) v (Orders d) (OrderItems d) (BookLog d)
             (next_OrderID d) (next_OrderItemID d) (next_LogID d).

(** [SELECT COUNT( * ) FROM Orders WHERE CustomerID=%s] *)
Definition count_orders_of (customer_id : Z) (d : Database) : Z :=
  Z.of_nat (List.length
              (filter (fun o => o_CustomerID o =? customer_id) (Orders d))).

(** The rows that [DELETE FROM Accounts WHERE CustomerID = %s] leaves. *)
Definition other_customer (customer_id : Z) (c : AccountRow) : bool :=
  negb (CustomerID c =? customer_id).

(** [DELETE FROM Accounts WHERE CustomerID = %s]; [Orders.CustomerID]
    restricts it. *)
Definition delete_Accounts (customer_id : Z) : Sql unit :=
  fun d =>
    if has_account customer_id d
       && existsb (fun o => o_CustomerID o =? customer_id) (Orders d)
    then Raise ForeignKeyFails
    else Ok (tt, with_Accounts
                   (filter (other_customer customer_id) (Accounts d)) d).

(** The message boxes of [delete_selected_customer]. *)
Inductive CustomerOutcome : Type :=
| Customer_done
| Cannot_delete_customer_with_existing_orders
| Customer_deleted_successfully
| Customer_failed_to_delete (e : DbError).

(** [delete_selected_customer]; [selection] is the id part of the chosen
    combobox entry, [confirm] the answer to [askyesno]. *)
Definition delete_selected_customer (selection : option Z) (confirm : bool)
  (a : App) : App * CustomerOutcome :=
  match selection with
  | None => (a, Customer_done)
  | Some customer_id =>
      if negb confirm then (a, Customer_done)
      else if count_orders_of customer_id (db a) >? 0
      then (a, Cannot_delete_customer_with_existing_orders)
      else
        match execute_query (delete_Accounts customer_id) (db a) with
        | Ok d' => (with_db d' a, Customer_deleted_successfully)
        | Raise e => (rollback a, Customer_failed_to_delete e)
        end
  end.

(** *** Properties of stores used in the statements below *)

(** [CHECK (Quantity >= 0)] holds of every book. *)
Definition stock_nonnegative (d : Database) : Prop :=
  forall b, In b (Books d) -> 0 <= Quantity b.

(** The foreign keys of the schema hold. *)
Definition foreign_keys (d : Database) : Prop :=
  (forall b, In b (Books d) -> has_staff (Update_by b) d = true)
  /\ (forall o, In o (Orders d) ->
                has_account (o_CustomerID o) d = true
                /\ has_staff (o_StaffID o) d = true)
  /\ (forall i, In i (OrderItems d) ->
                has_order (i_OrderID i) d = true
                /\ has_book (i_BookID i) d = true)
  /\ (forall l, In l (BookLog d) ->
                has_book (l_BookID l) d = true
                /\ has_staff (ActionBy l) d = true).

(** Orders are kept but for their status, and order lines are kept as
    they are, new ones coming after them. *)
Definition orders_extend (d d' : Database) : Prop :=
  (forall o, In o (Orders d) ->
             exists status, In (set_Status status o) (Orders d'))
  /\ exists added, OrderItems d' = (OrderItems d ++ added)%list.


(** The same with 3 and 3: each line is in stock, both together are
    not. *)
Definition oversold_session : App :=
  mkApp (shop 5 1500) 2 (Some 10)
        [mkCartLine 7 "Dune" 3 1500 4500; mkCartLine 7 "Dune" 3 1500 4500]
        [].

(** Book 3 with one copy left, and order 1, pending, for two copies. *)
Definition short_pending_session : App :=
  open_order_window
    (mkDatabase [admin; clerk] [book3 1 900] [customer]
                [mkOrder 1 10 2 0 1800 Pending]
                [mkOrderItem 1 1 3 2 900] []
                2 2 1)
    2.


(** The shop after two edits of book 7, both logged. *)
Definition shop_with_log : Database :=
  mkDatabase [admin; clerk] [book7 5 1500; book3 2 900] [customer] [] []
             [mkBookLog 1 7 INSERT 1; mkBookLog 2 3 INSERT 1;
              mkBookLog 3 7 UPDATE 1]
             1 1 4.

(** A book, an order or a log entry names the staff member. *)
Definition staff_is_referenced (staff_id : Z) (d : Database) : bool :=
  existsb (fun b => Update_by b =? staff_id) (Books d)
  || existsb (fun o => o_StaffID o =? staff_id) (Orders d)
  || existsb (fun l => ActionBy l =? staff_id) (BookLog d).

(** *** Combobox entries

    The comboboxes are filled with [f"{id} - {name}"], and the id is
    read back with [int(selection.split(" - ")[0])]. *)

Definition digit_char (n : Z) : ascii := ascii_of_N (Z.to_N (n + 48)).

Fixpoint digits_of (fuel : nat) (n : Z) (acc : list ascii) : list ascii :=
  match fuel with
  | O => acc
  | S f =>
      if n <? 10 then digit_char n :: acc
      else digits_of f (n / 10) (digit_char (n mod 10) :: acc)
  end.

(** One step of reading a decimal numeral from the left. *)
Definition decimal_step (a : Z) (c : ascii) : Z := 10 * a + Py.digit_value c.

(** [str(n)] for an [int]. *)
Definition str_of_int (n : Z) : string :=
  if n <? 0
  then String "-" (string_of_list_ascii
                     (digits_of (S (Z.to_nat (- n))) (- n) []))
  else string_of_list_ascii (digits_of (S (Z.to_nat n)) n []).

(** [f"{id} - {name}"] *)
Definition combobox_entry (id : Z) (name : string) : string :=
  String.append (str_of_int id) (String.append " - " name).

(** [s.split(" - ")[0]]: the text before the first [" - "], or all of it. *)
Fixpoint before_separator (s : string) : string :=
  match s with
  | EmptyString => EmptyString
  | String c r =>
      if String.prefix " - " s then EmptyString
      else String c (before_separator r)
  end.

(** [int(selection.split(" - ")[0])]; [None] stands for the
    [ValueError]. *)
Definition selected_id (selection : string) : option Z :=
  Py.int (before_separator selection).

(** *** The sales report

    [generate_sales_report] runs one query and adds up its last column.
    The calendar is outside the program: [DATE] gives the day of a time
    stamp, and [BETWEEN day from_date to_date] is MySQL's
    [DATE(OrderDate) BETWEEN %s AND %s] for the two texts of the form, in
    the case that MySQL reads both texts as dates. *)

Record SalesRow : Type := mkSalesRow {
  SaleDate : Z;
  r_Orders : Z;
  ItemsSold : Z;
  TotalSales : Z
}.

(** The message boxes of [generate_sales_report], with the rows put in
    the tree. *)
Inductive ReportOutcome : Type :=
| Please_select_both_start_and_end_dates
| Report_generated (rows : list SalesRow) (total_sales : Z).

(** SQL's [SUM] over a non-empty group. *)
Definition SUM (l : list Z) : Z := fold_right Z.add 0 l.

(** The rows of [OrderItems] that belong to an order. *)
Definition lines_of (o : OrderRow) (d : Database) : list OrderItemRow :=
  filter (fun i => i_OrderID i =? OrderID o) (OrderItems d).

(** [FROM Orders o JOIN OrderItems oi ON o.OrderID = oi.OrderID] *)
Definition orders_join_items (d : Database)
  : list (OrderRow * OrderItemRow) :=
  flat_map (fun o => map (pair o) (lines_of o d)) (Orders d).

(** [ORDER BY SaleDate] of the distinct days: insertion into an
    increasing list. *)
Fixpoint insert_day (x : Z) (l : list Z) : list Z :=
  match l with
  | [] => [x]
  | y :: r =>
      if x <? y then x :: l
      else if x =? y then l
      else y :: insert_day x r
  end.

Section SalesReport.

Variable DATE : Z -> Z.
Variable BETWEEN : Z -> string -> string -> bool.

(** [WHERE DATE(OrderDate) BETWEEN %s AND %s] *)
Definition in_period (from_date to_date : string) (o : OrderRow) : bool :=
  BETWEEN (DATE (OrderDate o)) from_date to_date.

Definition report_rows (from_date to_date : string) (d : Database)
  : list (OrderRow * OrderItemRow) :=
  filter (fun r => in_period from_date to_date (fst r))
         (orders_join_items d).

(** [GROUP BY DATE(OrderDate) ORDER BY SaleDate]: the days of the groups. *)
Definition sale_dates (rows : list (OrderRow * OrderItemRow)) : list Z :=
  fold_right insert_day [] (map (fun r => DATE (OrderDate (fst r))) rows).

(** The group of a day. *)
Definition sales_of (day : Z) (rows : list (OrderRow * OrderItemRow))
  : list (OrderRow * OrderItemRow) :=
  filter (fun r => DATE (OrderDate (fst r)) =? day) rows.

(** [SELECT DATE(o.OrderDate), COUNT(DISTINCT o.OrderID),
    SUM(oi.Quantity), SUM(TotalAmount)] for one group. *)
Definition sales_row (rows : list (OrderRow * OrderItemRow)) (day : Z)
  : SalesRow :=
  let group := sales_of day rows in
  mkSalesRow day
    (Z.of_nat (List.length
                 (nodup Z.eq_dec (map (fun r => OrderID (fst r)) group))))
    (SUM (map (fun r => i_Quantity (snd r)) group))
    (SUM (map (fun r => TotalAmount (fst r)) group)).

Definition sales_data (from_date to_date : string) (d : Database)
  : list SalesRow :=
  let rows := report_rows from_date to_date d in
  map (sales_row rows) (sale_dates rows).

(** [generate_sales_report]: the two texts are stripped and must not be
    empty; the loop over the result adds up the last column. *)
Definition generate_sales_report (from_date to_date : string)
  (d : Database) : ReportOutcome :=
  let from_date := Py.strip from_date in
  let to_date := Py.strip to_date in
  match from_date, to_date with
  | EmptyString, _ | _, EmptyString => Please_select_both_start_and_end_dates
  | _, _ =>
      let data := sales_data from_date to_date d in
      Report_generated data
        (fold_left (fun total row => total + TotalSales row) data 0)
  end.

End SalesReport.

(** Strictly increasing lists. *)
Fixpoint increasing (l : list Z) : Prop :=
  match l with
  | [] => True
  | x :: r => (forall y, In y r -> x < y) /\ increasing r
  end.

(** What the orders of a period are worth, each order counted once, and
    what they are worth when an order is counted once for each of its
    lines. *)
Definition orders_amount (os : list OrderRow) : Z :=
  SUM (map TotalAmount os).

Definition amount_per_line (d : Database) (os : list OrderRow) : Z :=
  SUM (map (fun o => Z.of_nat (List.length (lines_of o d)) * TotalAmount o)
           os).

(** A store with one order of two lines, placed on day [0]. *)
Definition two_line_store : Database :=
  mkDatabase [] [] []
    [mkOrder 1 1 1 0 7500 Completed]
    [mkOrderItem 1 1 10 1 2500; mkOrderItem 2 1 11 2 2500]
    [] 2 3 1.

(* ================================================================== *)
(** ** Strings and validators *)

Section Strip.

Import Py.

Lemma lstrip_starts_clean : forall s, starts_clean (lstrip s).
Proof.
  induction s as [|c r IH]; simpl; [exact I|].
  destruct (is_unicode_space c) eqn:E; [exact IH | exact E].
Qed.

Lemma lstrip_clean : forall s, starts_clean s -> lstrip s = s.
Proof.
  intros [|c r]; simpl; [reflexivity|].
  intros ->. reflexivity.
Qed.

Lemma rstrip_starts_clean : forall s, starts_clean s -> starts_clean (rstrip s).
Proof.
  intros [|c r]; simpl; [trivial|].
  intros E. destruct (rstrip r); simpl; [rewrite E; exact E | exact E].
Qed.

Lemma rstrip_idem : forall s, rstrip (rstrip s) = rstrip s.
Proof.
  induction s as [|c r IH]; simpl; [reflexivity|].
  destruct (rstrip r) as [|c' r'] eqn:E.
  - destruct (is_unicode_space c) eqn:Ec; simpl; [reflexivity|].
    rewrite Ec. reflexivity.
  - change (rstrip (String c (String c' r')) = String c (String c' r')).
    cbn [rstrip]. cbn [rstrip] in IH. rewrite IH. reflexivity.
Qed.

Lemma strip_idem : forall s, strip (strip s) = strip s.
Proof.
  intros s. unfold strip.
  rewrite (lstrip_clean (rstrip (lstrip s))).
  - apply rstrip_idem.
  - apply rstrip_starts_clean, lstrip_starts_clean.
Qed.

Lemma lstrip_all_space : forall w, all_space w = true -> lstrip w = EmptyString.
Proof.
  unfold all_space.
  induction w as [|c r IH]; simpl; [reflexivity|].
  intros H. apply andb_true_iff in H. destruct H as [Hc Hr].
  rewrite Hc. auto.
Qed.

Lemma rstrip_all_space : forall w, all_space w = true -> rstrip w = EmptyString.
Proof.
  unfold all_space.
  induction w as [|c r IH]; simpl; [reflexivity|].
  intros H. apply andb_true_iff in H. destruct H as [Hc Hr].
  rewrite (IH Hr), Hc. reflexivity.
Qed.

Lemma lstrip_app_space : forall w s,
  all_space w = true -> lstrip (w ++ s) = lstrip s.
Proof.
  unfold all_space.
  induction w as [|c r IH]; simpl; intros s H; [reflexivity|].
  apply andb_true_iff in H. destruct H as [Hc Hr].
  rewrite Hc. auto.
Qed.

Lemma rstrip_app_space : forall s w,
  all_space w = true -> rstrip (s ++ w) = rstrip s.
Proof.
  induction s as [|c r IH]; simpl; intros w H.
  - apply rstrip_all_space, H.
  - rewrite (IH w H). reflexivity.
Qed.

Lemma strip_app_space : forall s w,
  all_space w = true -> rstrip (lstrip (s ++ w)) = rstrip (lstrip s).
Proof.
  induction s as [|c r IH]; simpl; intros w H.
  - rewrite (lstrip_all_space w H). reflexivity.
  - destruct (is_unicode_space c); [auto|].
    change (String c (r ++ w)) with (String c r ++ w)%string.
    apply rstrip_app_space, H.
Qed.

Lemma strip_padding : forall l s r,
  all_space l = true -> all_space r = true ->
  strip (l ++ s ++ r) = strip s.
Proof.
  intros l s r Hl Hr. unfold strip.
  rewrite (lstrip_app_space l (s ++ r) Hl).
  apply strip_app_space, Hr.
Qed.

End Strip.

(** C10.  The name, phone and e-mail validators give the same answer on
    [s] and on [s.strip()]; hence white space put before and after a text
    does not change the answer. *)
Theorem validators_ignore_surrounding_whitespace :
  forall s l r : string,
    all_space l = true -> all_space r = true ->
    (validate_name s = validate_name (Py.strip s)
     /\ validate_phone s = validate_phone (Py.strip s)
     /\ validate_email s = validate_email (Py.strip s))
    /\ (validate_name (l ++ s ++ r) = validate_name s
        /\ validate_phone (l ++ s ++ r) = validate_phone s
        /\ validate_email (l ++ s ++ r) = validate_email s).
Proof.
  intros s l r Hl Hr.
  unfold validate_name, validate_phone, validate_email.
  rewrite !strip_idem, (strip_padding l s r Hl Hr).
  repeat split; reflexivity.
Qed.

Lemma validators_ignore_surrounding_whitespace_witness :
  all_space "  " = true /\ all_space " " = true
  /\ validate_name ("  " ++ "Ann Lee" ++ " ") = validate_name "Ann Lee"
  /\ validate_phone "+1234567890" = validate_phone (Py.strip "+1234567890").
Proof.
  pose proof (validators_ignore_surrounding_whitespace
                "Ann Lee" "  " " " eq_refl eq_refl) as H1.
  pose proof (validators_ignore_surrounding_whitespace
                "+1234567890" "  " " " eq_refl eq_refl) as H2.
  split; [reflexivity|]. split; [reflexivity|]. split.
  - exact (proj1 (proj2 H1)).
  - exact (proj1 (proj2 (proj1 H2))).
Defined.

(* ================================================================== *)
(** ** The matcher agrees with the meaning of the expressions *)

Section Matcher.

Import Re.

Local Open Scope string_scope.

Lemma append_empty_r : forall s : string, s ++ "" = s.
Proof.
  induction s as [|c r IH]; simpl; [reflexivity|]. rewrite IH. reflexivity.
Qed.

Lemma append_is_empty : forall u v : string,
  u ++ v = "" -> u = "" /\ v = "".
Proof. intros [|c u] v H; simpl in H; [auto | discriminate]. Qed.

Lemma append_is_cons : forall (u v w : string) (c : ascii),
  String c w = u ++ v ->
  (u = "" /\ v = String c w) \/ (exists u', u = String c u' /\ w = u' ++ v).
Proof.
  intros [|c' u] v w c H; simpl in H.
  - left. auto.
  - right. inversion H; subst. exists u. auto.
Qed.

Lemma cat_denotes : forall r s w,
  denotes (cat r s) w <-> denotes (Cat r s) w.
Proof.
  intros r s w.
  assert (Hvoid_l : forall s0, denotes (Cat Void s0) w <-> False).
  { intros s0. simpl. split; [intros (u & v & _ & [] & _) | intros []]. }
  assert (Hvoid_r : forall r0, denotes (Cat r0 Void) w <-> False).
  { intros r0. simpl. split; [intros (u & v & _ & _ & []) | intros []]. }
  assert (Heps : forall s0, denotes s0 w <-> denotes (Cat Eps s0) w).
  { intros s0. simpl. split.
    - intros H. exists "", w. auto.
    - intros (u & v & -> & -> & H). exact H. }
  destruct r; destruct s;
    try (cbn [cat]; rewrite ?Hvoid_l, ?Hvoid_r; simpl; tauto);
    try (cbn [cat]; apply Heps);
    try (cbn [cat]; reflexivity).
Qed.

Lemma alt_denotes : forall r s w,
  denotes (alt r s) w <-> denotes (Alt r s) w.
Proof.
  intros r s w.
  destruct r; destruct s; cbn [alt]; simpl; tauto.
Qed.

Lemma cat_well_formed : forall r s,
  well_formed r = true -> well_formed s = true ->
  well_formed (cat r s) = true.
Proof.
  intros r s Hr Hs.
  destruct r; destruct s; cbn [cat]; try reflexivity; try assumption;
    match goal with
    | |- well_formed (Cat ?a ?b) = true =>
        change (well_formed a && well_formed b = true);
        rewrite Hr, Hs; reflexivity
    end.
Qed.

Lemma alt_well_formed : forall r s,
  well_formed r = true -> well_formed s = true ->
  well_formed (alt r s) = true.
Proof.
  intros r s Hr Hs.
  destruct r; destruct s; cbn [alt]; try reflexivity; try assumption;
    match goal with
    | |- well_formed (Alt ?a ?b) = true =>
        change (well_formed a && well_formed b = true);
        rewrite Hr, Hs; reflexivity
    end.
Qed.

Lemma deriv_well_formed : forall c r,
  well_formed r = true -> well_formed (deriv c r) = true.
Proof.
  induction r as [| |p|r IHr s IHs|r IHr s IHs|r IHr lo hi];
    cbn [deriv well_formed]; intros H; try reflexivity.
  - destruct (p c); reflexivity.
  - apply andb_true_iff in H. destruct H as [Hr Hs].
    destruct (nullable r).
    + apply alt_well_formed; [apply cat_well_formed|]; auto.
    + apply cat_well_formed; auto.
  - apply andb_true_iff in H. destruct H as [Hr Hs].
    apply alt_well_formed; auto.
  - apply andb_true_iff in H. destruct H as [H Hb].
    apply andb_true_iff in H. destruct H as [Hr Hn].
    destruct hi as [[|h]|]; try reflexivity.
    + apply cat_well_formed; [auto|]. cbn [well_formed option_map].
      rewrite Hr, Hn. simpl. apply Nat.leb_le in Hb. apply Nat.leb_le. lia.
    + apply cat_well_formed; [auto|]. cbn [well_formed option_map].
      rewrite Hr, Hn. reflexivity.
Qed.

Lemma nullable_denotes : forall r,
  well_formed r = true -> (nullable r = true <-> denotes r "").
Proof.
  induction r as [| |p|r IHr s IHs|r IHr s IHs|r IHr lo hi];
    cbn [nullable denotes well_formed]; intros H.
  - split; [discriminate | intros []].
  - split; reflexivity.
  - split; [discriminate | intros (c & Hc & _); discriminate].
  - apply andb_true_iff in H. destruct H as [Hr Hs].
    rewrite andb_true_iff, (IHr Hr), (IHs Hs). split.
    + intros [H1 H2]. exists "", "". auto.
    + intros (u & v & Huv & H1 & H2). symmetry in Huv.
      apply append_is_empty in Huv. destruct Huv as [-> ->]. auto.
  - apply andb_true_iff in H. destruct H as [Hr Hs].
    rewrite orb_true_iff, (IHr Hr), (IHs Hs). reflexivity.
  - apply andb_true_iff in H. destruct H as [H Hb].
    apply andb_true_iff in H. destruct H as [Hr Hn].
    apply negb_true_iff in Hn. rewrite Hn, orb_false_r. split.
    + intros H0. apply Nat.eqb_eq in H0. subst lo.
      exists []. simpl. repeat split; [lia | | constructor].
      destruct hi; simpl; [lia | exact I].
    + intros (parts & Hlo & _ & Hall & Hw).
      destruct parts as [|p0 rest].
      * simpl in Hlo. apply Nat.eqb_eq. lia.
      * exfalso. simpl in Hw. symmetry in Hw.
        apply append_is_empty in Hw. destruct Hw as [-> _].
        inversion Hall as [|x xs Hx _]; subst.
        apply (IHr Hr) in Hx. congruence.
Qed.

Lemma deriv_denotes : forall c r w,
  well_formed r = true ->
  (denotes (deriv c r) w <-> denotes r (String c w)).
Proof.
  intros c r. induction r as [| |p|r IHr s IHs|r IHr s IHs|r IHr lo hi];
    intros w H.
  - simpl. tauto.
  - simpl. split; [intros [] | discriminate].
  - cbn [deriv]. destruct (p c) eqn:Hp; simpl.
    + split.
      * intros ->. exists c. auto.
      * intros (c' & Hc & _). inversion Hc. reflexivity.
    + split; [intros []|].
      intros (c' & Hc & Hp'). inversion Hc; subst. congruence.
  - cbn [well_formed] in H. apply andb_true_iff in H. destruct H as [Hr Hs].
    assert (Hstep : denotes (Cat (deriv c r) s) w <->
                    exists u' v, w = u' ++ v /\ denotes r (String c u')
                                 /\ denotes s v).
    { simpl. split; intros (u & v & Huv & H1 & H2); exists u, v;
        (split; [exact Huv|]); (split; [|exact H2]); apply (IHr u Hr), H1. }
    cbn [deriv]. destruct (nullable r) eqn:Hn.
    + rewrite alt_denotes. cbn [denotes]. rewrite cat_denotes, Hstep.
      rewrite (IHs w Hs). split.
      * intros [(u' & v & -> & H1 & H2) | H2].
        -- exists (String c u'), v. auto.
        -- exists "", (String c w). repeat split; [|exact H2].
           apply (nullable_denotes r Hr), Hn.
      * intros (u & v & Huv & H1 & H2).
        apply append_is_cons in Huv.
        destruct Huv as [[-> ->] | (u' & -> & ->)].
        -- right. exact H2.
        -- left. exists u', v. auto.
    + rewrite cat_denotes, Hstep. cbn [denotes]. split.
      * intros (u' & v & -> & H1 & H2). exists (String c u'), v. auto.
      * intros (u & v & Huv & H1 & H2).
        apply append_is_cons in Huv.
        destruct Huv as [[-> ->] | (u' & -> & ->)].
        -- apply (nullable_denotes r Hr) in H1. congruence.
        -- exists u', v. auto.
  - cbn [well_formed] in H. apply andb_true_iff in H. destruct H as [Hr Hs].
    cbn [deriv]. rewrite alt_denotes. cbn [denotes].
    rewrite (IHr w Hr), (IHs w Hs). reflexivity.
  - cbn [well_formed] in H. apply andb_true_iff in H. destruct H as [H Hb].
    apply andb_true_iff in H. destruct H as [Hr Hn].
    apply negb_true_iff in Hn.
    assert (Hne : ~ denotes r "").
    { intros H0. apply (nullable_denotes r Hr) in H0. congruence. }
    assert (Hstep :
      hi <> Some 0%nat ->
      ((exists u v, w = u ++ v /\ denotes (deriv c r) u
                    /\ denotes (Rep r (Nat.pred lo) (option_map Nat.pred hi))
                               v)
       <-> denotes (Rep r lo hi) (String c w))).
    { intros Hhi0. cbn [denotes]. split.
      - intros (u & v & -> & H1 & parts & Hlo & Hhi & Hall & ->).
        exists (String c u :: parts). simpl. repeat split.
        + lia.
        + destruct hi as [h|]; simpl in *; [|exact I].
          destruct h; [congruence | lia].
        + constructor; [apply (IHr u Hr), H1 | exact Hall].
      - intros (parts & Hlo & Hhi & Hall & Hw).
        destruct parts as [|p0 rest]; [discriminate|].
        inversion Hall as [|x xs Hx Hrest]; subst. simpl in Hw.
        apply append_is_cons in Hw.
        destruct Hw as [[-> _] | (u' & -> & ->)]; [contradiction|].
        exists u', (join rest). split; [reflexivity|]. split.
        + apply (IHr u' Hr), Hx.
        + exists rest. simpl in Hlo. repeat split; [lia | | exact Hrest].
          destruct hi as [h|]; simpl in *; [lia | exact I]. }
    cbn [deriv]. destruct hi as [[|h]|].
    + split; [intros []|]. cbn [denotes].
      intros (parts & _ & Hhi & _ & Hw). simpl in Hhi.
      destruct parts; [discriminate | simpl in Hhi; lia].
    + rewrite cat_denotes. cbn [denotes] in *. apply Hstep. discriminate.
    + rewrite cat_denotes. cbn [denotes] in *. apply Hstep. discriminate.
Qed.

(** [fullmatch] answers [true] exactly on the texts the expression
    denotes. *)
Lemma fullmatch_denotes : forall s r,
  well_formed r = true -> (fullmatch r s = true <-> denotes r s).
Proof.
  unfold fullmatch.
  induction s as [|c t IH]; intros r H; cbn [matches].
  - apply nullable_denotes, H.
  - rewrite (IH (deriv c r) (deriv_well_formed c r H)).
    apply deriv_denotes, H.
Qed.

Lemma patterns_well_formed :
  well_formed name_pattern = true
  /\ well_formed phone_pattern = true
  /\ well_formed email_pattern = true.
Proof. repeat split; reflexivity. Qed.

(** A bounded repetition of one character class: the length is within
    the bounds and every character is of the class. *)
Lemma rep_class_denotes : forall p lo hi w,
  denotes (Rep (Class p) lo hi) w <->
  ((lo <= String.length w)%nat /\ within hi (String.length w)
   /\ forallb p (list_ascii_of_string w) = true).
Proof.
  intros p lo hi w. cbn [denotes]. split.
  - intros (parts & Hlo & Hhi & Hall & ->).
    assert (H : String.length (join parts) = List.length parts
                /\ forallb p (list_ascii_of_string (join parts)) = true).
    { clear Hlo Hhi. induction Hall as [|x xs (c & -> & Hc) _ [IH1 IH2]].
      - split; reflexivity.
      - simpl. rewrite IH1, Hc, IH2. split; reflexivity. }
    destruct H as [-> H]. auto.
  - intros (Hlo & Hhi & Hall).
    exists (map (fun c => String c "") (list_ascii_of_string w)).
    assert (H : List.length (map (fun c => String c "")
                                 (list_ascii_of_string w))
                = String.length w
                /\ Forall (fun u => exists c, u = String c "" /\ p c = true)
                          (map (fun c => String c "")
                               (list_ascii_of_string w))
                /\ w = join (map (fun c => String c "")
                                 (list_ascii_of_string w))).
    { clear Hlo Hhi. induction w as [|c t IH]; simpl in *.
      - repeat split. constructor.
      - apply andb_true_iff in Hall. destruct Hall as [Hc Ht].
        destruct (IH Ht) as (I1 & I2 & I3). repeat split.
        + rewrite I1. reflexivity.
        + constructor; [exists c; auto | exact I2].
        + rewrite <- I3. reflexivity. }
    destruct H as (-> & H2 & H3). auto.
Qed.

End Matcher.

(** X1.  [validate_name] answers [True] exactly when the text, once
    stripped, has 2 to 50 characters, each a letter or white space. *)
Lemma validate_name_spec : forall name,
  validate_name name = true <->
  ((2 <= String.length (Py.strip name) <= 50)%nat
   /\ forallb Re.name_char (list_ascii_of_string (Py.strip name)) = true).
Proof.
  intros name. unfold validate_name.
  rewrite (fullmatch_denotes (Py.strip name) Re.name_pattern eq_refl).
  unfold Re.name_pattern. rewrite rep_class_denotes. simpl. tauto.
Qed.

(** X2.  [validate_phone] answers [True] exactly when the text, once
    stripped, is 10 to 15 digits, with or without a leading [+]. *)
Lemma validate_phone_spec : forall phone,
  validate_phone phone = true <->
  exists digits,
    (Py.strip phone = digits \/ Py.strip phone = String "+" digits)
    /\ (10 <= String.length digits <= 15)%nat
    /\ forallb Py.is_digit (list_ascii_of_string digits) = true.
Proof.
  intros phone. unfold validate_phone.
  rewrite (fullmatch_denotes (Py.strip phone) Re.phone_pattern
             eq_refl).
  unfold Re.phone_pattern. cbn [Re.denotes]. split.
  - intros (u & v & Huv & Hu & Hv).
    apply rep_class_denotes in Hv. simpl in Hv.
    exists v. split; [|tauto].
    change (Re.denotes (Re.opt (Re.chr "+")) u) in Hu.
    unfold Re.opt in Hu. apply rep_class_denotes in Hu.
    destruct Hu as (_ & Hlen & Hplus). simpl in Hlen.
    destruct u as [|c [|c' u']]; simpl in Hlen; try lia.
    + left. exact Huv.
    + right. cbn [list_ascii_of_string forallb] in Hplus.
      rewrite andb_true_r in Hplus.
      apply Ascii.eqb_eq in Hplus. subst c. exact Huv.
  - intros (digits & Hshape & Hlen & Hall).
    assert (Hd : Re.denotes (Re.Rep (Re.Class Py.is_digit) 10 (Some 15%nat))
                            digits).
    { apply rep_class_denotes. simpl. tauto. }
    destruct Hshape as [E|E]; rewrite E.
    + exists EmptyString, digits. split; [reflexivity|]. split; [|exact Hd].
      apply rep_class_denotes. simpl. repeat split; lia.
    + exists (String "+" EmptyString), digits.
      split; [reflexivity|]. split; [|exact Hd].
      apply rep_class_denotes. simpl. repeat split; lia.
Qed.

(** [validate_quantity] answers [True] exactly when [int()] reads a
    value above zero, and both numeric validators are total. *)
Lemma validate_quantity_spec : forall s,
  validate_quantity s = true <-> exists n, Py.int s = Some n /\ 0 < n.
Proof.
  intros s. unfold validate_quantity. split.
  - destruct (Py.int s) as [n|]; [|discriminate].
    intros H. exists n. split; [reflexivity|]. apply Z.ltb_lt, H.
  - intros [n [-> H]]. apply Z.ltb_lt, H.
Qed.

Lemma validate_price_spec : forall s,
  validate_price s = true <->
  exists x, Py.float s = Some x /\ Py.float_ge_zero x = true.
Proof.
  intros s. unfold validate_price. split.
  - destruct (Py.float s) as [x|]; [|discriminate].
    intros H. exists x. auto.
  - intros [x [-> H]]. exact H.
Qed.

(** Plain decimal texts are read by [int()] as the number they write. *)
Lemma int_digits_snoc : forall s acc c,
  Py.is_digit c = true ->
  forallb Py.is_digit s = true ->
  Py.int_digits false acc (s ++ [c]) =
  option_map (fun n => 10 * n + Py.digit_value c) (Py.int_digits false acc s).
Proof.
  induction s as [|d r IH]; simpl; intros acc c Hc Hs.
  - rewrite Hc. reflexivity.
  - apply andb_true_iff in Hs. destruct Hs as [Hd Hr].
    rewrite Hd. apply IH; assumption.
Qed.

Example validators_on_samples :
  validate_name "  Ann Lee " = true
  /\ validate_name "A" = false
  /\ validate_name "R2D2" = false
  /\ validate_phone "+1234567890" = true
  /\ validate_phone "123-456-7890" = false
  /\ validate_email "admin@eldorado.com" = true
  /\ validate_email "admin@eldorado" = false
  /\ validate_price "12.50" = true
  /\ validate_price "-0.01" = false
  /\ validate_price "nan" = false
  /\ validate_price "twelve" = false
  /\ validate_quantity " 3 " = true
  /\ validate_quantity "1_000" = true
  /\ validate_quantity "0" = false
  /\ validate_quantity "3.0" = false.
Proof. vm_compute. repeat split; reflexivity. Qed.

(** C8.  [validate_price] accepts texts that do not write a non-negative
    decimal number: the infinity literals of [float()], and a negative
    number so small that the double read from it is a zero. *)
Theorem validate_price_accepts_infinity :
  validate_price "inf" = true
  /\ validate_price " Infinity " = true
  /\ validate_price "-1e-400" = true
  /\ Py.float "inf" = Some (Py.FInf false).
Proof. vm_compute. repeat split; reflexivity. Qed.

(* ================================================================== *)
(** ** Staff deletion *)

Lemma rollback_same : forall a, rollback a = a.
Proof. intros [d s c t p]. reflexivity. Qed.

(** C9.  [delete_staff] never deletes the member who is logged in: the
    store and the rest of the state are left as they were, whatever the
    role of that member and the number of managers; once the deletion is
    confirmed the answer is the message about the logged-in member. *)
Theorem delete_staff_refuses_logged_in :
  forall (a : App) (confirm : bool),
    fst (delete_staff (Some (current_staff_id a)) confirm a) = a
    /\ delete_staff (Some (current_staff_id a)) true a =
       (a, ShowError Cannot_delete_currently_logged_in_staff).
Proof.
  intros a confirm. unfold delete_staff.
  rewrite Z.eqb_refl. destruct confirm; simpl; split; reflexivity.
Qed.

Lemma filter_other_than_absent : forall id l,
  ~ In id (map StaffID l) -> filter (other_than id) l = l.
Proof.
  induction l as [|s r IH]; simpl; intros H; [reflexivity|].
  unfold other_than at 1.
  destruct (Z.eqb_spec (StaffID s) id) as [E|E]; simpl.
  - exfalso. apply H. left. exact E.
  - f_equal. apply IH. intros Hin. apply H. right. exact Hin.
Qed.

(** With [StaffID] a key, deleting [id] removes at most the row that
    [SELECT ... WHERE StaffID=id] returns. *)
Lemma managers_after_delete : forall id l,
  NoDup (map StaffID l) ->
  List.length (filter is_manager l) =
  Nat.add (List.length (filter is_manager (filter (other_than id) l)))
          (match find (fun s => StaffID s =? id) l with
           | Some s => if is_manager s then 1%nat else 0%nat
           | None => 0%nat
           end).
Proof.
  induction l as [|s r IH]; simpl; intros ND; [reflexivity|].
  inversion ND as [|x xs Hnotin ND']; subst.
  unfold other_than at 1.
  destruct (Z.eqb_spec (StaffID s) id) as [E|E]; simpl.
  - subst id. rewrite (filter_other_than_absent _ _ Hnotin).
    destruct (is_manager s); simpl; lia.
  - specialize (IH ND').
    destruct (is_manager s); simpl; lia.
Qed.

Lemma delete_staff_keeps_a_manager : forall a sel confirm,
  NoDup (map StaffID (Staff (db a))) ->
  1 <= count_managers (db a) ->
  1 <= count_managers (db (fst (delete_staff sel confirm a))).
Proof.
  intros a sel confirm ND H1.
  unfold delete_staff.
  destruct sel as [id|]; [|exact H1].
  destruct confirm; simpl; [|exact H1].
  destruct (current_staff_id a =? id); [exact H1|].
  pose proof (managers_after_delete id (Staff (db a)) ND) as Hcount.
  unfold select_role.
  destruct (find (fun s => StaffID s =? id) (Staff (db a))) as [s|] eqn:Ef;
    simpl.
  - unfold execute_query, delete_Staff.
    destruct (s_Role s) eqn:Er; simpl.
    + destruct (Z.leb_spec (count_managers (db a)) 1) as [Hle|Hgt];
        [exact H1|].
      match goal with
      | |- context [if ?c then _ else _] => destruct c
      end; simpl; [exact H1|].
      unfold count_managers in *. simpl.
      unfold is_manager at 3 in Hcount. rewrite Er in Hcount. simpl in Hcount.
      lia.
    + match goal with
      | |- context [if ?c then _ else _] => destruct c
      end; simpl; [exact H1|].
      unfold count_managers in *. simpl.
      unfold is_manager at 3 in Hcount. rewrite Er in Hcount. simpl in Hcount.
      lia.
    + match goal with
      | |- context [if ?c then _ else _] => destruct c
      end; simpl; [exact H1|].
      unfold count_managers in *. simpl.
      unfold is_manager at 3 in Hcount. rewrite Er in Hcount. simpl in Hcount.
      lia.
  - unfold execute_query, delete_Staff.
    match goal with
    | |- context [if ?c then _ else _] => destruct c
    end; simpl; [exact H1|].
    unfold count_managers in *. simpl. lia.
Qed.

(** C6, as stated, fails: the only manager, logged in, asks to delete
    their own row; the answer is the message about the logged-in member,
    not the one about the last manager. *)
Lemma delete_sole_manager_counterexample :
  count_managers (db admin_session) = 1
  /\ select_role 1 (db admin_session) = Some Manager
  /\ delete_staff (Some 1) true admin_session =
     (admin_session, ShowError Cannot_delete_currently_logged_in_staff)
  /\ snd (delete_staff (Some 1) true admin_session) <>
     ShowError Cannot_delete_the_last_manager.
Proof.
  repeat split; try reflexivity. vm_compute. discriminate.
Qed.

(** C6, amended.  In a store with at least one manager, whatever
    [delete_staff] is asked to do, a manager is left afterwards.  When
    exactly one manager is left and the deletion of that manager is
    confirmed, nothing is changed and an error is shown: the one about the
    last manager, or, when that manager is the member logged in, the one
    about the logged-in member. *)
Theorem delete_staff_keeps_last_manager :
  forall a : App,
    NoDup (map StaffID (Staff (db a))) ->
    1 <= count_managers (db a) ->
    (forall sel confirm,
        1 <= count_managers (db (fst (delete_staff sel confirm a))))
    /\ (forall id,
           count_managers (db a) = 1 ->
           select_role id (db a) = Some Manager ->
           delete_staff (Some id) true a =
           (a, ShowError
                 (if current_staff_id a =? id
                  then Cannot_delete_currently_logged_in_staff
                  else Cannot_delete_the_last_manager))).
Proof.
  intros a ND H1. split.
  - intros sel confirm. apply delete_staff_keeps_a_manager; assumption.
  - intros id Hone Hrole. unfold delete_staff. simpl.
    destruct (current_staff_id a =? id); [reflexivity|].
    rewrite Hrole, Hone. reflexivity.
Qed.

Lemma delete_staff_keeps_last_manager_witness :
  (count_managers (db clerk_session) = 1
   /\ select_role 1 (db clerk_session) = Some Manager
   /\ delete_staff (Some 1) true clerk_session =
      (clerk_session, ShowError Cannot_delete_the_last_manager))
  /\ (count_managers (db two_managers_session) = 2
      /\ snd (delete_staff (Some 3) true two_managers_session) =
         ShowInfo Staff_member_deleted_successfully
      /\ 1 <= count_managers
                (db (fst (delete_staff (Some 3) true
                            two_managers_session)))).
Proof.
  assert (ND : NoDup (map StaffID (Staff (db clerk_session)))).
  { simpl. repeat constructor; simpl; intuition discriminate. }
  assert (H1 : 1 <= count_managers (db clerk_session)).
  { vm_compute. discriminate. }
  assert (ND2 : NoDup (map StaffID (Staff (db two_managers_session)))).
  { simpl. repeat constructor; simpl; intuition discriminate. }
  assert (H2 : 1 <= count_managers (db two_managers_session)).
  { vm_compute. discriminate. }
  split.
  - split; [reflexivity|]. split; [reflexivity|].
    exact (proj2 (delete_staff_keeps_last_manager clerk_session ND H1)
                 1 eq_refl eq_refl).
  - split; [reflexivity|]. split; [reflexivity|].
    exact (proj1 (delete_staff_keeps_last_manager two_managers_session
                    ND2 H2) (Some 3) true).
Defined.

(* ================================================================== *)
(** ** Book deletion *)








(* ================================================================== *)
(** ** Statements on [Books]: what they write and when they fail *)

Lemma same_orders_refl : forall d, same_orders d d.
Proof. intros d. repeat split. Qed.

Lemma same_orders_trans : forall d1 d2 d3,
  same_orders d1 d2 -> same_orders d2 d3 -> same_orders d1 d3.
Proof.
  unfold same_orders. intros d1 d2 d3 H1 H2.
  destruct H1 as (A1 & A2 & A3 & A4 & A5 & A6).
  destruct H2 as (B1 & B2 & B3 & B4 & B5 & B6).
  repeat split; congruence.
Qed.

Lemma insert_BookLog_inv : forall b act by_ d u d',
  insert_BookLog b act by_ d = Ok (u, d') ->
  same_orders d d' /\ Books d' = Books d.
Proof.
  unfold insert_BookLog. intros b act by_ d u d' H.
  destruct (has_book b d && has_staff by_ d); [|discriminate].
  inversion H; subst. repeat split.
Qed.

Lemma AfterBookUpdate_each_inv : forall l d u d',
  for_each l AfterBookUpdate d = Ok (u, d') ->
  same_orders d d' /\ Books d' = Books d.
Proof.
  induction l as [|x r IH]; simpl; intros d u d' H.
  - inversion H; subst. split; [apply same_orders_refl | reflexivity].
  - unfold bind in H. unfold AfterBookUpdate at 1 in H.
    destruct (insert_BookLog (BookID x) UPDATE (Update_by x) d)
      as [[u1 d1]|e] eqn:E1; [|discriminate].
    apply insert_BookLog_inv in E1. destruct E1 as [S1 B1].
    apply IH in H. destruct H as [S2 B2]. split.
    + eapply same_orders_trans; eassumption.
    + congruence.
Qed.

Lemma AfterBookUpdate_each_ok : forall l d,
  (forall x, In x l ->
             has_book (BookID x) d = true
             /\ has_staff (Update_by x) d = true) ->
  exists d', for_each l AfterBookUpdate d = Ok (tt, d').
Proof.
  induction l as [|x r IH]; simpl; intros d H.
  - exists d. reflexivity.
  - unfold bind, AfterBookUpdate at 1, insert_BookLog.
    destruct (H x (or_introl eq_refl)) as [Hb Hs]. rewrite Hb, Hs. simpl.
    apply IH. intros y Hy. apply H. right. exact Hy.
Qed.

Lemma update_Books_Quantity_inv : forall q b d u d',
  update_Books_Quantity q b d = Ok (u, d') ->
  same_orders d d' /\ Books d' = map (decrement q b) (Books d).
Proof.
  unfold update_Books_Quantity. intros q b d u d' H.
  destruct (forallb _ _); [|discriminate].
  apply AfterBookUpdate_each_inv in H. exact H.
Qed.

Lemma has_book_map_decrement : forall q b id l,
  existsb (fun x => BookID x =? id) (map (decrement q b) l) =
  existsb (fun x => BookID x =? id) l.
Proof.
  induction l as [|x r IH]; simpl; [reflexivity|].
  rewrite IH. f_equal. unfold decrement.
  destruct (BookID x =? b); reflexivity.
Qed.


(** With the keys of [Books.Update_by] in place, the statement can only
    fail on the [CHECK]. *)
Lemma update_Books_Quantity_raise : forall q b d e,
  (forall x, In x (Books d) -> has_staff (Update_by x) d = true) ->
  update_Books_Quantity q b d = Raise e -> e = CheckViolated.
Proof.
  unfold update_Books_Quantity. intros q b d e Hfk H.
  destruct (forallb _ _) eqn:Hall; [|inversion H; reflexivity].
  exfalso.
  destruct (AfterBookUpdate_each_ok
              (map (take_from q) (filter (fun x => BookID x =? b) (Books d)))
              (with_Books (map (decrement q b) (Books d)) d)) as [d' Hd'].
  - intros y Hy. apply in_map_iff in Hy. destruct Hy as [x [<- Hx]].
    apply filter_In in Hx. destruct Hx as [Hin Hid]. split.
    + unfold has_book. simpl.
      rewrite has_book_map_decrement. apply existsb_exists.
      exists x. split; [exact Hin | apply Z.eqb_refl].
    + unfold has_staff. simpl. apply (Hfk x Hin).
  - rewrite Hd' in H. discriminate.
Qed.

Lemma find_map_decrement : forall q b id l,
  find (fun x => BookID x =? id) (map (decrement q b) l) =
  option_map (decrement q b) (find (fun x => BookID x =? id) l).
Proof.
  induction l as [|x r IH]; simpl; [reflexivity|].
  assert (E : BookID (decrement q b x) = BookID x).
  { unfold decrement. destruct (BookID x =? b); reflexivity. }
  rewrite E. destruct (BookID x =? id); [reflexivity | exact IH].
Qed.

(** The stock of every book after one stock update. *)
Lemma stock_after_update : forall q b d u d' id,
  update_Books_Quantity q b d = Ok (u, d') ->
  stock id d' =
  option_map (fun s => if id =? b then s - q else s) (stock id d).
Proof.
  intros q b d u d' id H.
  apply update_Books_Quantity_inv in H. destruct H as [_ HB].
  unfold stock, select_book. rewrite HB, find_map_decrement.
  destruct (find (fun x => BookID x =? id) (Books d)) as [x|] eqn:Ef;
    simpl; [|reflexivity].
  apply find_some in Ef. destruct Ef as [_ Hid]. apply Z.eqb_eq in Hid.
  unfold decrement. rewrite Hid. destruct (id =? b); reflexivity.
Qed.

(** A row short of stock makes the statement fail. *)
Lemma update_Books_Quantity_short : forall q b d s,
  stock b d = Some s -> s < q ->
  exists e, update_Books_Quantity q b d = Raise e.
Proof.
  unfold update_Books_Quantity, stock, select_book. intros q b d s Hs Hlt.
  destruct (find (fun x => BookID x =? b) (Books d)) as [x|] eqn:Ef;
    [|discriminate].
  simpl in Hs. inversion Hs; subst s.
  apply find_some in Ef. destruct Ef as [Hin Hid].
  assert (Hall : forallb (fun y => 0 <=? Quantity y)
                   (map (take_from q)
                        (filter (fun y => BookID y =? b) (Books d))) = false).
  { destruct (forallb _ _) eqn:Hall; [|reflexivity]. exfalso.
    rewrite forallb_forall in Hall.
    specialize (Hall (take_from q x)).
    assert (Hx : In (take_from q x)
                   (map (take_from q)
                        (filter (fun y => BookID y =? b) (Books d)))).
    { apply in_map. apply filter_In. split; assumption. }
    apply Hall in Hx. simpl in Hx. apply Z.leb_le in Hx. lia. }
  rewrite Hall. exists CheckViolated. reflexivity.
Qed.

(* ================================================================== *)
(** ** [place_order] *)

Lemma insert_OrderItems_inv : forall o b q p d u d',
  insert_OrderItems o b q p d = Ok (u, d') ->
  Staff d' = Staff d /\ Books d' = Books d /\ Accounts d' = Accounts d
  /\ Orders d' = Orders d /\ next_OrderID d' = next_OrderID d
  /\ OrderItems d' =
     (OrderItems d ++ [mkOrderItem (next_OrderItemID d) o b q p])%list
  /\ next_OrderItemID d' = next_OrderItemID d + 1.
Proof.
  unfold insert_OrderItems. intros o b q p d u d' H.
  destruct (has_order o d && has_book b d); [|discriminate].
  inversion H; subst. repeat split.
Qed.

Lemma order_item_statements_inv : forall status oid item d u d',
  order_item_statements status oid item d = Ok (u, d') ->
  Staff d' = Staff d /\ Accounts d' = Accounts d
  /\ Orders d' = Orders d /\ next_OrderID d' = next_OrderID d
  /\ OrderItems d' =
     (OrderItems d ++
        [mkOrderItem (next_OrderItemID d) oid (c_BookID item)
                     (c_Quantity item) (c_Price item)])%list
  /\ next_OrderItemID d' = next_OrderItemID d + 1
  /\ Books d' =
     (if OrderStatus_eqb status Completed
      then map (decrement (c_Quantity item) (c_BookID item)) (Books d)
      else Books d).
Proof.
  unfold order_item_statements, bind. intros status oid item d u d' H.
  destruct (insert_OrderItems oid (c_BookID item) (c_Quantity item)
              (c_Price item) d) as [[u1 d1]|e] eqn:E1; [|discriminate].
  apply insert_OrderItems_inv in E1.
  destruct E1 as (A1 & A2 & A3 & A4 & A5 & A6 & A7).
  destruct (OrderStatus_eqb status Completed).
  - apply update_Books_Quantity_inv in H.
    destruct H as [(B1 & B2 & B3 & B4 & B5 & B6) B7].
    repeat split; congruence.
  - inversion H; subst. repeat split; assumption.
Qed.

Lemma order_items_loop_inv : forall status oid cart d u d',
  for_each cart (order_item_statements status oid) d = Ok (u, d') ->
  Staff d' = Staff d /\ Accounts d' = Accounts d
  /\ Orders d' = Orders d /\ next_OrderID d' = next_OrderID d
  /\ OrderItems d' =
     (OrderItems d ++ order_items_of oid (next_OrderItemID d) cart)%list
  /\ (OrderStatus_eqb status Completed = false -> Books d' = Books d)
  /\ (OrderStatus_eqb status Completed = true ->
      forall id, stock id d' =
                 option_map (fun s => s - cart_quantity id cart) (stock id d)).
Proof.
  induction cart as [|item r IH]; simpl; intros d u d' H.
  - inversion H; subst. rewrite app_nil_r. repeat split.
    intros _ id. destruct (stock id d'); simpl; [f_equal; lia | reflexivity].
  - unfold bind in H.
    destruct (order_item_statements status oid item d) as [[u1 d1]|e] eqn:E1;
      [|discriminate].
    apply order_item_statements_inv in E1.
    destruct E1 as (A1 & A2 & A3 & A4 & A5 & A6 & A7).
    apply IH in H. destruct H as (B1 & B2 & B3 & B4 & B5 & B6 & B7).
    repeat split; try congruence.
    + rewrite B5, A5, A6, <- app_assoc. reflexivity.
    + intros Hs. rewrite Hs in A7. rewrite (B6 Hs). exact A7.
    + intros Hs id. rewrite Hs in A7. rewrite (B7 Hs id).
      unfold stock, select_book. rewrite A7, find_map_decrement.
      destruct (find (fun x => BookID x =? id) (Books d)) as [x|] eqn:Ef;
        simpl; [|reflexivity].
      apply find_some in Ef. destruct Ef as [_ Hid]. apply Z.eqb_eq in Hid.
      unfold decrement. rewrite Hid, (Z.eqb_sym (c_BookID item) id).
      destruct (id =? c_BookID item); simpl; f_equal; lia.
Qed.

Lemma insert_Orders_inv : forall c s t total status d oid d',
  insert_Orders c s t total status d = Ok (oid, d') ->
  oid = next_OrderID d
  /\ Staff d' = Staff d /\ Books d' = Books d /\ Accounts d' = Accounts d
  /\ OrderItems d' = OrderItems d
  /\ next_OrderItemID d' = next_OrderItemID d
  /\ Orders d' = (Orders d ++ [mkOrder oid c s t total status])%list
  /\ next_OrderID d' = next_OrderID d + 1.
Proof.
  unfold insert_Orders. intros c s t total status d oid d' H.
  destruct (has_account c d && has_staff s d); [|discriminate].
  inversion H; subst. repeat split.
Qed.

(** What a successful [place_order] has written. *)
Lemma place_order_statements_inv : forall c s t status cart d oid d',
  place_order_statements c s t status cart d = Ok (oid, d') ->
  oid = next_OrderID d
  /\ Staff d' = Staff d /\ Accounts d' = Accounts d
  /\ Orders d' =
     (Orders d ++ [mkOrder oid c s t (total_amount cart) status])%list
  /\ next_OrderID d' = next_OrderID d + 1
  /\ OrderItems d' =
     (OrderItems d ++ order_items_of oid (next_OrderItemID d) cart)%list
  /\ (OrderStatus_eqb status Completed = false -> Books d' = Books d)
  /\ (OrderStatus_eqb status Completed = true ->
      forall id, stock id d' =
                 option_map (fun q => q - cart_quantity id cart) (stock id d)).
Proof.
  unfold place_order_statements, bind. intros c s t status cart d oid d' H.
  destruct (insert_Orders c s t (total_amount cart) status d)
    as [[o1 d1]|e] eqn:E1; [|discriminate].
  apply insert_Orders_inv in E1.
  destruct E1 as (A1 & A2 & A3 & A4 & A5 & A6 & A7 & A8).
  destruct (for_each cart (order_item_statements status o1) d1)
    as [[u2 d2]|e] eqn:E2; [|discriminate].
  apply order_items_loop_inv in E2.
  destruct E2 as (B1 & B2 & B3 & B4 & B5 & B6 & B7).
  inversion H; subst oid d'. subst o1.
  repeat split; try congruence.
  - intros Hs. rewrite (B6 Hs). exact A3.
  - intros Hs id. rewrite (B7 Hs id). unfold stock, select_book.
    rewrite A3. reflexivity.
Qed.


Lemma insert_Orders_ok : forall c s t total status d,
  has_account c d = true -> has_staff s d = true ->
  exists d1,
    insert_Orders c s t total status d = Ok (next_OrderID d, d1)
    /\ has_order (next_OrderID d) d1 = true
    /\ Books d1 = Books d /\ Staff d1 = Staff d.
Proof.
  unfold insert_Orders. intros c s t total status d Hc Hs.
  rewrite Hc, Hs. simpl. eexists. split; [reflexivity|].
  repeat split. unfold has_order. simpl.
  rewrite existsb_app. simpl. rewrite Z.eqb_refl.
  rewrite orb_true_r. reflexivity.
Qed.

Lemma insert_OrderItems_ok : forall o b q p d,
  has_order o d = true -> has_book b d = true ->
  exists d1,
    insert_OrderItems o b q p d = Ok (tt, d1)
    /\ Books d1 = Books d /\ Staff d1 = Staff d /\ Orders d1 = Orders d.
Proof.
  unfold insert_OrderItems. intros o b q p d Ho Hb.
  rewrite Ho, Hb. simpl. eexists. split; [reflexivity|]. repeat split.
Qed.

Lemma has_book_ext : forall id d d',
  Books d' = Books d -> has_book id d' = has_book id d.
Proof. unfold has_book. intros id d d' ->. reflexivity. Qed.

Lemma has_staff_ext : forall id d d',
  Staff d' = Staff d -> has_staff id d' = has_staff id d.
Proof. unfold has_staff. intros id d d' ->. reflexivity. Qed.

Lemma has_order_ext : forall id d d',
  Orders d' = Orders d -> has_order id d' = has_order id d.
Proof. unfold has_order. intros id d d' ->. reflexivity. Qed.


(** What [add_to_cart] does when it returns without a message. *)
Lemma add_to_cart_done : forall sel qty a a',
  add_to_cart sel qty a = (a', Done) ->
  exists book_id quantity book,
    sel = Some book_id /\ Py.int qty = Some quantity /\ 0 < quantity
    /\ select_book book_id (db a) = Some book
    /\ quantity <= Quantity book
    /\ a' = with_cart
              (cart_tree a ++
                 [mkCartLine book_id (BookName book) quantity (Price book)
                             (Price book * quantity)]) a.
Proof.
  unfold add_to_cart. intros sel qty a a' H.
  destruct sel as [book_id|]; [|discriminate].
  destruct (Py.int qty) as [quantity|]; [|discriminate].
  destruct (Z.leb_spec quantity 0) as [Hle|Hpos]; [discriminate|].
  destruct (select_book book_id (db a)) as [book|] eqn:Eb; [|discriminate].
  destruct (Z.gtb_spec quantity (Quantity book)) as [Hgt|Hok];
    [discriminate|].
  inversion H; subst a'.
  exists book_id, quantity, book. repeat split; assumption.
Qed.




(* ------------------------------------------------------------------ *)
(** *** Commit against insufficient stock *)

Lemma stock_map_decrement : forall q b d d' id,
  Books d' = map (decrement q b) (Books d) ->
  stock id d' =
  option_map (fun s => if id =? b then s - q else s) (stock id d).
Proof.
  intros q b d d' id HB.
  unfold stock, select_book. rewrite HB, find_map_decrement.
  destruct (find (fun x => BookID x =? id) (Books d)) as [x|] eqn:Ef;
    simpl; [|reflexivity].
  apply find_some in Ef. destruct Ef as [_ Hid]. apply Z.eqb_eq in Hid.
  unfold decrement. rewrite Hid. destruct (id =? b); reflexivity.
Qed.

Lemma stock_ext : forall id d d',
  Books d' = Books d -> stock id d' = stock id d.
Proof. unfold stock, select_book. intros id d d' ->. reflexivity. Qed.

(** A line asking for more than the stock makes the loop over the cart
    fail, wherever the line stands in the cart. *)
Lemma order_items_loop_short : forall oid cart d line s,
  (forall l, In l cart -> 0 < c_Quantity l) ->
  In line cart ->
  stock (c_BookID line) d = Some s -> s < c_Quantity line ->
  exists e, for_each cart (order_item_statements Completed oid) d = Raise e.
Proof.
  induction cart as [|item r IH]; intros d line s Hpos Hin Hs Hlt.
  - destruct Hin.
  - cbn [for_each]. unfold bind at 1.
    destruct (order_item_statements Completed oid item d)
      as [[u d1]|e] eqn:E1; [|exists e; reflexivity].
    destruct Hin as [Heq|Hin].
    + exfalso. subst item.
      unfold order_item_statements, bind in E1.
      destruct (insert_OrderItems oid (c_BookID line) (c_Quantity line)
                  (c_Price line) d) as [[u0 d0]|e0] eqn:E0; [|discriminate].
      apply insert_OrderItems_inv in E0. destruct E0 as (_ & HB & _).
      cbn [OrderStatus_eqb] in E1.
      destruct (update_Books_Quantity_short (c_Quantity line)
                  (c_BookID line) d0 s) as [e He]; [|exact Hlt|].
      * rewrite (stock_ext _ _ _ HB). exact Hs.
      * rewrite He in E1. discriminate.
    + apply order_item_statements_inv in E1.
      destruct E1 as (_ & _ & _ & _ & _ & _ & HB). cbn [OrderStatus_eqb] in HB.
      pose proof (stock_map_decrement _ _ _ _ (c_BookID line) HB) as Hs1.
      rewrite Hs in Hs1. simpl in Hs1.
      assert (Hq : 0 < c_Quantity item) by (apply Hpos; left; reflexivity).
      eapply (IH d1 line); [ | exact Hin | exact Hs1 | ].
      * intros l Hl. apply Hpos. right. exact Hl.
      * destruct (c_BookID line =? c_BookID item); lia.
Qed.

(** With the foreign keys in place, the loop can only fail on the
    [CHECK] of [Books.Quantity]. *)
Lemma order_items_loop_raise : forall oid cart d e,
  has_order oid d = true ->
  (forall l, In l cart -> has_book (c_BookID l) d = true) ->
  books_attributed d ->
  for_each cart (order_item_statements Completed oid) d = Raise e ->
  e = CheckViolated.
Proof.
  induction cart as [|item r IH]; intros d e Ho Hbooks Hattr H.
  - discriminate.
  - cbn [for_each] in H. unfold bind at 1 in H.
    destruct (insert_OrderItems_ok oid (c_BookID item) (c_Quantity item)
                (c_Price item) d Ho (Hbooks item (or_introl eq_refl)))
      as (d0 & E0 & HB0 & HS0 & HO0).
    assert (Hattr0 : books_attributed d0).
    { intros x Hx. rewrite HB0 in Hx.
      rewrite (has_staff_ext _ _ _ HS0). apply Hattr, Hx. }
    destruct (order_item_statements Completed oid item d)
      as [[u d1]|e1] eqn:E1.
    + pose proof E1 as E1'.
      apply order_item_statements_inv in E1'.
      destruct E1' as (HS1 & _ & HO1 & _ & _ & _ & HB1).
      cbn [OrderStatus_eqb] in HB1.
      apply (IH d1 e); [ | | | exact H].
      * rewrite (has_order_ext _ _ _ HO1). exact Ho.
      * intros l Hl. unfold has_book. rewrite HB1, has_book_map_decrement.
        apply Hbooks. right. exact Hl.
      * intros x Hx. rewrite HB1 in Hx. apply in_map_iff in Hx.
        destruct Hx as [y [<- Hy]].
        rewrite (has_staff_ext _ _ _ HS1).
        replace (Update_by (decrement (c_Quantity item) (c_BookID item) y))
          with (Update_by y)
          by (unfold decrement; destruct (BookID y =? c_BookID item);
              reflexivity).
        apply Hattr, Hy.
    + inversion H; subst e1.
      unfold order_item_statements, bind in E1. rewrite E0 in E1.
      cbn [OrderStatus_eqb] in E1.
      eapply update_Books_Quantity_raise; eassumption.
Qed.

Lemma place_order_statements_short : forall c s t cart d line q,
  (forall l, In l cart -> 0 < c_Quantity l) ->
  In line cart ->
  stock (c_BookID line) d = Some q -> q < c_Quantity line ->
  (exists e, place_order_statements c s t Completed cart d = Raise e)
  /\ (has_account c d = true -> has_staff s d = true ->
      (forall l, In l cart -> has_book (c_BookID l) d = true) ->
      books_attributed d ->
      place_order_statements c s t Completed cart d = Raise CheckViolated).
Proof.
  intros c s t cart d line q Hpos Hin Hs Hlt.
  assert (Hloop : forall o d1, Books d1 = Books d ->
            exists e, for_each cart (order_item_statements Completed o) d1
                      = Raise e).
  { intros o d1 HB. apply (order_items_loop_short o cart d1 line q);
      try assumption.
    rewrite (stock_ext _ _ _ HB). exact Hs. }
  split.
  - unfold place_order_statements, bind.
    destruct (insert_Orders c s t (total_amount cart) Completed d)
      as [[o d1]|e] eqn:E1; [|exists e; reflexivity].
    apply insert_Orders_inv in E1. destruct E1 as (_ & _ & HB & _).
    destruct (Hloop o d1 HB) as [e He]. rewrite He. exists e. reflexivity.
  - intros Hc Hst Hbooks Hattr.
    destruct (insert_Orders_ok c s t (total_amount cart) Completed d Hc Hst)
      as (d1 & E1 & Ho1 & HB1 & HS1).
    unfold place_order_statements, bind. rewrite E1.
    destruct (Hloop (next_OrderID d) d1 HB1) as [e He]. rewrite He.
    f_equal. apply (order_items_loop_raise (next_OrderID d) cart d1 e);
      try assumption.
    + intros l Hl. rewrite (has_book_ext _ _ _ HB1). apply Hbooks, Hl.
    + intros x Hx. rewrite HB1 in Hx. rewrite (has_staff_ext _ _ _ HS1).
      apply Hattr, Hx.
Qed.

(** C2.  A cart built by [add_to_cart] (every quantity above zero) has a
    line asking for more than the current stock [S] of its book; it is
    committed as [Completed].  The commit fails: the state is the one
    before it, so the stock is still [S] and no [Orders] or [OrderItems]
    row was added, also when other lines of the cart could have been
    served.  When customer, staff and books are those of the store, the
    failure is the violated [CHECK] on the stock. *)
Theorem place_order_insufficient_stock :
  forall (a : App) (customer_id now S : Z) (line : CartLine),
    customer_combobox a = Some customer_id ->
    (forall l, In l (cart_tree a) -> 0 < c_Quantity l) ->
    In line (cart_tree a) ->
    stock (c_BookID line) (db a) = Some S ->
    S < c_Quantity line ->
    (exists e, place_order Completed now a =
               (a, ShowError (Failed_to_place_order e)))
    /\ stock (c_BookID line) (db (fst (place_order Completed now a)))
       = Some S
    /\ Books (db (fst (place_order Completed now a))) = Books (db a)
    /\ Orders (db (fst (place_order Completed now a))) = Orders (db a)
    /\ OrderItems (db (fst (place_order Completed now a)))
       = OrderItems (db a)
    /\ (has_account customer_id (db a) = true ->
        has_staff (current_staff_id a) (db a) = true ->
        (forall l, In l (cart_tree a) ->
                   has_book (c_BookID l) (db a) = true) ->
        books_attributed (db a) ->
        place_order Completed now a =
        (a, ShowError (Failed_to_place_order CheckViolated))).
Proof.
  intros a customer_id now S line Hcust Hpos Hin Hs Hlt.
  destruct (place_order_statements_short customer_id (current_staff_id a)
              now (cart_tree a) (db a) line S Hpos Hin Hs Hlt)
    as [[e He] Hcheck].
  assert (Hfail : place_order Completed now a =
                  (a, ShowError (Failed_to_place_order e))).
  { unfold place_order, transaction. rewrite Hcust.
    destruct (cart_tree a) as [|l0 r0] eqn:Ec; [destruct Hin|].
    rewrite He, rollback_same. reflexivity. }
  split; [exists e; exact Hfail|].
  rewrite Hfail. simpl. repeat split; try assumption.
  intros Hc Hst Hbooks Hattr.
  specialize (Hcheck Hc Hst Hbooks Hattr). rewrite Hcheck in He.
  inversion He. reflexivity.
Qed.

Lemma place_order_insufficient_stock_witness :
  place_order Completed 0 short_cart_session =
  (short_cart_session, ShowError (Failed_to_place_order CheckViolated))
  /\ stock 7 (db (fst (place_order Completed 0 short_cart_session)))
     = Some 5.
Proof.
  assert (Hpos : forall l, In l (cart_tree short_cart_session) ->
                           0 < c_Quantity l).
  { simpl. intros l [<-|[<-|[]]]; simpl; lia. }
  assert (Hin : In (mkCartLine 7 "Dune" 10 1500 15000)
                   (cart_tree short_cart_session)).
  { simpl. right. left. reflexivity. }
  assert (Hlt : 5 < c_Quantity (mkCartLine 7 "Dune" 10 1500 15000)).
  { simpl. lia. }
  assert (Hbooks : forall l, In l (cart_tree short_cart_session) ->
                     has_book (c_BookID l) (db short_cart_session) = true).
  { simpl. intros l [<-|[<-|[]]]; reflexivity. }
  assert (Hattr : books_attributed (db short_cart_session)).
  { intros b. simpl. intros [<-|[]]. reflexivity. }
  destruct (place_order_insufficient_stock short_cart_session 10 0 5
              (mkCartLine 7 "Dune" 10 1500 15000)
              eq_refl Hpos Hin eq_refl Hlt)
    as (_ & Hstock & _ & _ & _ & Hcheck).
  split.
  - exact (Hcheck eq_refl eq_refl Hbooks Hattr).
  - exact Hstock.
Defined.

(* ------------------------------------------------------------------ *)
(** *** The price in the cart *)





(* ================================================================== *)
(** ** [update_order_status] *)

Lemma find_map_restatus : forall status id id' l,
  find (fun o => OrderID o =? id') (map (restatus status id) l) =
  option_map (restatus status id) (find (fun o => OrderID o =? id') l).
Proof.
  induction l as [|o r IH]; simpl; [reflexivity|].
  assert (E : OrderID (restatus status id o) = OrderID o).
  { unfold restatus. destruct (OrderID o =? id); reflexivity. }
  rewrite E. destruct (OrderID o =? id'); [reflexivity | exact IH].
Qed.

Lemma order_status_restatus : forall status id id' d d',
  Orders d' = map (restatus status id) (Orders d) ->
  order_status id' d' =
  if id' =? id then option_map (fun _ => status) (order_status id' d)
  else order_status id' d.
Proof.
  intros status id id' d d' HO.
  unfold order_status, find_order. rewrite HO, find_map_restatus.
  destruct (find (fun o => OrderID o =? id') (Orders d)) as [o|] eqn:Ef;
    simpl.
  - apply find_some in Ef. destruct Ef as [_ Hid]. apply Z.eqb_eq in Hid.
    unfold restatus. rewrite Hid. destruct (id' =? id); reflexivity.
  - destruct (id' =? id); reflexivity.
Qed.

Lemma update_Orders_Status_inv : forall status id d u d',
  update_Orders_Status status id d = Ok (u, d') ->
  Orders d' = map (restatus status id) (Orders d)
  /\ Staff d' = Staff d /\ Books d' = Books d /\ Accounts d' = Accounts d
  /\ OrderItems d' = OrderItems d /\ next_OrderID d' = next_OrderID d.
Proof.
  unfold update_Orders_Status. intros status id d u d' H.
  inversion H; subst. repeat split.
Qed.



(* ------------------------------------------------------------------ *)
(** *** Completing a pending order *)

Lemma ordered_lines_inv : forall items d u d',
  for_each items (fun item => update_Books_Quantity (snd item) (fst item)) d
  = Ok (u, d') ->
  same_orders d d'
  /\ forall id, stock id d' =
                option_map (fun s => s - ordered_quantity id items)
                           (stock id d).
Proof.
  induction items as [|[b q] r IH]; intros d u d' H.
  - inversion H; subst. split; [apply same_orders_refl|].
    intros id. simpl. destruct (stock id d'); simpl; [f_equal; lia|].
    reflexivity.
  - cbn [for_each] in H. unfold bind in H. cbn [fst snd] in H.
    destruct (update_Books_Quantity q b d) as [[u1 d1]|e] eqn:E1;
      [|discriminate].
    pose proof (update_Books_Quantity_inv _ _ _ _ _ E1) as [S1 B1].
    apply IH in H. destruct H as [S2 HS2]. split.
    + eapply same_orders_trans; eassumption.
    + intros id. rewrite (HS2 id).
      rewrite (stock_map_decrement _ _ _ _ id B1).
      destruct (stock id d) as [s|]; simpl; [|reflexivity].
      rewrite (Z.eqb_sym b id).
      destruct (id =? b); f_equal; lia.
Qed.



(* ------------------------------------------------------------------ *)
(** *** Sessions: no order is taken from stock twice *)

Lemma order_status_ext : forall id d d',
  Orders d' = Orders d -> order_status id d' = order_status id d.
Proof.
  unfold order_status, find_order. intros id d d' ->. reflexivity.
Qed.

Lemma find_order_key : forall l o,
  NoDup (map OrderID l) -> In o l ->
  find (fun x => OrderID x =? OrderID o) l = Some o.
Proof.
  induction l as [|x r IH]; simpl; intros o ND Hin; [destruct Hin|].
  inversion ND as [|k ks Hnotin ND']; subst.
  destruct Hin as [->|Hin].
  - rewrite Z.eqb_refl. reflexivity.
  - destruct (Z.eqb_spec (OrderID x) (OrderID o)) as [E|E].
    + exfalso. apply Hnotin. rewrite E. apply in_map, Hin.
    + apply IH; assumption.
Qed.

Lemma order_status_above : forall d id,
  order_keys d -> next_OrderID d <= id -> order_status id d = None.
Proof.
  unfold order_keys, order_status, find_order. intros d id [_ Hlt] Hid.
  destruct (find (fun o => OrderID o =? id) (Orders d)) as [o|] eqn:Ef;
    [|reflexivity].
  apply find_some in Ef. destruct Ef as [Hin E]. apply Z.eqb_eq in E.
  specialize (Hlt o Hin). lia.
Qed.

Lemma pending_rows_fresh : forall d row,
  order_keys d -> In row (pending_rows d) ->
  order_status (p_OrderID row) d = Some Pending.
Proof.
  unfold pending_rows. intros d row [ND _] Hin.
  apply in_flat_map in Hin. destruct Hin as [o [Ho Hrow]].
  destruct (OrderStatus_eqb (Status o) Pending) eqn:Es; [|destruct Hrow].
  apply in_map_iff in Hrow. destruct Hrow as [c [<- _]]. simpl.
  unfold order_status, find_order.
  rewrite (find_order_key (Orders d) o ND Ho). simpl.
  destruct (Status o); try discriminate. reflexivity.
Qed.

Lemma find_app_l {A} (f : A -> bool) : forall l1 l2 x,
  find f l1 = Some x -> find f (l1 ++ l2) = Some x.
Proof.
  induction l1 as [|y r IH]; simpl; intros l2 x H; [discriminate|].
  destruct (f y); [exact H | apply IH, H].
Qed.

Lemma find_app_r {A} (f : A -> bool) : forall l1 l2,
  find f l1 = None -> find f (l1 ++ l2) = find f l2.
Proof.
  induction l1 as [|y r IH]; simpl; intros l2 H; [reflexivity|].
  destruct (f y); [discriminate | apply IH, H].
Qed.

Lemma order_status_kept : forall d d' o id st,
  Orders d' = (Orders d ++ [o])%list ->
  order_status id d = Some st -> order_status id d' = Some st.
Proof.
  unfold order_status, find_order. intros d d' o id st HO H.
  rewrite HO.
  destruct (find (fun x => OrderID x =? id) (Orders d)) as [x|] eqn:Ef;
    [|discriminate].
  rewrite (find_app_l _ _ [o] x Ef). exact H.
Qed.

Lemma order_status_new : forall d d' o,
  order_keys d ->
  Orders d' = (Orders d ++ [o])%list -> OrderID o = next_OrderID d ->
  order_status (OrderID o) d' = Some (Status o).
Proof.
  intros d d' o Hk HO Hid.
  pose proof (order_status_above d (OrderID o) Hk) as Hnone.
  unfold order_status, find_order in *. rewrite HO.
  destruct (find (fun x => OrderID x =? OrderID o) (Orders d)) eqn:Ef.
  - rewrite Hid in Hnone. specialize (Hnone (Z.le_refl _)). discriminate.
  - rewrite (find_app_r _ _ [o] Ef). simpl. rewrite Z.eqb_refl.
    reflexivity.
Qed.

Lemma order_keys_append : forall d d' o,
  order_keys d ->
  Orders d' = (Orders d ++ [o])%list -> OrderID o = next_OrderID d ->
  next_OrderID d' = next_OrderID d + 1 ->
  order_keys d'.
Proof.
  unfold order_keys. intros d d' o [ND Hlt] HO Hid Hnext. split.
  - rewrite HO, map_app. simpl.
    apply NoDup_app; [exact ND | repeat constructor; intros [] | ].
    intros k Hk1 [Hk2|[]]. apply in_map_iff in Hk1.
    destruct Hk1 as [x [Hx Hin]]. specialize (Hlt x Hin). lia.
  - intros x Hx. rewrite HO in Hx. apply in_app_or in Hx.
    destruct Hx as [Hx|[<-|[]]]; [specialize (Hlt x Hx)|]; lia.
Qed.

Lemma map_OrderID_restatus : forall status id l,
  map OrderID (map (restatus status id) l) = map OrderID l.
Proof.
  induction l as [|o r IH]; simpl; [reflexivity|].
  rewrite IH. f_equal. unfold restatus.
  destruct (OrderID o =? id); reflexivity.
Qed.

Lemma order_keys_restatus : forall status id d d',
  order_keys d ->
  Orders d' = map (restatus status id) (Orders d) ->
  next_OrderID d' = next_OrderID d ->
  order_keys d'.
Proof.
  unfold order_keys. intros status id d d' [ND Hlt] HO Hnext. split.
  - rewrite HO, map_OrderID_restatus. exact ND.
  - intros x Hx. rewrite HO in Hx. apply in_map_iff in Hx.
    destruct Hx as [y [<- Hy]]. specialize (Hlt y Hy).
    unfold restatus. destruct (OrderID y =? id); simpl; lia.
Qed.

Section Invariant.

Variable d0 : Database.

(** Steps that leave [Orders] and its counter alone. *)
Lemma invariant_frame : forall a a' log,
  session_invariant d0 a log ->
  Orders (db a') = Orders (db a) ->
  next_OrderID (db a') = next_OrderID (db a) ->
  pending_orders_tree a' = pending_orders_tree a ->
  session_invariant d0 a' log.
Proof.
  unfold session_invariant, order_keys, tree_fresh.
  intros a a' log ([ND Hlt] & I3 & I5 & I4 & I6 & I7 & I8 & I9) HO HN HT.
  rewrite HO, HN, HT.
  repeat split; try assumption.
  - intros row Hr Hp. rewrite (order_status_ext _ _ _ HO). auto.
  - intros id Hid. rewrite (order_status_ext _ _ _ HO). auto.
  - intros id Hid. rewrite (order_status_ext _ _ _ HO). eauto.
Qed.

(** Reloading the tree. *)
Lemma invariant_refresh : forall a a' log,
  session_invariant d0 a log ->
  db a' = db a ->
  session_invariant d0 (load_pending_orders a') log.
Proof.
  unfold session_invariant.
  intros a a' log (I1 & I3 & I5 & I4 & I6 & I7 & I8 & I9) E.
  unfold tree_fresh. simpl. rewrite E.
  repeat split; try assumption; try apply I1.
  intros row Hr _. apply pending_rows_fresh; assumption.
Qed.

(** A new order, placed with [status]. *)
Lemma invariant_place : forall a log d' o,
  session_invariant d0 a log ->
  Orders d' = (Orders (db a) ++ [o])%list ->
  OrderID o = next_OrderID (db a) ->
  next_OrderID d' = next_OrderID (db a) + 1 ->
  session_invariant d0
    (load_pending_orders (clear_cart (with_db d' a)))
    (if OrderStatus_eqb (Status o) Completed then OrderID o :: log
     else log).
Proof.
  unfold session_invariant.
  intros a log d' o (I1 & I3 & I5 & I4 & I6 & I7 & I8 & I9) HO Hid HN.
  assert (K : order_keys d') by (eapply order_keys_append; eassumption).
  assert (Hnew : ~ In (OrderID o) log).
  { intros Hin. specialize (I4 _ Hin).
    rewrite (order_status_above (db a) (OrderID o) I1) in I4;
      [discriminate | lia]. }
  simpl. split; [exact K|]. split.
  { intros row Hr _. apply pending_rows_fresh; assumption. }
  assert (Hold : forall id, In id log ->
                            order_status id d' = Some Completed).
  { intros id Hin. eapply order_status_kept; [exact HO | auto]. }
  assert (H7 : forall id st, order_status id d0 = Some st -> st <> Pending ->
                             order_status id d' = Some st).
  { intros id st H1 H2. eapply order_status_kept; [exact HO | eauto]. }
  destruct (OrderStatus_eqb (Status o) Completed) eqn:Es.
  - split; [constructor; assumption|]. split.
    { intros id [<-|Hin]; [|auto].
      rewrite (order_status_new (db a) d' o I1 HO Hid).
      destruct (Status o); try discriminate. reflexivity. }
    split.
    { intros id [<-|Hin]; [|auto]. right. apply I9. lia. }
    split; [exact H7|]. split; [lia | exact I9].
  - split; [exact I5|]. split; [exact Hold|].
    split; [exact I6|]. split; [exact H7|]. split; [lia | exact I9].
Qed.

(** The status of a pending order of the tree is changed. *)
Lemma invariant_restatus : forall a log d' row new_status,
  session_invariant d0 a log ->
  In row (pending_orders_tree a) -> p_Status row = Pending ->
  Orders d' = map (restatus new_status (p_OrderID row)) (Orders (db a)) ->
  next_OrderID d' = next_OrderID (db a) ->
  session_invariant d0
    (load_pending_orders (with_db d' a))
    (if OrderStatus_eqb new_status Completed then p_OrderID row :: log
     else log).
Proof.
  unfold session_invariant.
  intros a log d' row new_status
         (I1 & I3 & I5 & I4 & I6 & I7 & I8 & I9) Hrow Hp HO HN.
  assert (K : order_keys d') by (eapply order_keys_restatus; eassumption).
  pose proof (I3 row Hrow Hp) as Hpending.
  assert (Hnew : ~ In (p_OrderID row) log).
  { intros Hin. rewrite (I4 _ Hin) in Hpending. discriminate. }
  assert (Hother : forall id, id <> p_OrderID row ->
                              order_status id d' = order_status id (db a)).
  { intros id Hne. rewrite (order_status_restatus _ _ id _ _ HO).
    destruct (Z.eqb_spec id (p_OrderID row)); [contradiction|reflexivity]. }
  assert (Hold : forall id, In id log ->
                            order_status id d' = Some Completed).
  { intros id Hin. rewrite Hother; [auto|].
    intros ->. contradiction. }
  assert (H7 : forall id st, order_status id d0 = Some st -> st <> Pending ->
                             order_status id d' = Some st).
  { intros id st H1 H2. rewrite Hother; [eauto|].
    intros ->. rewrite (I7 _ _ H1 H2) in Hpending.
    inversion Hpending. contradiction. }
  assert (Hstart : order_status (p_OrderID row) d0 = Some Pending
                   \/ order_status (p_OrderID row) d0 = None).
  { destruct (order_status (p_OrderID row) d0) as [st|] eqn:E0;
      [|right; reflexivity].
    destruct st; [left; reflexivity | | ]; exfalso;
      rewrite (I7 _ _ E0) in Hpending; discriminate. }
  simpl. split; [exact K|]. split.
  { intros r Hr _. apply pending_rows_fresh; assumption. }
  destruct (OrderStatus_eqb new_status Completed) eqn:Es.
  - split; [constructor; assumption|]. split.
    { intros id [<-|Hin]; [|auto].
      rewrite (order_status_restatus _ _ (p_OrderID row) _ _ HO).
      rewrite Z.eqb_refl, Hpending. simpl.
      destruct new_status; try discriminate. reflexivity. }
    split.
    { intros id [<-|Hin]; [exact Hstart | auto]. }
    split; [exact H7|]. split; [lia | exact I9].
  - split; [exact I5|]. split; [exact Hold|].
    split; [exact I6|]. split; [exact H7|]. split; [lia | exact I9].
Qed.

End Invariant.

Lemma BeforeBookDelete_inv : forall old d u d',
  BeforeBookDelete old d = Ok (u, d') -> same_orders d d'.
Proof.
  unfold BeforeBookDelete. intros old d u d' H.
  destruct (select_manager d).
  - apply insert_BookLog_inv in H. apply H.
  - inversion H; subst. apply same_orders_refl.
Qed.

Lemma delete_book_row_inv : forall old d u d',
  delete_book_row old d = Ok (u, d') -> same_orders d d'.
Proof.
  unfold delete_book_row, bind. intros old d u d' H.
  destruct (BeforeBookDelete old d) as [[u1 d1]|e] eqn:E1; [|discriminate].
  apply BeforeBookDelete_inv in E1.
  destruct (existsb _ (OrderItems d1)); [discriminate|].
  inversion H; subst d'.
  eapply same_orders_trans; [exact E1|]. repeat split.
Qed.

Lemma delete_book_rows_inv : forall l d u d',
  for_each l delete_book_row d = Ok (u, d') -> same_orders d d'.
Proof.
  induction l as [|x r IH]; intros d u d' H.
  - inversion H; subst. apply same_orders_refl.
  - cbn [for_each] in H. unfold bind in H.
    destruct (delete_book_row x d) as [[u1 d1]|e] eqn:E1; [|discriminate].
    apply delete_book_row_inv in E1. apply IH in H.
    eapply same_orders_trans; eassumption.
Qed.

(** Each command keeps the invariant, with the decremented order, if
    any, put on the log. *)
Lemma perform_invariant : forall d0 c a log,
  session_invariant d0 a log ->
  session_invariant d0 (fst (perform c a))
    (match decremented_for c (snd (perform c a)) with
     | Some id => id :: log
     | None => log
     end).
Proof.
  intros d0 c a log Inv.
  destruct c as [| sel qty | | sel | status now | new_status sel |
                 | sel confirm | sel confirm]; cbn [perform].
  - apply (invariant_refresh d0 a _ log Inv). reflexivity.
  - (* add_to_cart *)
    assert (H : decremented_for (Add_to_cart sel qty)
                  (snd (add_to_cart sel qty a)) = None) by reflexivity.
    rewrite H. apply (invariant_frame d0 a _ log Inv);
      unfold add_to_cart;
      destruct sel; try reflexivity;
      destruct (Py.int qty); try reflexivity;
      destruct (_ <=? 0); try reflexivity;
      destruct (select_book _ _); try reflexivity;
      destruct (_ >? _); reflexivity.
  - apply (invariant_frame d0 a _ log Inv); reflexivity.
  - apply (invariant_frame d0 a _ log Inv); reflexivity.
  - (* place_order *)
    unfold place_order, transaction.
    destruct (customer_combobox a) as [customer_id|];
      [|destruct status; exact Inv].
    destruct (cart_tree a) as [|l0 r0]; [destruct status; exact Inv|].
    destruct (place_order_statements customer_id (current_staff_id a) now
                status (l0 :: r0) (db a)) as [[oid d']|e] eqn:E;
      [|destruct status; exact Inv].
    apply place_order_statements_inv in E.
    destruct E as (Hoid & _ & _ & HO & HN & _).
    pose proof (invariant_place d0 a log d' _ Inv HO Hoid HN) as H.
    cbn [fst snd]. cbn [Status OrderID] in H.
    destruct status; exact H.
  - (* update_order_status *)
    unfold update_order_status, transaction.
    destruct sel as [i|]; [|destruct new_status; exact Inv].
    destruct (nth_error (pending_orders_tree a) i) as [row|] eqn:Hrow;
      [|destruct new_status; exact Inv].
    destruct (OrderStatus_eqb (p_Status row) Pending) eqn:Hp;
      cbn [negb]; [|destruct new_status; exact Inv].
    destruct (update_order_status_statements new_status (p_OrderID row)
                (db a)) as [[u d']|e] eqn:E;
      [|destruct new_status; exact Inv].
    assert (HON : Orders d' =
                  map (restatus new_status (p_OrderID row)) (Orders (db a))
                  /\ next_OrderID d' = next_OrderID (db a)).
    { unfold update_order_status_statements, bind in E.
      destruct (OrderStatus_eqb new_status Completed).
      - destruct (for_each (select_order_items (p_OrderID row) (db a))
                    (fun item => update_Books_Quantity (snd item) (fst item))
                    (db a)) as [[u1 d1]|e1] eqn:E1; [|discriminate].
        apply ordered_lines_inv in E1.
        destruct E1 as [(_ & _ & S3 & _ & S5 & _) _].
        apply update_Orders_Status_inv in E.
        destruct E as (HO & _ & _ & _ & _ & HN).
        rewrite HO, HN, S3, S5. split; reflexivity.
      - apply update_Orders_Status_inv in E.
        destruct E as (HO & _ & _ & _ & _ & HN). split; assumption. }
    destruct HON as [HO HN].
    assert (Hst : p_Status row = Pending).
    { destruct (p_Status row); try discriminate. reflexivity. }
    pose proof (invariant_restatus d0 a log d' row new_status Inv
                  (nth_error_In _ _ Hrow) Hst HO HN) as H.
    cbn [fst snd]. destruct new_status; exact H.
  - apply (invariant_refresh d0 a a log Inv). reflexivity.
  - (* delete_selected_book *)
    assert (H : decremented_for (Delete_selected_book sel confirm)
                  (snd (delete_selected_book sel confirm a)) = None)
      by reflexivity.
    rewrite H. unfold delete_selected_book, execute_query, delete_Books.
    destruct sel as [book_id|]; [|exact Inv].
    destruct confirm; cbn [negb]; [|exact Inv].
    destruct (select_manager (db a)); [|exact Inv].
    destruct (for_each _ delete_book_row (db a)) as [[u d']|e] eqn:E;
      [|exact Inv].
    apply delete_book_rows_inv in E.
    destruct E as (_ & _ & S3 & _ & S5 & _).
    apply (invariant_frame d0 a _ log Inv); simpl; assumption || reflexivity.
  - (* delete_staff *)
    assert (H : decremented_for (Delete_staff sel confirm)
                  (snd (delete_staff sel confirm a)) = None)
      by reflexivity.
    rewrite H. unfold delete_staff, execute_query, delete_Staff.
    destruct sel as [staff_id|]; [|exact Inv].
    destruct confirm; cbn [negb]; [|exact Inv].
    destruct (current_staff_id a =? staff_id); [exact Inv|].
    match goal with
    | |- context [if ?c then (a, _) else _] => destruct c
    end; [exact Inv|].
    match goal with
    | |- context [if ?c then Raise _ else _] => destruct c
    end; [exact Inv|].
    apply (invariant_frame d0 a _ log Inv); reflexivity.
Qed.

Lemma run_invariant : forall d0 cs a log,
  session_invariant d0 a log ->
  session_invariant d0 (fst (run cs a log)) (snd (run cs a log)).
Proof.
  induction cs as [|c r IH]; intros a log Inv; [exact Inv|].
  cbn [run].
  pose proof (perform_invariant d0 c a log Inv) as H.
  destruct (perform c a) as [a' o]. cbn [fst snd] in H.
  apply IH, H.
Qed.

Lemma open_order_window_invariant : forall d staff_id,
  order_keys d ->
  session_invariant d (open_order_window d staff_id) [].
Proof.
  intros d staff_id K. unfold session_invariant. simpl.
  split; [exact K|]. split.
  { intros row Hr _. apply pending_rows_fresh; assumption. }
  split; [constructor|]. split; [intros id []|]. split; [intros id []|].
  split; [auto|]. split; [lia|].
  intros id Hid. apply order_status_above; assumption.
Qed.

(** The list of decrements misses nothing: a command that puts no order
    on it leaves the [Books] table as it was, unless it is the deletion of
    a book. *)
Lemma books_change_only_with_event : forall c a,
  decremented_for c (snd (perform c a)) = None ->
  (forall sel confirm, c <> Delete_selected_book sel confirm) ->
  Books (db (fst (perform c a))) = Books (db a).
Proof.
  intros c a Hnone Hc.
  destruct c as [| sel qty | | sel | status now | new_status sel |
                 | sel confirm | sel confirm]; cbn [perform] in *.
  - reflexivity.
  - unfold add_to_cart.
    destruct sel; try reflexivity.
    destruct (Py.int qty); try reflexivity.
    destruct (_ <=? 0); try reflexivity.
    destruct (select_book _ _); try reflexivity.
    destruct (_ >? _); reflexivity.
  - reflexivity.
  - reflexivity.
  - unfold place_order, transaction in *.
    destruct (customer_combobox a); [|reflexivity].
    destruct (cart_tree a); [reflexivity|].
    destruct (place_order_statements _ _ _ _ _ _) as [[oid d']|e] eqn:E;
      [|reflexivity].
    apply place_order_statements_inv in E.
    destruct E as (_ & _ & _ & _ & _ & _ & HB & _).
    cbn [fst snd] in *. simpl.
    destruct status; [apply HB; reflexivity | discriminate
                     | apply HB; reflexivity].
  - unfold update_order_status, transaction in *.
    destruct sel; [|reflexivity].
    destruct (nth_error _ _) as [row|]; [|reflexivity].
    destruct (negb _); [reflexivity|].
    destruct (update_order_status_statements _ _ _) as [[u d']|e] eqn:E;
      [|reflexivity].
    cbn [fst snd] in *. simpl.
    destruct new_status; try discriminate;
      unfold update_order_status_statements, bind in E;
      cbn [OrderStatus_eqb ret] in E;
      apply update_Orders_Status_inv in E; apply E.
  - reflexivity.
  - exfalso. apply (Hc sel confirm). reflexivity.
  - unfold delete_staff.
    destruct sel; [|reflexivity]. destruct (negb confirm); [reflexivity|].
    destruct (_ =? _); [reflexivity|].
    match goal with
    | |- context [if ?c then (a, _) else _] => destruct c
    end; [reflexivity|].
    unfold execute_query, delete_Staff.
    match goal with
    | |- context [if ?c then Raise _ else _] => destruct c
    end; reflexivity.
Qed.



(** Asking twice for the completion of order 1: the second request
    finds no row to select, and order 1 is on the list once. *)
Example complete_twice :
  snd (run [Update_order_status Completed (Some 0%nat);
            Update_order_status Completed (Some 0%nat)]
           pending_session []) = [1]
  /\ snd (perform (Update_order_status Completed (Some 0%nat))
            (fst (perform (Update_order_status Completed (Some 0%nat))
                          pending_session)))
     = ShowError Please_select_an_order.
Proof. split; reflexivity. Qed.

(* ------------------------------------------------------------------ *)
(** *** Carts of a session *)

Lemma perform_cart_well_formed : forall c a,
  cart_well_formed a -> cart_well_formed (fst (perform c a)).
Proof.
  unfold cart_well_formed.
  intros c a H.
  destruct c as [| sel qty | | sel | status now | new_status sel |
                 | sel confirm | sel confirm]; cbn [perform].
  - simpl. intros l [].
  - destruct (add_to_cart sel qty a) as [a' o] eqn:E. cbn [fst].
    destruct o as [|m|m].
    + apply add_to_cart_done in E.
      destruct E as (b & q & book & _ & _ & Hq & _ & _ & ->).
      simpl. intros l Hl. apply in_app_or in Hl.
      destruct Hl as [Hl|[<-|[]]]; [apply H, Hl | simpl; auto].
    + assert (a' = a); [|subst a'; exact H].
      unfold add_to_cart in E.
      destruct sel; [|inversion E; reflexivity].
      destruct (Py.int qty); [|inversion E; reflexivity].
      destruct (_ <=? 0); [inversion E; reflexivity|].
      destruct (select_book _ _); [|inversion E; reflexivity].
      destruct (_ >? _); [inversion E; reflexivity | discriminate].
    + exfalso. unfold add_to_cart in E.
      destruct sel; [|discriminate].
      destruct (Py.int qty); [|discriminate].
      destruct (_ <=? 0); [discriminate|].
      destruct (select_book _ _); [|discriminate].
      destruct (_ >? _); discriminate.
  - simpl. intros l [].
  - exact H.
  - unfold place_order, transaction.
    destruct (customer_combobox a); [|exact H].
    destruct (cart_tree a) eqn:Ec; [simpl; rewrite Ec; exact H|].
    destruct (place_order_statements _ _ _ _ _ _) as [[oid d']|e].
    + simpl. intros l0 [].
    + simpl. rewrite Ec. exact H.
  - unfold update_order_status, transaction.
    destruct sel; [|exact H].
    destruct (nth_error _ _); [|exact H].
    destruct (negb _); [exact H|].
    destruct (update_order_status_statements _ _ _) as [[u d']|e];
      exact H.
  - exact H.
  - unfold delete_selected_book.
    destruct sel; [|exact H]. destruct (negb confirm); [exact H|].
    destruct (select_manager _); [|exact H].
    destruct (execute_query _ _); exact H.
  - unfold delete_staff.
    destruct sel; [|exact H]. destruct (negb confirm); [exact H|].
    destruct (_ =? _); [exact H|].
    match goal with
    | |- context [if ?c then (a, _) else _] => destruct c
    end; [exact H|].
    destruct (execute_query _ _); exact H.
Qed.

(** In a session every cart is made of lines accepted by
    [add_to_cart]. *)
Lemma session_cart_well_formed : forall cs a log,
  cart_well_formed a -> cart_well_formed (fst (run cs a log)).
Proof.
  induction cs as [|c r IH]; intros a log H; [exact H|].
  cbn [run].
  pose proof (perform_cart_well_formed c a H) as H'.
  destruct (perform c a) as [a' o]. apply IH, H'.
Qed.

(* ================================================================== *)
(** ** Further properties of the operations *)



(* ------------------------------------------------------------------ *)
(** *** Stock is never negative *)

(** The [CHECK] seen from a statement that went through. *)
Lemma update_Books_Quantity_checked : forall q b d u d',
  update_Books_Quantity q b d = Ok (u, d') ->
  forall x, In x (Books d) -> BookID x = b -> 0 <= Quantity x - q.
Proof.
  unfold update_Books_Quantity. intros q b d u d' H x Hx Hid.
  destruct (forallb _ _) eqn:Hall; [|discriminate].
  rewrite forallb_forall in Hall.
  specialize (Hall (take_from q x)).
  assert (Hin : In (take_from q x)
                  (map (take_from q)
                       (filter (fun y => BookID y =? b) (Books d)))).
  { apply in_map, filter_In. split; [exact Hx | apply Z.eqb_eq, Hid]. }
  apply Hall in Hin. simpl in Hin. apply Z.leb_le, Hin.
Qed.

Lemma update_Books_Quantity_nonnegative : forall q b d u d',
  stock_nonnegative d ->
  update_Books_Quantity q b d = Ok (u, d') ->
  stock_nonnegative d'.
Proof.
  unfold stock_nonnegative. intros q b d u d' Hd H x Hx.
  pose proof (update_Books_Quantity_checked _ _ _ _ _ H) as Hchk.
  apply update_Books_Quantity_inv in H. destruct H as [_ HB].
  rewrite HB in Hx. apply in_map_iff in Hx. destruct Hx as [y [<- Hy]].
  unfold decrement. destruct (Z.eqb_spec (BookID y) b) as [E|E].
  - simpl. apply (Hchk y Hy E).
  - apply Hd, Hy.
Qed.

Lemma stock_nonnegative_ext : forall d d',
  Books d' = Books d -> stock_nonnegative d -> stock_nonnegative d'.
Proof. unfold stock_nonnegative. intros d d' ->. auto. Qed.

Lemma order_item_statements_nonnegative : forall status oid item d u d',
  stock_nonnegative d ->
  order_item_statements status oid item d = Ok (u, d') ->
  stock_nonnegative d'.
Proof.
  unfold order_item_statements, bind. intros status oid item d u d' Hd H.
  destruct (insert_OrderItems _ _ _ _ d) as [[u1 d1]|e] eqn:E1;
    [|discriminate].
  apply insert_OrderItems_inv in E1. destruct E1 as (_ & HB & _).
  pose proof (stock_nonnegative_ext d d1 HB Hd) as Hd1.
  destruct (OrderStatus_eqb status Completed).
  - eapply update_Books_Quantity_nonnegative; eassumption.
  - inversion H; subst. exact Hd1.
Qed.

Lemma order_items_loop_nonnegative : forall status oid cart d u d',
  stock_nonnegative d ->
  for_each cart (order_item_statements status oid) d = Ok (u, d') ->
  stock_nonnegative d'.
Proof.
  induction cart as [|item r IH]; intros d u d' Hd H.
  - inversion H; subst. exact Hd.
  - cbn [for_each] in H. unfold bind in H.
    destruct (order_item_statements status oid item d) as [[u1 d1]|e] eqn:E1;
      [|discriminate].
    eapply IH; [|exact H].
    eapply order_item_statements_nonnegative; eassumption.
Qed.

Lemma ordered_lines_nonnegative : forall items d u d',
  stock_nonnegative d ->
  for_each items (fun item => update_Books_Quantity (snd item) (fst item)) d
  = Ok (u, d') ->
  stock_nonnegative d'.
Proof.
  induction items as [|item r IH]; intros d u d' Hd H.
  - inversion H; subst. exact Hd.
  - cbn [for_each] in H. unfold bind in H.
    destruct (update_Books_Quantity (snd item) (fst item) d)
      as [[u1 d1]|e] eqn:E1; [|discriminate].
    eapply IH; [|exact H].
    eapply update_Books_Quantity_nonnegative; eassumption.
Qed.

Lemma delete_book_rows_books : forall l d u d',
  for_each l delete_book_row d = Ok (u, d') ->
  forall b, In b (Books d') -> In b (Books d).
Proof.
  induction l as [|x r IH]; intros d u d' H b Hb.
  - inversion H; subst. exact Hb.
  - cbn [for_each] in H. unfold bind in H.
    destruct (delete_book_row x d) as [[u1 d1]|e] eqn:E1; [|discriminate].
    specialize (IH d1 u d' H b Hb).
    unfold delete_book_row, bind, BeforeBookDelete in E1.
    destruct (select_manager d).
    + destruct (insert_BookLog (BookID x) DELETE z d) as [[u0 d0]|e0] eqn:E0;
        [|discriminate].
      apply insert_BookLog_inv in E0. destruct E0 as [_ HB0].
      destruct (existsb _ (OrderItems d0)); [discriminate|].
      inversion E1; subst d1. simpl in IH.
      apply filter_In in IH. rewrite HB0 in IH. apply IH.
    + destruct (existsb _ (OrderItems d)); [discriminate|].
      inversion E1; subst d1. simpl in IH.
      apply filter_In in IH. apply IH.
Qed.

Lemma perform_stock_nonnegative : forall c a,
  stock_nonnegative (db a) ->
  stock_nonnegative (db (fst (perform c a))).
Proof.
  intros c a Hd.
  destruct c as [| sel qty | | sel | status now | new_status sel |
                 | sel confirm | sel confirm]; cbn [perform];
    try exact Hd.
  - unfold add_to_cart.
    destruct sel; [|exact Hd].
    destruct (Py.int qty); [|exact Hd].
    destruct (_ <=? 0); [exact Hd|].
    destruct (select_book _ _); [|exact Hd].
    destruct (_ >? _); exact Hd.
  - unfold place_order, transaction.
    destruct (customer_combobox a); [|exact Hd].
    destruct (cart_tree a); [exact Hd|].
    destruct (place_order_statements _ _ _ _ _ _) as [[oid d']|e] eqn:E;
      [|exact Hd].
    simpl. unfold place_order_statements, bind in E.
    destruct (insert_Orders _ _ _ _ _ _) as [[o1 d1]|e1] eqn:E1;
      [|discriminate].
    apply insert_Orders_inv in E1. destruct E1 as (_ & _ & HB & _).
    destruct (for_each _ _ d1) as [[u2 d2]|e2] eqn:E2; [|discriminate].
    inversion E; subst d'.
    eapply order_items_loop_nonnegative; [|exact E2].
    eapply stock_nonnegative_ext; eassumption.
  - unfold update_order_status, transaction.
    destruct sel; [|exact Hd].
    destruct (nth_error _ _) as [row|]; [|exact Hd].
    destruct (negb _); [exact Hd|].
    destruct (update_order_status_statements _ _ _) as [[u d']|e] eqn:E;
      [|exact Hd].
    simpl. unfold update_order_status_statements, bind in E.
    destruct (OrderStatus_eqb new_status Completed).
    + destruct (for_each _ _ (db a)) as [[u1 d1]|e1] eqn:E1;
        [|discriminate].
      apply update_Orders_Status_inv in E. destruct E as (_ & _ & HB & _).
      eapply stock_nonnegative_ext; [exact HB|].
      eapply ordered_lines_nonnegative; eassumption.
    + apply update_Orders_Status_inv in E. destruct E as (_ & _ & HB & _).
      eapply stock_nonnegative_ext; eassumption.
  - unfold delete_selected_book, execute_query, delete_Books.
    destruct sel; [|exact Hd].
    destruct (negb confirm); [exact Hd|].
    destruct (select_manager _); [|exact Hd].
    destruct (for_each _ delete_book_row (db a)) as [[u d']|e] eqn:E;
      [|exact Hd].
    simpl. intros b Hb. apply Hd.
    eapply delete_book_rows_books; eassumption.
  - unfold delete_staff.
    destruct sel; [|exact Hd].
    destruct (negb confirm); [exact Hd|].
    destruct (_ =? _); [exact Hd|].
    match goal with
    | |- context [if ?c then (a, _) else _] => destruct c
    end; [exact Hd|].
    unfold execute_query, delete_Staff.
    match goal with
    | |- context [if ?c then Raise _ else _] => destruct c
    end; exact Hd.
Qed.

(** X6.  If no book has a negative quantity, none has after any
    sequence of commands: orders never drive stock below zero. *)
Theorem stock_never_negative :
  forall (cs : list Command) (a : App) (log : list Z),
    stock_nonnegative (db a) ->
    stock_nonnegative (db (fst (run cs a log))).
Proof.
  induction cs as [|c r IH]; intros a log Hd; [exact Hd|].
  cbn [run].
  pose proof (perform_stock_nonnegative c a Hd) as H.
  destruct (perform c a) as [a' o]. apply IH, H.
Qed.

Lemma stock_never_negative_witness :
  stock_nonnegative (db clerk_session)
  /\ stock_nonnegative
       (db (fst (run [Add_to_cart (Some 7) "3"; Select_customer (Some 10);
                      Place_order Completed 0] clerk_session [])))
  /\ stock 7
       (db (fst (run [Add_to_cart (Some 7) "3"; Select_customer (Some 10);
                      Place_order Completed 0] clerk_session [])))
     = Some 2.
Proof.
  assert (H : stock_nonnegative (db clerk_session)).
  { intros b. simpl. intros [<-|[]]. simpl. lia. }
  split; [exact H|]. split; [|reflexivity].
  exact (stock_never_negative
           [Add_to_cart (Some 7) "3"; Select_customer (Some 10);
            Place_order Completed 0] clerk_session [] H).
Defined.

(* ------------------------------------------------------------------ *)
(** *** Foreign keys are kept *)

Lemma foreign_keys_log : forall d d' row,
  foreign_keys d ->
  Staff d' = Staff d -> Books d' = Books d -> Accounts d' = Accounts d ->
  Orders d' = Orders d -> OrderItems d' = OrderItems d ->
  BookLog d' = (BookLog d ++ [row])%list ->
  has_book (l_BookID row) d = true -> has_staff (ActionBy row) d = true ->
  foreign_keys d'.
Proof.
  unfold foreign_keys, has_staff, has_book, has_account, has_order.
  intros d d' row (F1 & F2 & F3 & F4) HS HB HA HO HI HL Hb Hs.
  rewrite HS, HB, HA, HO, HI, HL.
  repeat split; try (apply F1; assumption);
    try (apply F2; assumption); try (apply F3; assumption).
  - apply in_app_or in H. destruct H as [H|[<-|[]]]; [apply F4, H | exact Hb].
  - apply in_app_or in H. destruct H as [H|[<-|[]]]; [apply F4, H | exact Hs].
Qed.

Lemma insert_BookLog_keys : forall b act by_ d u d',
  foreign_keys d ->
  insert_BookLog b act by_ d = Ok (u, d') -> foreign_keys d'.
Proof.
  unfold insert_BookLog. intros b act by_ d u d' F H.
  destruct (has_book b d) eqn:Hb; [|discriminate].
  destruct (has_staff by_ d) eqn:Hs; [|discriminate].
  inversion H; subst d'.
  eapply (foreign_keys_log d _ (mkBookLog (next_LogID d) b act by_) F);
    try reflexivity; assumption.
Qed.

Lemma AfterBookUpdate_each_keys : forall l d u d',
  foreign_keys d ->
  for_each l AfterBookUpdate d = Ok (u, d') -> foreign_keys d'.
Proof.
  induction l as [|x r IH]; intros d u d' F H.
  - inversion H; subst. exact F.
  - cbn [for_each] in H. unfold bind in H.
    destruct (AfterBookUpdate x d) as [[u1 d1]|e] eqn:E1; [|discriminate].
    eapply IH; [|exact H].
    unfold AfterBookUpdate in E1. eapply insert_BookLog_keys; eassumption.
Qed.

Lemma Update_by_decrement : forall q b x,
  Update_by (decrement q b x) = Update_by x.
Proof.
  intros q b x. unfold decrement. destruct (BookID x =? b); reflexivity.
Qed.

Lemma foreign_keys_decrement : forall q b d,
  foreign_keys d ->
  foreign_keys (with_Books (map (decrement q b) (Books d)) d).
Proof.
  unfold foreign_keys, has_staff, has_book, has_account, has_order.
  intros q b d (F1 & F2 & F3 & F4). simpl.
  repeat split; try (apply F2; assumption); try (apply F3; assumption);
    try (apply F4; assumption).
  - intros x Hx. apply in_map_iff in Hx. destruct Hx as [y [<- Hy]].
    rewrite Update_by_decrement. apply F1, Hy.
  - rewrite has_book_map_decrement. apply F3, H.
  - rewrite has_book_map_decrement. apply F4, H.
Qed.

Lemma update_Books_Quantity_keys : forall q b d u d',
  foreign_keys d ->
  update_Books_Quantity q b d = Ok (u, d') -> foreign_keys d'.
Proof.
  unfold update_Books_Quantity. intros q b d u d' F H.
  destruct (forallb _ _); [|discriminate].
  eapply AfterBookUpdate_each_keys; [|exact H].
  apply foreign_keys_decrement, F.
Qed.

Lemma existsb_app_l {A} (f : A -> bool) : forall l1 l2,
  existsb f l1 = true -> existsb f (l1 ++ l2) = true.
Proof.
  intros l1 l2 H. rewrite existsb_app, H. reflexivity.
Qed.

Lemma insert_Orders_keys : forall c s t total status d oid d',
  foreign_keys d ->
  insert_Orders c s t total status d = Ok (oid, d') -> foreign_keys d'.
Proof.
  unfold insert_Orders. intros c s t total status d oid d' F H.
  destruct (has_account c d) eqn:Hc; [|discriminate].
  destruct (has_staff s d) eqn:Hs; [|discriminate].
  inversion H; subst oid d'. clear H.
  unfold foreign_keys, has_staff, has_book, has_account, has_order in *.
  destruct F as (F1 & F2 & F3 & F4). simpl.
  repeat split; try (apply F1; assumption); try (apply F3; assumption);
    try (apply F4; assumption).
  - apply in_app_or in H. destruct H as [H|[<-|[]]]; [apply F2, H | exact Hc].
  - apply in_app_or in H. destruct H as [H|[<-|[]]]; [apply F2, H | exact Hs].
  - apply existsb_app_l. apply F3, H.
Qed.

Lemma insert_OrderItems_keys : forall o b q p d u d',
  foreign_keys d ->
  insert_OrderItems o b q p d = Ok (u, d') -> foreign_keys d'.
Proof.
  unfold insert_OrderItems. intros o b q p d u d' F H.
  destruct (has_order o d) eqn:Ho; [|discriminate].
  destruct (has_book b d) eqn:Hb; [|discriminate].
  inversion H; subst d'. clear H.
  unfold foreign_keys, has_staff, has_book, has_account, has_order in *.
  destruct F as (F1 & F2 & F3 & F4). simpl.
  repeat split; try (apply F1; assumption); try (apply F2; assumption);
    try (apply F4; assumption).
  - apply in_app_or in H. destruct H as [H|[<-|[]]]; [apply F3, H | exact Ho].
  - apply in_app_or in H. destruct H as [H|[<-|[]]]; [apply F3, H | exact Hb].
Qed.

Lemma has_order_restatus : forall status id id' l,
  existsb (fun o => OrderID o =? id') (map (restatus status id) l) =
  existsb (fun o => OrderID o =? id') l.
Proof.
  induction l as [|o r IH]; simpl; [reflexivity|].
  rewrite IH. f_equal. unfold restatus.
  destruct (OrderID o =? id); reflexivity.
Qed.

Lemma update_Orders_Status_keys : forall status id d u d',
  foreign_keys d ->
  update_Orders_Status status id d = Ok (u, d') -> foreign_keys d'.
Proof.
  unfold update_Orders_Status. intros status id d u d' F H.
  inversion H; subst d'. clear H.
  unfold foreign_keys, has_staff, has_book, has_account, has_order in *.
  destruct F as (F1 & F2 & F3 & F4). simpl.
  repeat split; try (apply F1; assumption); try (apply F3; assumption);
    try (apply F4; assumption).
  - apply in_map_iff in H. destruct H as [y [<- Hy]].
    replace (o_CustomerID (restatus status id y)) with (o_CustomerID y)
      by (unfold restatus; destruct (OrderID y =? id); reflexivity).
    apply F2, Hy.
  - apply in_map_iff in H. destruct H as [y [<- Hy]].
    replace (o_StaffID (restatus status id y)) with (o_StaffID y)
      by (unfold restatus; destruct (OrderID y =? id); reflexivity).
    apply F2, Hy.
  - rewrite has_order_restatus. apply F3, H.
Qed.

Lemma existsb_filter_other {A} (key : A -> Z) : forall id x l,
  x <> id ->
  existsb (fun y => key y =? x) (filter (fun y => negb (key y =? id)) l) =
  existsb (fun y => key y =? x) l.
Proof.
  intros id x l Hne. induction l as [|y r IH]; simpl; [reflexivity|].
  destruct (Z.eqb_spec (key y) id) as [E|E]; simpl.
  - rewrite IH. destruct (Z.eqb_spec (key y) x); [congruence|reflexivity].
  - rewrite IH. reflexivity.
Qed.

Lemma delete_book_row_keys : forall old d u d',
  foreign_keys d ->
  delete_book_row old d = Ok (u, d') -> foreign_keys d'.
Proof.
  unfold delete_book_row, bind. intros old d u d' F H.
  destruct (BeforeBookDelete old d) as [[u1 d1]|e] eqn:E1; [|discriminate].
  assert (F1 : foreign_keys d1).
  { unfold BeforeBookDelete in E1. destruct (select_manager d).
    - eapply insert_BookLog_keys; eassumption.
    - inversion E1; subst. exact F. }
  clear E1 F.
  destruct (existsb _ (OrderItems d1)) eqn:Hfree; [discriminate|].
  inversion H; subst d'. clear H.
  unfold foreign_keys, has_staff, has_book, has_account, has_order in *.
  destruct F1 as (G1 & G2 & G3 & G4). simpl.
  repeat split; try (apply G2; assumption); try (apply G3; assumption).
  - intros b Hb. apply filter_In in Hb. apply G1, Hb.
  - rewrite (existsb_filter_other BookID); [apply G3, H|].
    intros E. rewrite <- Bool.not_true_iff_false in Hfree. apply Hfree.
    apply existsb_exists. exists i. split; [exact H | apply Z.eqb_eq, E].
  - apply filter_In in H. destruct H as [Hin Hne].
    rewrite (existsb_filter_other BookID); [apply G4, Hin|].
    intros E. rewrite E, Z.eqb_refl in Hne. discriminate.
  - apply filter_In in H. apply G4, H.
Qed.

Lemma delete_book_rows_keys : forall l d u d',
  foreign_keys d ->
  for_each l delete_book_row d = Ok (u, d') -> foreign_keys d'.
Proof.
  induction l as [|x r IH]; intros d u d' F H.
  - inversion H; subst. exact F.
  - cbn [for_each] in H. unfold bind in H.
    destruct (delete_book_row x d) as [[u1 d1]|e] eqn:E1; [|discriminate].
    eapply IH; [|exact H]. eapply delete_book_row_keys; eassumption.
Qed.

Lemma not_referenced {A} (f : A -> Z) : forall id l x,
  existsb (fun y => f y =? id) l = false -> In x l -> f x <> id.
Proof.
  intros id l x H Hin E.
  rewrite <- Bool.not_true_iff_false in H. apply H.
  apply existsb_exists. exists x. split; [exact Hin | apply Z.eqb_eq, E].
Qed.

Lemma delete_Staff_keys : forall id d u d',
  foreign_keys d ->
  delete_Staff id d = Ok (u, d') -> foreign_keys d'.
Proof.
  unfold delete_Staff. intros id d u d' F H.
  destruct (has_staff id d) eqn:Hs; simpl in H.
  - destruct (existsb _ (Books d)) eqn:R1; [discriminate|].
    destruct (existsb _ (Orders d)) eqn:R2; [discriminate|].
    destruct (existsb _ (BookLog d)) eqn:R3; [discriminate|].
    simpl in H. inversion H; subst d'. clear H.
    unfold foreign_keys, has_staff, has_book, has_account, has_order,
           other_than in *.
    destruct F as (F1 & F2 & F3 & F4). simpl.
    repeat split; try (apply F2; assumption); try (apply F3; assumption);
      try (apply F4; assumption).
    + intros b Hb. rewrite (existsb_filter_other StaffID); [apply F1, Hb|].
      apply (not_referenced Update_by id (Books d) b R1 Hb).
    + rewrite (existsb_filter_other StaffID); [apply F2, H|].
      apply (not_referenced o_StaffID id (Orders d) o R2 H).
    + rewrite (existsb_filter_other StaffID); [apply F4, H|].
      apply (not_referenced ActionBy id (BookLog d) l R3 H).
  - inversion H; subst d'. clear H.
    assert (Hne : forall x, has_staff x d = true -> x <> id).
    { intros x Hx E. subst x. congruence. }
    unfold foreign_keys, has_staff, has_book, has_account, has_order,
           other_than in *.
    destruct F as (F1 & F2 & F3 & F4). simpl.
    repeat split; try (apply F2; assumption); try (apply F3; assumption);
      try (apply F4; assumption).
    + intros b Hb. rewrite (existsb_filter_other StaffID); [apply F1, Hb|].
      apply Hne, F1, Hb.
    + rewrite (existsb_filter_other StaffID); [apply F2, H|].
      apply Hne, F2, H.
    + rewrite (existsb_filter_other StaffID); [apply F4, H|].
      apply Hne, F4, H.
Qed.

Lemma order_items_loop_keys : forall status oid cart d u d',
  foreign_keys d ->
  for_each cart (order_item_statements status oid) d = Ok (u, d') ->
  foreign_keys d'.
Proof.
  induction cart as [|item r IH]; intros d u d' F H.
  - inversion H; subst. exact F.
  - cbn [for_each] in H. unfold bind in H.
    destruct (order_item_statements status oid item d) as [[u1 d1]|e] eqn:E1;
      [|discriminate].
    eapply IH; [|exact H].
    unfold order_item_statements, bind in E1.
    destruct (insert_OrderItems _ _ _ _ d) as [[u0 d0]|e0] eqn:E0;
      [|discriminate].
    apply (insert_OrderItems_keys _ _ _ _ _ _ _ F) in E0.
    destruct (OrderStatus_eqb status Completed).
    + eapply update_Books_Quantity_keys; eassumption.
    + inversion E1; subst. exact E0.
Qed.

Lemma ordered_lines_keys : forall items d u d',
  foreign_keys d ->
  for_each items (fun item => update_Books_Quantity (snd item) (fst item)) d
  = Ok (u, d') ->
  foreign_keys d'.
Proof.
  induction items as [|item r IH]; intros d u d' F H.
  - inversion H; subst. exact F.
  - cbn [for_each] in H. unfold bind in H.
    destruct (update_Books_Quantity (snd item) (fst item) d)
      as [[u1 d1]|e] eqn:E1; [|discriminate].
    eapply IH; [|exact H].
    eapply update_Books_Quantity_keys; eassumption.
Qed.

Lemma perform_foreign_keys : forall c a,
  foreign_keys (db a) -> foreign_keys (db (fst (perform c a))).
Proof.
  intros c a F.
  destruct c as [| sel qty | | sel | status now | new_status sel |
                 | sel confirm | sel confirm]; cbn [perform];
    try exact F.
  - unfold add_to_cart.
    destruct sel; [|exact F].
    destruct (Py.int qty); [|exact F].
    destruct (_ <=? 0); [exact F|].
    destruct (select_book _ _); [|exact F].
    destruct (_ >? _); exact F.
  - unfold place_order, transaction.
    destruct (customer_combobox a); [|exact F].
    destruct (cart_tree a); [exact F|].
    destruct (place_order_statements _ _ _ _ _ _) as [[oid d']|e] eqn:E;
      [|exact F].
    simpl. unfold place_order_statements, bind in E.
    destruct (insert_Orders _ _ _ _ _ _) as [[o1 d1]|e1] eqn:E1;
      [|discriminate].
    apply (insert_Orders_keys _ _ _ _ _ _ _ _ F) in E1.
    destruct (for_each _ _ d1) as [[u2 d2]|e2] eqn:E2; [|discriminate].
    inversion E; subst d'.
    eapply order_items_loop_keys; eassumption.
  - unfold update_order_status, transaction.
    destruct sel; [|exact F].
    destruct (nth_error _ _) as [row|]; [|exact F].
    destruct (negb _); [exact F|].
    destruct (update_order_status_statements _ _ _) as [[u d']|e] eqn:E;
      [|exact F].
    simpl. unfold update_order_status_statements, bind in E.
    destruct (OrderStatus_eqb new_status Completed).
    + destruct (for_each _ _ (db a)) as [[u1 d1]|e1] eqn:E1;
        [|discriminate].
      apply (update_Orders_Status_keys new_status (p_OrderID row) d1 u d');
        [|exact E].
      eapply ordered_lines_keys; eassumption.
    + apply (update_Orders_Status_keys new_status (p_OrderID row) (db a)
               u d'); assumption.
  - unfold delete_selected_book, execute_query, delete_Books.
    destruct sel; [|exact F].
    destruct (negb confirm); [exact F|].
    destruct (select_manager _); [|exact F].
    destruct (for_each _ delete_book_row (db a)) as [[u d']|e] eqn:E;
      [|exact F].
    simpl. eapply delete_book_rows_keys; eassumption.
  - unfold delete_staff.
    destruct sel; [|exact F].
    destruct (negb confirm); [exact F|].
    destruct (_ =? _); [exact F|].
    match goal with
    | |- context [if ?c then (a, _) else _] => destruct c
    end; [exact F|].
    unfold execute_query.
    destruct (delete_Staff z (db a)) as [[u d']|e] eqn:E; [|exact F].
    simpl. eapply delete_Staff_keys; eassumption.
Qed.

(** X7.  If every foreign key of the schema holds, it holds after any
    sequence of commands: no order is left without its customer or staff
    member, no order line without its order or book, no book or log
    entry without the staff member it names. *)
Theorem foreign_keys_kept :
  forall (cs : list Command) (a : App) (log : list Z),
    foreign_keys (db a) -> foreign_keys (db (fst (run cs a log))).
Proof.
  induction cs as [|c r IH]; intros a log F; [exact F|].
  cbn [run].
  pose proof (perform_foreign_keys c a F) as H.
  destruct (perform c a) as [a' o]. apply IH, H.
Qed.

Lemma foreign_keys_kept_witness :
  foreign_keys (db pending_session)
  /\ foreign_keys
       (db (fst (run [Update_order_status Completed (Some 0%nat);
                      Delete_staff (Some 1) true]
                     pending_session [])))
  /\ BookLog
       (db (fst (run [Update_order_status Completed (Some 0%nat);
                      Delete_staff (Some 1) true]
                     pending_session [])))
     = [mkBookLog 1 3 UPDATE 1].
Proof.
  assert (F : foreign_keys (db pending_session)).
  { unfold foreign_keys.
    refine (conj _ (conj _ (conj _ _))); intros x Hx; simpl in Hx;
      repeat (destruct Hx as [<-|Hx]; [try split; reflexivity|]);
      destruct Hx. }
  split; [exact F|]. split; [|reflexivity].
  exact (foreign_keys_kept
           [Update_order_status Completed (Some 0%nat);
            Delete_staff (Some 1) true] pending_session [] F).
Defined.

(* ------------------------------------------------------------------ *)
(** *** Orders are only ever added, and only their status changes *)

Lemma set_Status_same : forall o, set_Status (Status o) o = o.
Proof. intros [i c s t total st]. reflexivity. Qed.

Lemma set_Status_twice : forall s1 s2 o,
  set_Status s2 (set_Status s1 o) = set_Status s2 o.
Proof. intros s1 s2 [i c s t total st]. reflexivity. Qed.

Lemma orders_extend_refl : forall d, orders_extend d d.
Proof.
  intros d. split.
  - intros o Ho. exists (Status o). rewrite set_Status_same. exact Ho.
  - exists []. rewrite app_nil_r. reflexivity.
Qed.

Lemma orders_extend_trans : forall d1 d2 d3,
  orders_extend d1 d2 -> orders_extend d2 d3 -> orders_extend d1 d3.
Proof.
  intros d1 d2 d3 [A1 [x1 A2]] [B1 [x2 B2]]. split.
  - intros o Ho. destruct (A1 o Ho) as [s1 H1].
    destruct (B1 _ H1) as [s2 H2]. exists s2.
    rewrite set_Status_twice in H2. exact H2.
  - exists (x1 ++ x2)%list. rewrite B2, A2, app_assoc. reflexivity.
Qed.

Lemma orders_extend_same : forall d d',
  Orders d' = Orders d -> OrderItems d' = OrderItems d ->
  orders_extend d d'.
Proof.
  intros d d' HO HI. split.
  - intros o Ho. exists (Status o). rewrite set_Status_same, HO. exact Ho.
  - exists []. rewrite app_nil_r. exact HI.
Qed.

Lemma perform_orders_extend : forall c a,
  orders_extend (db a) (db (fst (perform c a))).
Proof.
  intros c a.
  destruct c as [| sel qty | | sel | status now | new_status sel |
                 | sel confirm | sel confirm]; cbn [perform];
    try apply orders_extend_refl.
  - unfold add_to_cart.
    destruct sel; [|apply orders_extend_refl].
    destruct (Py.int qty); [|apply orders_extend_refl].
    destruct (_ <=? 0); [apply orders_extend_refl|].
    destruct (select_book _ _); [|apply orders_extend_refl].
    destruct (_ >? _); apply orders_extend_refl.
  - unfold place_order, transaction.
    destruct (customer_combobox a); [|apply orders_extend_refl].
    destruct (cart_tree a) as [|l0 r0]; [apply orders_extend_refl|].
    destruct (place_order_statements _ _ _ _ _ _) as [[oid d']|e] eqn:E;
      [|apply orders_extend_refl].
    apply place_order_statements_inv in E.
    destruct E as (_ & _ & _ & HO & _ & HI & _).
    simpl. split.
    + intros o Ho. exists (Status o). rewrite set_Status_same, HO.
      apply in_or_app. left. exact Ho.
    + eexists. exact HI.
  - unfold update_order_status, transaction.
    destruct sel; [|apply orders_extend_refl].
    destruct (nth_error _ _) as [row|]; [|apply orders_extend_refl].
    destruct (negb _); [apply orders_extend_refl|].
    destruct (update_order_status_statements _ _ _) as [[u d']|e] eqn:E;
      [|apply orders_extend_refl].
    simpl.
    assert (H : Orders d' =
                map (restatus new_status (p_OrderID row)) (Orders (db a))
                /\ OrderItems d' = OrderItems (db a)).
    { unfold update_order_status_statements, bind in E.
      destruct (OrderStatus_eqb new_status Completed).
      - destruct (for_each _ _ (db a)) as [[u1 d1]|e1] eqn:E1;
          [|discriminate].
        apply ordered_lines_inv in E1.
        destruct E1 as [(_ & _ & S3 & S4 & _) _].
        apply update_Orders_Status_inv in E.
        destruct E as (HO & _ & _ & _ & HI & _).
        rewrite HO, HI, S3, S4. split; reflexivity.
      - apply update_Orders_Status_inv in E.
        destruct E as (HO & _ & _ & _ & HI & _). split; assumption. }
    destruct H as [HO HI]. split.
    + intros o Ho.
      destruct (OrderID o =? p_OrderID row) eqn:Eid.
      * exists new_status. rewrite HO. apply in_map_iff. exists o.
        split; [|exact Ho]. unfold restatus. rewrite Eid. reflexivity.
      * exists (Status o). rewrite set_Status_same, HO.
        apply in_map_iff. exists o.
        split; [|exact Ho]. unfold restatus. rewrite Eid. reflexivity.
    + exists []. rewrite app_nil_r. exact HI.
  - unfold delete_selected_book, execute_query, delete_Books.
    destruct sel; [|apply orders_extend_refl].
    destruct (negb confirm); [apply orders_extend_refl|].
    destruct (select_manager _); [|apply orders_extend_refl].
    destruct (for_each _ delete_book_row (db a)) as [[u d']|e] eqn:E;
      [|apply orders_extend_refl].
    apply delete_book_rows_inv in E.
    destruct E as (_ & _ & S3 & S4 & _).
    apply orders_extend_same; simpl; assumption.
  - unfold delete_staff.
    destruct sel; [|apply orders_extend_refl].
    destruct (negb confirm); [apply orders_extend_refl|].
    destruct (_ =? _); [apply orders_extend_refl|].
    match goal with
    | |- context [if ?c then (a, _) else _] => destruct c
    end; [apply orders_extend_refl|].
    unfold execute_query, delete_Staff.
    match goal with
    | |- context [if ?c then Raise _ else _] => destruct c
    end; [apply orders_extend_refl|].
    apply orders_extend_same; reflexivity.
Qed.

(** X8.  Over any sequence of commands, every order of the store is
    kept with its id, customer, staff member, date and [TotalAmount];
    only its status may differ.  Every [OrderItems] row is kept
    unchanged, the rows written later coming after it. *)
Theorem orders_are_kept :
  forall (cs : list Command) (a : App) (log : list Z),
    (forall o, In o (Orders (db a)) ->
               exists status,
                 In (set_Status status o)
                    (Orders (db (fst (run cs a log)))))
    /\ exists added,
         OrderItems (db (fst (run cs a log))) =
         (OrderItems (db a) ++ added)%list.
Proof.
  assert (H : forall cs a log,
             orders_extend (db a) (db (fst (run cs a log)))).
  { induction cs as [|c r IH]; intros a log; [apply orders_extend_refl|].
    cbn [run].
    pose proof (perform_orders_extend c a) as H.
    destruct (perform c a) as [a' o]. cbn [fst] in H.
    eapply orders_extend_trans; [exact H | apply IH]. }
  intros cs a log. exact (H cs a log).
Qed.

(** X9.  In a session started by opening the order window on a store
    whose order ids are distinct and below the counter, the order ids
    stay distinct and below the counter, whatever the commands: a new
    order never takes the id of another one. *)
Theorem order_ids_stay_distinct :
  forall (d : Database) (staff_id : Z) (cs : list Command),
    order_keys d ->
    order_keys (db (fst (run cs (open_order_window d staff_id) []))).
Proof.
  intros d staff_id cs K.
  exact (proj1 (run_invariant d cs (open_order_window d staff_id) []
                  (open_order_window_invariant d staff_id K))).
Qed.

Lemma order_ids_stay_distinct_witness :
  order_keys shop_with_pending_order
  /\ order_keys
       (db (fst (run [Add_to_cart (Some 3) "1"; Select_customer (Some 10);
                      Place_order Pending 5]
                     (open_order_window shop_with_pending_order 2) [])))
  /\ map OrderID
       (Orders
          (db (fst (run [Add_to_cart (Some 3) "1";
                         Select_customer (Some 10); Place_order Pending 5]
                        (open_order_window shop_with_pending_order 2) []))))
     = [1; 2].
Proof.
  assert (K : order_keys shop_with_pending_order).
  { split.
    - simpl. repeat constructor; simpl; intuition discriminate.
    - simpl. intros o [<-|[]]. simpl. lia. }
  split; [exact K|]. split; [|reflexivity].
  exact (order_ids_stay_distinct shop_with_pending_order 2
           [Add_to_cart (Some 3) "1"; Select_customer (Some 10);
            Place_order Pending 5] K).
Defined.

(* ------------------------------------------------------------------ *)
(** *** Committing carts of several lines *)










(* ------------------------------------------------------------------ *)
(** *** Overselling is refused as a whole *)

Lemma stock_after_item : forall oid item d u d' id s,
  order_item_statements Completed oid item d = Ok (u, d') ->
  stock id d = Some s -> 0 <= s ->
  exists s', stock id d' = Some s' /\ 0 <= s'
             /\ s' = (if id =? c_BookID item then s - c_Quantity item
                      else s).
Proof.
  intros oid item d u d' id s H Hs Hpos.
  unfold order_item_statements, bind in H.
  destruct (insert_OrderItems _ _ _ _ d) as [[u1 d1]|e] eqn:E1;
    [|discriminate].
  apply insert_OrderItems_inv in E1. destruct E1 as (_ & HB & _).
  cbn [OrderStatus_eqb] in H.
  pose proof (update_Books_Quantity_checked _ _ _ _ _ H) as Hchk.
  pose proof (stock_after_update _ _ _ _ _ id H) as Hst.
  rewrite (stock_ext id _ _ HB), Hs in Hst. simpl in Hst.
  eexists. split; [exact Hst|]. split; [|reflexivity].
  destruct (Z.eqb_spec id (c_BookID item)) as [E|E]; [|exact Hpos].
  unfold stock, select_book in Hs.
  destruct (find (fun b => BookID b =? id) (Books d)) as [x|] eqn:Ef;
    [|discriminate].
  simpl in Hs. inversion Hs; subst s.
  apply find_some in Ef. destruct Ef as [Hin Hid]. apply Z.eqb_eq in Hid.
  rewrite <- HB in Hin. apply (Hchk x Hin). congruence.
Qed.

Lemma order_items_loop_oversold : forall oid cart d id s,
  stock id d = Some s -> 0 <= s -> s < cart_quantity id cart ->
  exists e, for_each cart (order_item_statements Completed oid) d = Raise e.
Proof.
  induction cart as [|item r IH]; intros d id s Hs Hpos Hlt.
  - unfold cart_quantity in Hlt. simpl in Hlt. lia.
  - cbn [for_each]. unfold bind at 1.
    destruct (order_item_statements Completed oid item d)
      as [[u d1]|e] eqn:E1; [|exists e; reflexivity].
    destruct (stock_after_item _ _ _ _ _ id s E1 Hs Hpos)
      as (s' & Hs' & Hpos' & Heq).
    apply (IH d1 id s' Hs' Hpos').
    unfold cart_quantity in *. simpl in Hlt.
    rewrite (Z.eqb_sym (c_BookID item) id) in Hlt.
    destruct (id =? c_BookID item); lia.
Qed.

(** X12.  When the lines of a cart together ask for more copies of a
    book than the stock holds, each line on its own being possibly in
    stock, [place_order] with status [Completed] fails, and the store and
    the cart are as before: no order, no order line, no stock taken. *)
Theorem place_order_oversold_cart :
  forall (a : App) (customer_id now book_id s : Z),
    customer_combobox a = Some customer_id ->
    stock book_id (db a) = Some s -> 0 <= s ->
    s < cart_quantity book_id (cart_tree a) ->
    exists e,
      place_order Completed now a =
      (a, ShowError (Failed_to_place_order e)).
Proof.
  intros a customer_id now book_id s Hcust Hs Hpos Hlt.
  assert (Hne : cart_tree a <> []).
  { intros E. rewrite E in Hlt. unfold cart_quantity in Hlt. simpl in Hlt.
    lia. }
  assert (E : exists e,
             place_order_statements customer_id (current_staff_id a) now
               Completed (cart_tree a) (db a) = Raise e).
  { unfold place_order_statements, bind.
    destruct (insert_Orders _ _ _ _ _ _) as [[o d1]|e] eqn:E1;
      [|exists e; reflexivity].
    apply insert_Orders_inv in E1. destruct E1 as (_ & _ & HB & _).
    destruct (order_items_loop_oversold o (cart_tree a) d1 book_id s)
      as [e He]; try assumption.
    - rewrite (stock_ext _ _ _ HB). exact Hs.
    - rewrite He. exists e. reflexivity. }
  destruct E as [e E]. exists e.
  unfold place_order, transaction. rewrite Hcust.
  destruct (cart_tree a) as [|l0 r0]; [contradiction|].
  rewrite E, rollback_same. reflexivity.
Qed.

Lemma place_order_oversold_cart_witness :
  cart_quantity 7 (cart_tree oversold_session) = 6
  /\ exists e,
       place_order Completed 0 oversold_session =
       (oversold_session, ShowError (Failed_to_place_order e)).
Proof.
  split; [reflexivity|].
  assert (H0 : 0 <= 5) by lia.
  assert (H1 : 5 < cart_quantity 7 (cart_tree oversold_session)).
  { vm_compute. reflexivity. }
  exact (place_order_oversold_cart oversold_session 10 0 7 5
           eq_refl eq_refl H0 H1).
Defined.

(* ------------------------------------------------------------------ *)
(** *** Completing an order that is short of stock *)

Lemma ordered_lines_short : forall items d id s,
  stock id d = Some s -> 0 <= s -> s < ordered_quantity id items ->
  exists e,
    for_each items (fun item => update_Books_Quantity (snd item) (fst item))
             d = Raise e.
Proof.
  induction items as [|[b q] r IH]; intros d id s Hs Hpos Hlt.
  - simpl in Hlt. lia.
  - cbn [for_each]. unfold bind at 1. cbn [fst snd].
    destruct (update_Books_Quantity q b d) as [[u d1]|e] eqn:E1;
      [|exists e; reflexivity].
    pose proof (update_Books_Quantity_checked _ _ _ _ _ E1) as Hchk.
    pose proof (stock_after_update _ _ _ _ _ id E1) as Hst.
    rewrite Hs in Hst. simpl in Hst.
    apply (IH d1 id _ Hst).
    + destruct (Z.eqb_spec id b) as [E|E]; [|exact Hpos].
      unfold stock, select_book in Hs.
      destruct (find (fun x => BookID x =? id) (Books d)) as [x|] eqn:Ef;
        [|discriminate].
      simpl in Hs. inversion Hs; subst s.
      apply find_some in Ef. destruct Ef as [Hin Hid].
      apply Z.eqb_eq in Hid. apply (Hchk x Hin). congruence.
    + simpl in Hlt. rewrite (Z.eqb_sym b id) in Hlt.
      destruct (id =? b); lia.
Qed.

(** X13.  Completing a pending order whose lines together ask for more
    copies of a book than the stock holds fails: the store is as before,
    so the order is still [Pending] and no stock was taken for any of
    its lines. *)
Theorem complete_short_of_stock :
  forall (a : App) (i : nat) (row : PendingRow) (book_id s : Z),
    nth_error (pending_orders_tree a) i = Some row ->
    p_Status row = Pending ->
    stock book_id (db a) = Some s -> 0 <= s ->
    s < ordered_quantity book_id
          (select_order_items (p_OrderID row) (db a)) ->
    exists e,
      update_order_status Completed (Some i) a =
      (a, ShowError (Failed_to_update_order e)).
Proof.
  intros a i row book_id s Hrow Hp Hs Hpos Hlt.
  destruct (ordered_lines_short
              (select_order_items (p_OrderID row) (db a)) (db a)
              book_id s Hs Hpos Hlt) as [e He].
  exists e.
  unfold update_order_status, transaction,
         update_order_status_statements, bind.
  rewrite Hrow, Hp. cbn [OrderStatus_eqb negb]. rewrite He, rollback_same.
  reflexivity.
Qed.

Lemma complete_short_of_stock_witness :
  exists e,
    update_order_status Completed (Some 0%nat) short_pending_session =
    (short_pending_session, ShowError (Failed_to_update_order e)).
Proof.
  assert (H0 : 0 <= 1) by lia.
  assert (H1 : 1 < ordered_quantity 3
                     (select_order_items 1 (db short_pending_session))).
  { vm_compute. reflexivity. }
  exact (complete_short_of_stock short_pending_session 0%nat
           (mkPendingRow 1 "Ann" 0 1800 Pending) 3 1
           eq_refl eq_refl eq_refl H0 H1).
Defined.

(* ------------------------------------------------------------------ *)
(** *** The pending tree *)




(** X15.  After [update_order_status] has set a pending order to
    [Completed] or [Cancelled], no row of the pending tree carries that
    order any more, so it cannot be selected again; the other orders keep
    their status. *)
Theorem updated_order_leaves_tree :
  forall (a a' : App) (i : nat) (row : PendingRow) (new_status : OrderStatus),
    order_keys (db a) ->
    nth_error (pending_orders_tree a) i = Some row ->
    new_status <> Pending ->
    update_order_status new_status (Some i) a =
    (a', ShowInfo (Order_updated_to (p_OrderID row) new_status)) ->
    (forall r, In r (pending_orders_tree a') ->
               p_OrderID r <> p_OrderID row)
    /\ (forall id, id <> p_OrderID row ->
                   order_status id (db a') = order_status id (db a)).
Proof.
  intros a a' i row new_status K Hrow Hnew H.
  unfold update_order_status, transaction in H. rewrite Hrow in H.
  destruct (negb _); [discriminate|].
  destruct (update_order_status_statements _ _ _) as [[u d']|e] eqn:E;
    [|discriminate].
  inversion H; subst a'. clear H. simpl.
  assert (HON : Orders d' =
                map (restatus new_status (p_OrderID row)) (Orders (db a))
                /\ next_OrderID d' = next_OrderID (db a)).
  { unfold update_order_status_statements, bind in E.
    destruct (OrderStatus_eqb new_status Completed).
    - destruct (for_each _ _ (db a)) as [[u1 d1]|e1] eqn:E1; [|discriminate].
      apply ordered_lines_inv in E1.
      destruct E1 as [(_ & _ & S3 & _ & S5 & _) _].
      apply update_Orders_Status_inv in E.
      destruct E as (HO & _ & _ & _ & _ & HN).
      rewrite HO, HN, S3, S5. split; reflexivity.
    - apply update_Orders_Status_inv in E.
      destruct E as (HO & _ & _ & _ & _ & HN). split; assumption. }
  destruct HON as [HO HN].
  assert (K' : order_keys d') by (eapply order_keys_restatus; eassumption).
  split.
  - intros r Hr Heq.
    pose proof (pending_rows_fresh d' r K' Hr) as Hp.
    rewrite Heq, (order_status_restatus _ _ _ _ _ HO), Z.eqb_refl in Hp.
    destruct (order_status (p_OrderID row) (db a)); simpl in Hp;
      [|discriminate].
    inversion Hp. contradiction.
  - intros id Hne. rewrite (order_status_restatus _ _ _ _ _ HO).
    destruct (Z.eqb_spec id (p_OrderID row)); [contradiction | reflexivity].
Qed.

Lemma updated_order_leaves_tree_witness :
  pending_orders_tree
    (fst (update_order_status Cancelled (Some 0%nat) pending_session)) = []
  /\ forall r,
      In r (pending_orders_tree
              (fst (update_order_status Cancelled (Some 0%nat)
                      pending_session))) ->
      p_OrderID r <> 1.
Proof.
  assert (K : order_keys (db pending_session)).
  { split.
    - simpl. repeat constructor; simpl; intuition discriminate.
    - simpl. intros o [<-|[]]. simpl. lia. }
  assert (Hc : Cancelled <> Pending) by discriminate.
  split; [reflexivity|].
  exact (proj1 (updated_order_leaves_tree pending_session
                  (fst (update_order_status Cancelled (Some 0%nat)
                          pending_session))
                  0%nat (mkPendingRow 1 "Ann" 0 1800 Pending) Cancelled
                  K eq_refl Hc eq_refl)).
Defined.

(* ------------------------------------------------------------------ *)
(** *** What is left of a deleted book *)

Lemma delete_book_row_result : forall old d u d',
  delete_book_row old d = Ok (u, d') ->
  (forall l, In l (BookLog d') -> l_BookID l <> BookID old)
  /\ (forall b, In b (Books d') -> BookID b <> BookID old)
  /\ (forall b, In b (Books d) -> BookID b <> BookID old ->
                In b (Books d'))
  /\ (forall l, In l (BookLog d) -> l_BookID l <> BookID old ->
                In l (BookLog d')).
Proof.
  unfold delete_book_row, bind. intros old d u d' H.
  destruct (BeforeBookDelete old d) as [[u1 d1]|e] eqn:E1; [|discriminate].
  assert (HB : Books d1 = Books d
               /\ forall l, In l (BookLog d) -> In l (BookLog d1)).
  { unfold BeforeBookDelete in E1. destruct (select_manager d).
    - unfold insert_BookLog in E1.
      destruct (has_book _ _ && has_staff _ _); [|discriminate].
      inversion E1; subst d1. simpl. split; [reflexivity|].
      intros l Hl. apply in_or_app. left. exact Hl.
    - inversion E1; subst. auto. }
  destruct HB as [HB HL].
  destruct (existsb _ (OrderItems d1)); [discriminate|].
  inversion H; subst d'. simpl. repeat split.
  - intros l Hl E. apply filter_In in Hl. destruct Hl as [_ Hl].
    rewrite E, Z.eqb_refl in Hl. discriminate.
  - intros b Hb E. apply filter_In in Hb. destruct Hb as [_ Hb].
    rewrite E, Z.eqb_refl in Hb. discriminate.
  - intros b Hb Hne. apply filter_In. rewrite HB. split; [exact Hb|].
    apply negb_true_iff, Z.eqb_neq, Hne.
  - intros l Hl Hne. apply filter_In. split; [apply HL, Hl|].
    apply negb_true_iff, Z.eqb_neq, Hne.
Qed.

(** X16.  After [delete_selected_book] has deleted a book of the
    catalog, [BookLog] holds no entry for that book: its insert and
    update entries are gone, and so is the [DELETE] entry that the delete
    trigger wrote.  The other books and their log entries are kept. *)
Theorem deleted_book_leaves_no_log :
  forall (a a' : App) (book_id : Z),
    has_book book_id (db a) = true ->
    delete_selected_book (Some book_id) true a =
    (a', ShowInfo Book_deleted_successfully) ->
    (forall l, In l (BookLog (db a')) -> l_BookID l <> book_id)
    /\ has_book book_id (db a') = false
    /\ (forall b, In b (Books (db a)) -> BookID b <> book_id ->
                  In b (Books (db a')))
    /\ (forall l, In l (BookLog (db a)) -> l_BookID l <> book_id ->
                  In l (BookLog (db a'))).
Proof.
  intros a a' book_id Hhas H.
  unfold delete_selected_book, execute_query, delete_Books in H.
  simpl in H.
  destruct (select_manager (db a)); [|discriminate].
  destruct (for_each _ delete_book_row (db a)) as [[u d']|e] eqn:E;
    [|discriminate].
  inversion H; subst a'. clear H. simpl.
  assert (Hrows : forall x,
             In x (filter (fun b => BookID b =? book_id) (Books (db a))) ->
             BookID x = book_id).
  { intros x Hx. apply filter_In in Hx. apply Z.eqb_eq, Hx. }
  assert (Hne : filter (fun b => BookID b =? book_id) (Books (db a)) <> []).
  { unfold has_book in Hhas. apply existsb_exists in Hhas.
    destruct Hhas as [x [Hx Hid]]. intros E0.
    assert (Hin : In x (filter (fun b => BookID b =? book_id)
                               (Books (db a)))).
    { apply filter_In. split; assumption. }
    rewrite E0 in Hin. destruct Hin. }
  revert E Hrows Hne.
  generalize (filter (fun b => BookID b =? book_id) (Books (db a))).
  generalize (db a). clear Hhas.
  intros d rows. revert d.
  induction rows as [|x r IH]; intros d E Hrows Hne; [contradiction|].
  cbn [for_each] in E. unfold bind in E.
  destruct (delete_book_row x d) as [[u1 d1]|e1] eqn:E1; [|discriminate].
  pose proof (delete_book_row_result _ _ _ _ E1) as (R1 & R2 & R3 & R4).
  rewrite (Hrows x (or_introl eq_refl)) in R1, R2, R3, R4.
  destruct r as [|y r'].
  - inversion E; subst d'. repeat split; try assumption.
    unfold has_book. apply Bool.not_true_iff_false. intros Hex.
    apply existsb_exists in Hex. destruct Hex as [b [Hb Hid]].
    apply Z.eqb_eq in Hid. exact (R2 b Hb Hid).
  - destruct (IH d1 E) as (I1 & I2 & I3 & I4).
    + intros w Hw. apply Hrows. right. exact Hw.
    + discriminate.
    + repeat split; auto.
Qed.

Lemma deleted_book_leaves_no_log_witness :
  BookLog
    (db (fst (delete_selected_book (Some 7) true
                (mkApp shop_with_log 2 None [] []))))
  = [mkBookLog 2 3 INSERT 1]
  /\ forall l,
      In l (BookLog
              (db (fst (delete_selected_book (Some 7) true
                          (mkApp shop_with_log 2 None [] []))))) ->
      l_BookID l <> 7.
Proof.
  split; [reflexivity|].
  exact (proj1 (deleted_book_leaves_no_log
                  (mkApp shop_with_log 2 None [] [])
                  (fst (delete_selected_book (Some 7) true
                          (mkApp shop_with_log 2 None [] [])))
                  7 eq_refl eq_refl)).
Defined.

(* ------------------------------------------------------------------ *)
(** *** Deleting a staff member *)

(** X17.  A confirmed [delete_staff] of a member of the store who is not
    logged in and is not the last manager: when a book, an order or a log
    entry names the member, the delete is refused by the store and
    nothing changes; otherwise the member's row is removed and every
    other row of every table is as before. *)
Theorem delete_staff_outcomes :
  forall (a : App) (staff_id : Z),
    current_staff_id a <> staff_id ->
    has_staff staff_id (db a) = true ->
    (select_role staff_id (db a) <> Some Manager
     \/ 1 < count_managers (db a)) ->
    (staff_is_referenced staff_id (db a) = true ->
     delete_staff (Some staff_id) true a =
     (a, ShowError (Failed_to_delete_staff ForeignKeyFails)))
    /\ (staff_is_referenced staff_id (db a) = false ->
        exists d',
          delete_staff (Some staff_id) true a =
          (with_db d' a, ShowInfo Staff_member_deleted_successfully)
          /\ has_staff staff_id d' = false
          /\ (forall s, In s (Staff (db a)) -> StaffID s <> staff_id ->
                        In s (Staff d'))
          /\ Books d' = Books (db a) /\ Accounts d' = Accounts (db a)
          /\ Orders d' = Orders (db a)
          /\ OrderItems d' = OrderItems (db a)
          /\ BookLog d' = BookLog (db a)).
Proof.
  intros a staff_id Hcur Hhas Hlast.
  assert (Hguard :
    (match select_role staff_id (db a) with
     | Some Manager => count_managers (db a) <=? 1
     | _ => false
     end) = false).
  { destruct Hlast as [Hr|Hc].
    - destruct (select_role staff_id (db a)) as [[| |]|];
        try reflexivity. contradiction.
    - destruct (select_role staff_id (db a)) as [[| |]|];
        try reflexivity. apply Z.leb_gt, Hc. }
  assert (Hne : (current_staff_id a =? staff_id) = false)
    by (apply Z.eqb_neq, Hcur).
  unfold staff_is_referenced. split; intros Href.
  - unfold delete_staff, execute_query, delete_Staff.
    cbn [negb]. rewrite Hne, Hguard, Hhas, Href. simpl.
    rewrite rollback_same. reflexivity.
  - unfold delete_staff, execute_query, delete_Staff.
    cbn [negb]. rewrite Hne, Hguard, Hhas, Href. simpl.
    eexists. split; [reflexivity|]. simpl. repeat split.
    + unfold has_staff. simpl. apply Bool.not_true_iff_false. intros Hex.
      apply existsb_exists in Hex. destruct Hex as [s [Hs Hid]].
      apply filter_In in Hs. destruct Hs as [_ Hs].
      unfold other_than in Hs. rewrite Hid in Hs. discriminate.
    + intros s Hs Hid. apply filter_In. split; [exact Hs|].
      unfold other_than. apply negb_true_iff, Z.eqb_neq, Hid.
Qed.

Lemma delete_staff_outcomes_witness :
  delete_staff (Some 2) true
    (mkApp shop_with_order 1 None [] []) =
  (mkApp shop_with_order 1 None [] [],
   ShowError (Failed_to_delete_staff ForeignKeyFails))
  /\ snd (delete_staff (Some 2) true admin_session) =
     ShowInfo Staff_member_deleted_successfully.
Proof.
  assert (H12 : 1 <> 2) by discriminate.
  assert (Hrole : select_role 2 shop_with_order <> Some Manager
                  \/ 1 < count_managers shop_with_order).
  { left. discriminate. }
  assert (Hrole' : select_role 2 (db admin_session) <> Some Manager
                   \/ 1 < count_managers (db admin_session)).
  { left. discriminate. }
  split.
  - exact (proj1 (delete_staff_outcomes
                    (mkApp shop_with_order 1 None [] []) 2
                    H12 eq_refl Hrole) eq_refl).
  - destruct (proj2 (delete_staff_outcomes admin_session 2
                       H12 eq_refl Hrole') eq_refl) as (d' & H & _).
    rewrite H. reflexivity.
Defined.

(* ------------------------------------------------------------------ *)
(** *** The cart and its totals *)

(** X18.  In a session started by opening the order window, whatever the
    commands, every line of the cart has a quantity above zero and shows
    quantity times price as its subtotal. *)
Theorem session_carts_are_well_formed :
  forall (d : Database) (staff_id : Z) (cs : list Command),
    cart_well_formed (fst (run cs (open_order_window d staff_id) [])).
Proof.
  intros d staff_id cs. apply session_cart_well_formed.
  intros l [].
Qed.




(* ------------------------------------------------------------------ *)
(** *** Deleting a customer *)

Lemma count_orders_positive : forall id d,
  (count_orders_of id d >? 0) =
  existsb (fun o => o_CustomerID o =? id) (Orders d).
Proof.
  intros id d. unfold count_orders_of.
  induction (Orders d) as [|o r IH]; simpl; [reflexivity|].
  destruct (o_CustomerID o =? id); simpl; [|exact IH].
  apply Z.gtb_lt. lia.
Qed.

(** X20.  [delete_selected_customer], once confirmed: a customer who has
    an order, whatever its status, is not deleted and nothing changes; a
    customer without orders is deleted, the other customers and all
    orders being kept; the store never refuses the delete, since the
    count of orders is tested first. *)
Theorem delete_customer_outcomes :
  forall (a : App) (customer_id : Z),
    ((exists o, In o (Orders (db a)) /\ o_CustomerID o = customer_id) ->
     delete_selected_customer (Some customer_id) true a =
     (a, Cannot_delete_customer_with_existing_orders))
    /\ ((forall o, In o (Orders (db a)) -> o_CustomerID o <> customer_id) ->
        exists d',
          delete_selected_customer (Some customer_id) true a =
          (with_db d' a, Customer_deleted_successfully)
          /\ has_account customer_id d' = false
          /\ (forall c, In c (Accounts (db a)) ->
                        CustomerID c <> customer_id ->
                        In c (Accounts d'))
          /\ Orders d' = Orders (db a)
          /\ OrderItems d' = OrderItems (db a)
          /\ Books d' = Books (db a))
    /\ (forall sel confirm e,
           snd (delete_selected_customer sel confirm a) <>
           Customer_failed_to_delete e).
Proof.
  intros a customer_id. split; [|split].
  - intros (o & Ho & Hid).
    unfold delete_selected_customer. cbn [negb].
    rewrite count_orders_positive.
    replace (existsb _ (Orders (db a))) with true; [reflexivity|].
    symmetry. apply existsb_exists. exists o.
    split; [exact Ho | apply Z.eqb_eq, Hid].
  - intros Hnone.
    assert (Hex : existsb (fun o => o_CustomerID o =? customer_id)
                          (Orders (db a)) = false).
    { apply Bool.not_true_iff_false. intros Hex.
      apply existsb_exists in Hex. destruct Hex as [o [Ho Hid]].
      apply Z.eqb_eq in Hid. exact (Hnone o Ho Hid). }
    unfold delete_selected_customer, execute_query, delete_Accounts.
    cbn [negb]. rewrite count_orders_positive, Hex, andb_false_r.
    eexists. split; [reflexivity|]. simpl. repeat split.
    + unfold has_account. simpl. apply Bool.not_true_iff_false. intros H.
      apply existsb_exists in H. destruct H as [c [Hc Hid]].
      apply filter_In in Hc. destruct Hc as [_ Hc].
      unfold other_customer in Hc. rewrite Hid in Hc. discriminate.
    + intros c Hc Hid. apply filter_In. split; [exact Hc|].
      unfold other_customer. apply negb_true_iff, Z.eqb_neq, Hid.
  - intros sel confirm e.
    unfold delete_selected_customer, execute_query, delete_Accounts.
    destruct sel as [id|]; [|discriminate].
    destruct (negb confirm); [discriminate|].
    rewrite count_orders_positive.
    destruct (existsb _ (Orders (db a))); [discriminate|].
    rewrite andb_false_r. discriminate.
Qed.

Lemma delete_customer_outcomes_witness :
  delete_selected_customer (Some 10) true
    (mkApp shop_with_order 2 None [] []) =
  (mkApp shop_with_order 2 None [] [],
   Cannot_delete_customer_with_existing_orders)
  /\ snd (delete_selected_customer (Some 10) true clerk_session) =
     Customer_deleted_successfully.
Proof.
  split.
  - apply (proj1 (delete_customer_outcomes
                    (mkApp shop_with_order 2 None [] []) 10)).
    exists (mkOrder 1 10 2 0 1500 Completed).
    split; [left; reflexivity | reflexivity].
  - destruct (proj1 (proj2 (delete_customer_outcomes clerk_session 10)))
      as (d' & H & _).
    + intros o [].
    + rewrite H. reflexivity.
Defined.

(** X21.  [delete_selected_customer] keeps the foreign keys of the
    schema: after it, every order still has its customer. *)
Theorem delete_customer_keeps_foreign_keys :
  forall (a : App) (sel : option Z) (confirm : bool),
    foreign_keys (db a) ->
    foreign_keys (db (fst (delete_selected_customer sel confirm a))).
Proof.
  intros a sel confirm F.
  unfold delete_selected_customer, execute_query, delete_Accounts.
  destruct sel as [id|]; [|exact F].
  destruct (negb confirm); [exact F|].
  rewrite count_orders_positive.
  destruct (existsb _ (Orders (db a))) eqn:Hex; [exact F|].
  rewrite andb_false_r. simpl.
  unfold foreign_keys, has_staff, has_book, has_account, has_order,
         other_customer in *.
  destruct F as (F1 & F2 & F3 & F4). simpl.
  repeat split; try (apply F1; assumption); try (apply F2; assumption);
    try (apply F3; assumption); try (apply F4; assumption).
  rewrite (existsb_filter_other CustomerID); [apply F2, H|].
  apply (not_referenced o_CustomerID id (Orders (db a)) o Hex H).
Qed.

Lemma delete_customer_keeps_foreign_keys_witness :
  foreign_keys (db pending_session)
  /\ foreign_keys
       (db (fst (delete_selected_customer (Some 10) true pending_session))).
Proof.
  assert (F : foreign_keys (db pending_session)).
  { unfold foreign_keys.
    refine (conj _ (conj _ (conj _ _))); intros x Hx; simpl in Hx;
      repeat (destruct Hx as [<-|Hx]; [try split; reflexivity|]);
      destruct Hx. }
  split; [exact F|].
  exact (delete_customer_keeps_foreign_keys pending_session (Some 10) true
           F).
Defined.

(* ------------------------------------------------------------------ *)
(** *** The e-mail validator *)

Lemma chr_denotes : forall a w,
  Re.denotes (Re.chr a) w <-> w = String a EmptyString.
Proof.
  intros a w. unfold Re.chr. cbn [Re.denotes]. split.
  - intros (c & -> & Hc). apply Ascii.eqb_eq in Hc. subst c. reflexivity.
  - intros ->. exists a. split; [reflexivity | apply Ascii.eqb_refl].
Qed.

(** X3.  [validate_email] answers [True] exactly when the text, once
    stripped, is a local part, [@], a domain, a dot and a top-level
    part: the local part is not empty and made of letters, digits and
    [._%+-]; the domain is not empty and made of letters, digits, dots
    and hyphens; the top-level part is two or more letters. *)
Theorem validate_email_spec : forall email,
  validate_email email = true <->
  exists local domain tld,
    Py.strip email =
    String.append local
      (String "@" (String.append domain (String "." tld)))
    /\ (1 <= String.length local)%nat
    /\ forallb Re.local_char (list_ascii_of_string local) = true
    /\ (1 <= String.length domain)%nat
    /\ forallb Re.domain_char (list_ascii_of_string domain) = true
    /\ (2 <= String.length tld)%nat
    /\ forallb Py.is_alpha (list_ascii_of_string tld) = true.
Proof.
  intros email. unfold validate_email.
  rewrite (fullmatch_denotes (Py.strip email) Re.email_pattern eq_refl).
  unfold Re.email_pattern, Re.plus.
  generalize (Py.strip email). intros w. split.
  - intros (u1 & v1 & -> & H1 & u2 & v2 & -> & H2 & u3 & v3 & -> & H3
            & u4 & v4 & -> & H4 & H5).
    apply rep_class_denotes in H1. apply chr_denotes in H2.
    apply rep_class_denotes in H3. apply chr_denotes in H4.
    apply rep_class_denotes in H5. subst u2 u4.
    exists u1, u3, v4. simpl. tauto.
  - intros (local & domain & tld & -> & L1 & L2 & D1 & D2 & T1 & T2).
    exists local, (String "@" (String.append domain (String "." tld))).
    split; [reflexivity|]. split.
    { apply rep_class_denotes. simpl. auto. }
    exists (String "@" EmptyString),
           (String.append domain (String "." tld)).
    split; [reflexivity|]. split; [apply chr_denotes; reflexivity|].
    exists domain, (String "." tld).
    split; [reflexivity|]. split.
    { apply rep_class_denotes. simpl. auto. }
    exists (String "." EmptyString), tld.
    split; [reflexivity|]. split; [apply chr_denotes; reflexivity|].
    apply rep_class_denotes. simpl. auto.
Qed.

(* ------------------------------------------------------------------ *)
(** *** Reading the id back from a combobox entry *)

Lemma digit_char_value : forall n,
  0 <= n < 10 ->
  Py.is_digit (digit_char n) = true /\ Py.digit_value (digit_char n) = n.
Proof.
  intros n Hn. rewrite <- (Z2Nat.id n) by lia.
  assert (H : (Z.to_nat n < 10)%nat) by lia.
  remember (Z.to_nat n) as k eqn:Ek. clear Ek Hn.
  do 10 (destruct k as [|k]; [split; reflexivity|]). lia.
Qed.

Lemma digits_of_spec : forall fuel n acc,
  0 <= n < Z.of_nat fuel ->
  Forall (fun c => Py.is_digit c = true) acc ->
  Forall (fun c => Py.is_digit c = true) (digits_of fuel n acc)
  /\ digits_of fuel n acc <> []
  /\ fold_left decimal_step (digits_of fuel n acc) 0 = fold_left decimal_step acc n.
Proof.
  induction fuel as [|f IH]; intros n acc Hn Hacc; [simpl in Hn; lia|].
  cbn [digits_of]. destruct (Z.ltb_spec n 10) as [Hlt|Hge].
  - destruct (digit_char_value n) as [Hd Hv]; [lia|].
    split; [constructor; assumption|]. split; [discriminate|].
    simpl. unfold decimal_step at 2. rewrite Hv. reflexivity.
  - assert (Hm : 0 <= n mod 10 < 10) by (apply Z.mod_pos_bound; lia).
    destruct (digit_char_value (n mod 10) Hm) as [Hd Hv].
    assert (Hq : 0 <= n / 10 < Z.of_nat f).
    { split; [apply Z.div_pos; lia|].
      assert (n / 10 < n) by (apply Z.div_lt; lia). lia. }
    destruct (IH (n / 10) (digit_char (n mod 10) :: acc) Hq)
      as (I1 & I2 & I3); [constructor; assumption|].
    split; [exact I1|]. split; [exact I2|].
    rewrite I3. simpl. unfold decimal_step at 2. rewrite Hv. f_equal.
    rewrite (Z.div_mod n 10) at 3 by lia. reflexivity.
Qed.

Lemma int_digits_all : forall l a,
  Forall (fun c => Py.is_digit c = true) l ->
  Py.int_digits false a l = Some (fold_left decimal_step l a).
Proof.
  induction l as [|c r IH]; intros a H; [reflexivity|].
  inversion H as [|x xs Hc Hr]; subst. simpl. rewrite Hc.
  apply IH, Hr.
Qed.

Lemma digit_not_space : forall c,
  Py.is_digit c = true -> Py.is_c_space c = false /\ c <> " "%char.
Proof.
  intros c H. unfold Py.is_digit, Py.is_c_space, Py.in_range in *.
  apply andb_true_iff in H. destruct H as [H1 H2].
  apply N.leb_le in H1. split.
  - apply orb_false_iff. split.
    + apply andb_false_iff. right. apply N.leb_gt. lia.
    + apply N.eqb_neq. lia.
  - intros ->. vm_compute in H1. apply H1. reflexivity.
Qed.

Lemma to_ascii_digit : forall c,
  Py.is_digit c = true -> Py.to_ascii c = c.
Proof.
  intros c H. unfold Py.to_ascii, Py.is_digit, Py.in_range in *.
  apply andb_true_iff in H. destruct H as [_ H2]. apply N.leb_le in H2.
  destruct (N.leb_spec 128 (Py.code c)); [lia | reflexivity].
Qed.

Lemma drop_c_space_clean : forall c l,
  Py.is_c_space c = false -> Py.drop_c_space (c :: l) = c :: l.
Proof. intros c l H. simpl. rewrite H. reflexivity. Qed.

Lemma trim_c_space_digits : forall l,
  l <> [] -> Forall (fun c => Py.is_digit c = true) l ->
  Py.trim_c_space l = l.
Proof.
  intros l Hne H. unfold Py.trim_c_space.
  destruct l as [|c r]; [contradiction|].
  inversion H as [|x xs Hc Hr]; subst.
  rewrite (drop_c_space_clean c r (proj1 (digit_not_space c Hc))).
  assert (Hrev : Forall (fun c => Py.is_digit c = true) (rev (c :: r))).
  { apply Forall_rev, H. }
  destruct (rev (c :: r)) as [|y ys] eqn:E.
  - apply (f_equal (@List.length ascii)) in E.
    rewrite length_rev in E. discriminate.
  - inversion Hrev as [|x xs Hy _]; subst.
    rewrite (drop_c_space_clean y ys (proj1 (digit_not_space y Hy))).
    rewrite <- E. apply rev_involutive.
Qed.

Lemma number_text_digits : forall l,
  l <> [] -> Forall (fun c => Py.is_digit c = true) l ->
  Py.number_text (string_of_list_ascii l) = l.
Proof.
  intros l Hne H. unfold Py.number_text.
  rewrite list_ascii_of_string_of_list_ascii.
  assert (Hmap : map Py.to_ascii l = l).
  { clear Hne. induction H as [|c r Hc _ IH]; simpl; [reflexivity|].
    rewrite IH, (to_ascii_digit c Hc). reflexivity. }
  rewrite Hmap. apply trim_c_space_digits; assumption.
Qed.

Lemma int_of_digits : forall l,
  l <> [] -> Forall (fun c => Py.is_digit c = true) l ->
  Py.int (string_of_list_ascii l) = Some (fold_left decimal_step l 0)
  /\ Py.int (String "-" (string_of_list_ascii l))
     = Some (- fold_left decimal_step l 0).
Proof.
  intros l Hne H. split.
  - unfold Py.int. rewrite (number_text_digits l Hne H).
    destruct l as [|c r]; [contradiction|].
    inversion H as [|x xs Hc Hr]; subst.
    assert (Hsign : Py.take_sign (c :: r) = (false, c :: r)).
    { unfold Py.take_sign.
      destruct (Ascii.eqb_spec c "-") as [->|_]; [discriminate Hc|].
      destruct (Ascii.eqb_spec c "+") as [->|_]; [discriminate Hc|].
      reflexivity. }
    rewrite Hsign. unfold Py.int_body. rewrite Hc.
    rewrite (int_digits_all (c :: r) 0 H). reflexivity.
  - unfold Py.int, Py.number_text. cbn [list_ascii_of_string map].
    rewrite list_ascii_of_string_of_list_ascii.
    assert (Hmap : map Py.to_ascii l = l).
    { clear Hne. induction H as [|c r Hc _ IH]; simpl; [reflexivity|].
      rewrite IH, (to_ascii_digit c Hc). reflexivity. }
    rewrite Hmap.
    change (Py.to_ascii "-") with "-"%char.
    assert (Htrim : Py.trim_c_space ("-"%char :: l) = "-"%char :: l).
    { unfold Py.trim_c_space.
      rewrite (drop_c_space_clean "-" l eq_refl).
      assert (Hrev : Forall (fun c => Py.is_digit c = true) (rev l)).
      { apply Forall_rev, H. }
      cbn [rev].
      destruct (rev l) as [|y ys] eqn:E.
      - apply (f_equal (@List.length ascii)) in E.
        rewrite length_rev in E. destruct l; [contradiction|discriminate].
      - inversion Hrev as [|x xs Hy _]; subst. cbn [app].
        rewrite (drop_c_space_clean y (ys ++ ["-"%char])
                   (proj1 (digit_not_space y Hy))).
        change (y :: ys ++ ["-"%char])%list
          with ((y :: ys) ++ ["-"%char])%list.
        rewrite <- E, rev_app_distr, rev_involutive. reflexivity. }
    rewrite Htrim. cbn [Py.take_sign Ascii.eqb Bool.eqb].
    destruct l as [|c r]; [contradiction|].
    inversion H as [|x xs Hc Hr]; subst.
    unfold Py.int_body. rewrite Hc.
    rewrite (int_digits_all (c :: r) 0 H). reflexivity.
Qed.

Lemma before_separator_entry : forall l name,
  Forall (fun c => c <> " "%char) l ->
  before_separator
    (String.append (string_of_list_ascii l) (String.append " - " name))
  = string_of_list_ascii l.
Proof.
  induction l as [|c r IH]; intros name H.
  - cbn [string_of_list_ascii String.append before_separator].
    assert (Hp : String.prefix " - "
                   (String " " (String "-" (String " " name))) = true).
    { cbn [String.prefix].
      destruct (ascii_dec " " " ") as [_|N]; [|exfalso; apply N; reflexivity].
      destruct (ascii_dec "-" "-") as [_|N]; [|exfalso; apply N; reflexivity].
      destruct name; reflexivity. }
    rewrite Hp. reflexivity.
  - inversion H as [|x xs Hc Hr]; subst.
    change (before_separator
              (String c (String.append (string_of_list_ascii r)
                                       (String.append " - " name)))
            = String c (string_of_list_ascii r)).
    cbn [before_separator].
    assert (Hp : forall t, String.prefix " - " (String c t) = false).
    { intros t. cbn [String.prefix].
      destruct (ascii_dec " " c) as [E|_]; [|reflexivity].
      exfalso. apply Hc. symmetry. exact E. }
    rewrite Hp, (IH name Hr). reflexivity.
Qed.

(** X22.  The id of a combobox entry [f"{id} - {name}"] is read back by
    [int(selection.split(" - ")[0])], whatever the id and the name, also
    when the name itself contains [" - "]. *)
Theorem selected_id_of_entry : forall (id : Z) (name : string),
  selected_id (combobox_entry id name) = Some id.
Proof.
  intros id name. unfold selected_id, combobox_entry, str_of_int.
  destruct (Z.ltb_spec id 0) as [Hneg|Hpos].
  - destruct (digits_of_spec (S (Z.to_nat (- id))) (- id) [])
      as (D1 & D2 & D3); [lia | constructor|].
    set (ds := digits_of (S (Z.to_nat (- id))) (- id) []) in *.
    change (String "-" (string_of_list_ascii ds))
      with (string_of_list_ascii ("-"%char :: ds)).
    rewrite (before_separator_entry ("-"%char :: ds) name).
    + change (string_of_list_ascii ("-"%char :: ds))
        with (String "-" (string_of_list_ascii ds)).
      rewrite (proj2 (int_of_digits ds D2 D1)), D3. simpl. f_equal. lia.
    + constructor; [discriminate|].
      eapply Forall_impl; [|exact D1].
      intros c Hc. apply digit_not_space, Hc.
  - destruct (digits_of_spec (S (Z.to_nat id)) id [])
      as (D1 & D2 & D3); [lia | constructor|].
    rewrite before_separator_entry.
    + rewrite (proj1 (int_of_digits _ D2 D1)), D3. reflexivity.
    + eapply Forall_impl; [|exact D1].
      intros c Hc. apply digit_not_space, Hc.
Qed.

Example combobox_entries :
  combobox_entry 7 "Dune" = "7 - Dune"%string
  /\ combobox_entry 120 "War - and Peace" = "120 - War - and Peace"%string
  /\ selected_id "120 - War - and Peace" = Some 120
  /\ selected_id "" = None.
Proof. repeat split; reflexivity. Qed.

(* ------------------------------------------------------------------ *)
(** *** The sales report *)

Lemma SUM_app : forall l1 l2, SUM (l1 ++ l2) = SUM l1 + SUM l2.
Proof.
  induction l1 as [|x r IH]; intros l2; simpl; [reflexivity|].
  rewrite IH. lia.
Qed.

Lemma SUM_map_add : forall (A : Type) (f g : A -> Z) (l : list A),
  SUM (map (fun x => f x + g x) l) = SUM (map f l) + SUM (map g l).
Proof.
  intros A f g. induction l as [|x r IH]; simpl; [reflexivity|].
  rewrite IH. lia.
Qed.

Lemma fold_left_total : forall (A : Type) (f : A -> Z) (l : list A) (a : Z),
  fold_left (fun total row => total + f row) l a = a + SUM (map f l).
Proof.
  intros A f. induction l as [|x r IH]; intros a; simpl; [lia|].
  rewrite IH. lia.
Qed.

Lemma SUM_zero : forall (A : Type) (l : list A),
  SUM (map (fun _ => 0) l) = 0.
Proof. intros A. induction l as [|x r IH]; simpl; [reflexivity|exact IH]. Qed.

Lemma SUM_indicator : forall (k v : Z) (days : list Z),
  NoDup days ->
  SUM (map (fun day => if k =? day then v else 0) days)
  = if in_dec Z.eq_dec k days then v else 0.
Proof.
  intros k v. induction days as [|y r IH]; intros Hnd; [reflexivity|].
  inversion Hnd as [|x xs Hy Hr]; subst. simpl. rewrite (IH Hr).
  destruct (Z.eqb_spec k y) as [->|Hne].
  - destruct (Z.eq_dec y y) as [E|N]; [|contradiction].
    destruct (in_dec Z.eq_dec y r) as [Hin|Hnot]; [contradiction|lia].
  - destruct (Z.eq_dec y k) as [E|N]; [congruence|].
    destruct (in_dec Z.eq_dec k r) as [Hin|Hnot]; reflexivity.
Qed.

(** Summing group by group is summing everything, when every row falls in
    one of the (distinct) groups. *)
Lemma group_sum : forall (A : Type) (f key : A -> Z) (rows : list A)
  (days : list Z),
  NoDup days ->
  (forall r, In r rows -> In (key r) days) ->
  SUM (map (fun day => SUM (map f (filter (fun r => key r =? day) rows)))
           days)
  = SUM (map f rows).
Proof.
  intros A f key rows days Hnd. induction rows as [|r rs IH]; intros Hin.
  - simpl. apply SUM_zero.
  - rewrite (map_ext
               (fun day =>
                  SUM (map f (filter (fun r0 => key r0 =? day) (r :: rs))))
               (fun day =>
                  (if key r =? day then f r else 0)
                  + SUM (map f (filter (fun r0 => key r0 =? day) rs)))).
    + rewrite SUM_map_add, IH, (SUM_indicator (key r) (f r) days Hnd).
      * destruct (in_dec Z.eq_dec (key r) days) as [_|N]; [reflexivity|].
        exfalso. apply N, Hin. left. reflexivity.
      * intros r0 H0. apply Hin. right. exact H0.
    + intros day. simpl. destruct (key r =? day); reflexivity.
Qed.

Lemma insert_day_in : forall x y l,
  In y (insert_day x l) <-> y = x \/ In y l.
Proof.
  intros x y. induction l as [|z r IH]; simpl.
  - split; [intros [<-|[]]; left; reflexivity | intros [->|[]]; left;
            reflexivity].
  - destruct (Z.ltb_spec x z) as [Hlt|Hge].
    + simpl. split; [intros [<-|H]; [left; reflexivity | right; exact H]
                    | intros [->|H]; [left; reflexivity | right; exact H]].
    + destruct (Z.eqb_spec x z) as [->|Hne].
      * simpl. split; [intros H; right; exact H|].
        intros [->|H]; [left; reflexivity | exact H].
      * simpl. rewrite IH. split.
        -- intros [<-|[->|H]];
             [right; left; reflexivity | left; reflexivity
             | right; right; exact H].
        -- intros [->|[<-|H]];
             [right; left; reflexivity | left; reflexivity
             | right; right; exact H].
Qed.

Lemma insert_day_increasing : forall x l,
  increasing l -> increasing (insert_day x l).
Proof.
  intros x. induction l as [|z r IH]; intros H.
  - simpl. split; [intros y []|exact I].
  - destruct H as [Hz Hr]. simpl.
    destruct (Z.ltb_spec x z) as [Hlt|Hge].
    + split; [|split; assumption].
      intros y [<-|Hy]; [exact Hlt|]. specialize (Hz y Hy). lia.
    + destruct (Z.eqb_spec x z) as [->|Hne]; [split; assumption|].
      split; [|apply IH, Hr].
      intros y Hy. apply insert_day_in in Hy.
      destruct Hy as [->|Hy]; [lia | apply Hz, Hy].
Qed.

Lemma increasing_NoDup : forall l, increasing l -> NoDup l.
Proof.
  induction l as [|x r IH]; intros H; [constructor|].
  destruct H as [Hx Hr]. constructor; [|apply IH, Hr].
  intros Hin. specialize (Hx x Hin). lia.
Qed.

Lemma sale_dates_increasing : forall DATE rows,
  increasing (sale_dates DATE rows).
Proof.
  intros DATE. induction rows as [|r rs IH]; [exact I|].
  unfold sale_dates. simpl. apply insert_day_increasing, IH.
Qed.

Lemma sale_dates_in : forall DATE rows day,
  In day (sale_dates DATE rows)
  <-> exists r, In r rows /\ DATE (OrderDate (fst r)) = day.
Proof.
  intros DATE rows day. induction rows as [|r rs IH].
  - simpl. split; [intros [] | intros (r & [] & _)].
  - unfold sale_dates. simpl. rewrite insert_day_in.
    fold (sale_dates DATE rs). rewrite IH. split.
    + intros [->|(r0 & H0 & E)].
      * exists r. split; [left; reflexivity | reflexivity].
      * exists r0. split; [right; exact H0 | exact E].
    + intros (r0 & [<-|H0] & E).
      * left. symmetry. exact E.
      * right. exists r0. split; assumption.
Qed.

(** A condition on the order commutes with the join. *)
Lemma join_filter : forall (d : Database) (q : OrderRow -> bool)
  (os : list OrderRow),
  filter (fun r => q (fst r))
         (flat_map (fun o => map (pair o) (lines_of o d)) os)
  = flat_map (fun o => map (pair o) (lines_of o d)) (filter q os).
Proof.
  intros d q. induction os as [|o r IH]; [reflexivity|].
  simpl. rewrite filter_app, IH.
  assert (H : filter (fun r0 : OrderRow * OrderItemRow => q (fst r0))
                     (map (pair o) (lines_of o d))
              = if q o then map (pair o) (lines_of o d) else []).
  { induction (lines_of o d) as [|i l IHl]; simpl.
    - destruct (q o); reflexivity.
    - rewrite IHl. destruct (q o); reflexivity. }
  rewrite H. destruct (q o); reflexivity.
Qed.

Lemma join_amount : forall (d : Database) (os : list OrderRow),
  SUM (map (fun r => TotalAmount (fst r))
           (flat_map (fun o => map (pair o) (lines_of o d)) os))
  = amount_per_line d os.
Proof.
  intros d. unfold amount_per_line.
  induction os as [|o r IH]; [reflexivity|].
  simpl. rewrite map_app, SUM_app, IH. f_equal.
  induction (lines_of o d) as [|i l IHl]; [reflexivity|].
  cbn [map fst SUM fold_right List.length]. fold (SUM (map (fun r0 : OrderRow * OrderItemRow => TotalAmount (fst r0)) (map (pair o) l))).
  rewrite IHl. lia.
Qed.

Lemma join_quantity : forall (d : Database) (os : list OrderRow),
  SUM (map (fun r => i_Quantity (snd r))
           (flat_map (fun o => map (pair o) (lines_of o d)) os))
  = SUM (map (fun o => SUM (map i_Quantity (lines_of o d))) os).
Proof.
  intros d. induction os as [|o r IH]; [reflexivity|].
  simpl. rewrite map_app, SUM_app, IH. f_equal.
  rewrite map_map. reflexivity.
Qed.

Lemma join_in : forall (d : Database) (os : list OrderRow) r,
  In r (flat_map (fun o => map (pair o) (lines_of o d)) os)
  <-> In (fst r) os /\ In (snd r) (lines_of (fst r) d).
Proof.
  intros d os [o i]. rewrite in_flat_map. simpl. split.
  - intros (o' & Ho & Hi). apply in_map_iff in Hi.
    destruct Hi as (i' & E & Hi'). inversion E; subst. split; assumption.
  - intros [Ho Hi]. exists o. split; [exact Ho|].
    apply in_map_iff. exists i. split; [reflexivity | exact Hi].
Qed.

(** X23.  The total of the sales report counts the amount of an order
    once for each of its lines: for two non-empty dates the report is
    generated, and its total is the sum, over the orders of the period,
    of the order's amount times its number of lines.  Orders of every
    status are included. *)
Theorem sales_report_total_per_line : forall (DATE : Z -> Z)
  (BETWEEN : Z -> string -> string -> bool) (from_date to_date : string)
  (d : Database),
  Py.strip from_date <> EmptyString ->
  Py.strip to_date <> EmptyString ->
  exists rows,
    generate_sales_report DATE BETWEEN from_date to_date d
    = Report_generated rows
        (amount_per_line d
           (filter (in_period DATE BETWEEN (Py.strip from_date)
                              (Py.strip to_date))
                   (Orders d))).
Proof.
  intros DATE BETWEEN from_date to_date d Hf Ht.
  unfold generate_sales_report.
  destruct (Py.strip from_date) as [|cf rf] eqn:Ef; [contradiction|].
  destruct (Py.strip to_date) as [|ct rt] eqn:Et; [contradiction|].
  eexists. f_equal.
  rewrite fold_left_total. unfold sales_data. rewrite map_map.
  cbn [TotalSales sales_row]. unfold sales_of.
  set (rows := report_rows DATE BETWEEN (String cf rf) (String ct rt) d).
  rewrite (group_sum _ (fun r => TotalAmount (fst r))
             (fun r => DATE (OrderDate (fst r))) rows
             (sale_dates DATE rows)).
  - unfold rows, report_rows, orders_join_items.
    rewrite (join_filter d (in_period DATE BETWEEN (String cf rf)
                                      (String ct rt)) (Orders d)).
    rewrite join_amount. lia.
  - apply increasing_NoDup, sale_dates_increasing.
  - intros r Hr. apply sale_dates_in. exists r. split; [exact Hr|reflexivity].
Qed.

Lemma sales_report_total_per_line_witness :
  exists rows,
    generate_sales_report (fun t => t) (fun _ _ _ => true)
                          "2024-01-01" "2024-12-31" two_line_store
    = Report_generated rows 15000.
Proof.
  exact (sales_report_total_per_line (fun t => t) (fun _ _ _ => true)
           "2024-01-01" "2024-12-31" two_line_store
           ltac:(discriminate) ltac:(discriminate)).
Defined.

(** X24.  The rows of the sales report: the days are listed in
    increasing order, each once; a day is listed exactly when an order of
    the period placed on that day has a line; and the row of a day adds
    up the quantities of the lines of that day's orders, and the amount
    of each of these orders once for each of its lines. *)
Theorem sales_report_rows : forall (DATE : Z -> Z)
  (BETWEEN : Z -> string -> string -> bool) (from_date to_date : string)
  (d : Database),
  let on_day (day : Z) :=
    filter (fun o => DATE (OrderDate o) =? day)
           (filter (in_period DATE BETWEEN from_date to_date) (Orders d)) in
  let data := sales_data DATE BETWEEN from_date to_date d in
  increasing (map SaleDate data)
  /\ (forall day,
        In day (map SaleDate data)
        <-> exists o, In o (on_day day) /\ lines_of o d <> [])
  /\ (forall row,
        In row data ->
        ItemsSold row
        = SUM (map (fun o => SUM (map i_Quantity (lines_of o d)))
                   (on_day (SaleDate row)))
        /\ TotalSales row = amount_per_line d (on_day (SaleDate row))).
Proof.
  intros DATE BETWEEN from_date to_date d on_day data.
  set (rows := report_rows DATE BETWEEN from_date to_date d).
  assert (Hdates : map SaleDate data = sale_dates DATE rows).
  { unfold data, sales_data. fold rows. rewrite map_map.
    cbn [SaleDate sales_row]. apply map_id. }
  assert (Hgroup : forall day,
            sales_of DATE day rows
            = flat_map (fun o => map (pair o) (lines_of o d)) (on_day day)).
  { intros day. unfold sales_of, rows, report_rows, orders_join_items, on_day.
    rewrite (join_filter d (in_period DATE BETWEEN from_date to_date)).
    apply (join_filter d (fun o => DATE (OrderDate o) =? day)). }
  split; [rewrite Hdates; apply sale_dates_increasing|]. split.
  - intros day. rewrite Hdates, sale_dates_in. split.
    + intros (r & Hr & E).
      assert (Hin : In r (sales_of DATE day rows)).
      { apply filter_In. split; [exact Hr | apply Z.eqb_eq, E]. }
      rewrite Hgroup in Hin. apply join_in in Hin.
      exists (fst r). split; [apply Hin|].
      intros Hnil. rewrite Hnil in Hin. apply Hin.
    + intros (o & Ho & Hl).
      destruct (lines_of o d) as [|i l] eqn:El; [contradiction|].
      assert (Hin : In (o, i) (sales_of DATE day rows)).
      { rewrite Hgroup. apply join_in. simpl. split; [exact Ho|].
        rewrite El. left. reflexivity. }
      apply filter_In in Hin. exists (o, i).
      split; [apply Hin | apply Z.eqb_eq, Hin].
  - intros row Hrow. unfold data, sales_data in Hrow. fold rows in Hrow.
    apply in_map_iff in Hrow. destruct Hrow as (day & <- & _).
    cbn [ItemsSold TotalSales SaleDate sales_row].
    rewrite Hgroup. split; [apply join_quantity | apply join_amount].
Qed.

(** The report of a single order of 75.00 with two lines shows 150.00. *)
Example sales_report_two_lines :
  generate_sales_report (fun t => t) (fun _ _ _ => true)
                        "2024-01-01" "2024-12-31" two_line_store
  = Report_generated [mkSalesRow 0 1 3 15000] 15000
  /\ orders_amount (Orders two_line_store) = 7500.
Proof. split; reflexivity. Qed.

(* ------------------------------------------------------------------ *)
(** *** A quantity is also a price *)








